(** * Energy Manager: the decision engine, embedded and verified

    The repository ships the same rule engine twice: an AppDaemon app
    (apps/energy_manager/energy_manager.py, module [App] below) and a native
    Home Assistant integration (custom_components/energy_manager/__init__.py,
    module [Integration] below, with the defaults of const.py in module
    [Const]).  Both read sensor states from the host, build a system-state
    dictionary, evaluate six rules, sort the decisions by priority and pass
    the ones that ask for it through a notification gate with a two-hour
    cooldown.  test_logic.py repeats the integration's classifier and rules
    on mock sensors.

    Modelling choices.
    - Python's [float] is IEEE binary64: Rocq's primitive floats, with the
      comparisons of the source written [<?] and [<=?] ([a >= b] is
      [b <=? a], [a > b] is [b <? a]).  Configuration integers (80, 95, ...)
      are small and compare exactly as floats.
    - [float(str)], the [:.Nf] format specifier and [str] of a number belong
      to the runtime and are taken as parameters ([py_float], [fmt],
      [py_str]).
    - A sensor state is the state string the host holds for an entity, or
      nothing when the host does not know the entity.
    - A naive [datetime] is a number of microseconds on the local time line
      (type [Z]); a [timedelta] is a difference of two of them.
    - Effects (reading sensor states, the clock, the log, the notification
      service, the in-memory throttle map) are threaded through a state
      monad with exceptions; state written before an exception is raised
      survives it, as it does in Python. *)

From Stdlib Require Import ZArith Ascii String List Floats Sorted DecimalString DecimalZ.
From stdpp Require Import gmap strings list fin_maps.

Set Warnings "-inexact-float".

Local Open Scope string_scope.
Local Open Scope Z_scope.

(* ===================================================================== *)
(** * Runtime values *)
(* ===================================================================== *)

(** [bool(x)] for a float: [x != 0.0] (so [nan] is truthy, both zeros are not). *)
Definition float_truthy (x : float) : bool := negb (x =? 0)%float.

(** [bool(s)] for a string: non-empty. *)
Definition str_truthy (s : string) : bool :=
  match s with EmptyString => false | String _ _ => true end.

(** [val in (a, b, ...)] on strings: equality with one of the members. *)
Definition str_in (val : string) (tuple : list string) : bool :=
  existsb (String.eqb val) tuple.

(** [str(n)] for an int: its decimal numeral, with "-" before a negative one. *)
Definition str_of_int (z : Z) : string := NilZero.string_of_int (Z.to_int z).

(** Exception classes the engine meets.  [NonException] stands for the
    classes outside [Exception] (KeyboardInterrupt, asyncio.CancelledError,
    ...), which [except Exception] does not catch. *)
Inductive exn_class :=
| KeyError
| ValueError
| TypeError
| UpdateFailed
| OtherException (name : string)
| NonException (name : string).

Record exn := Exn { exn_cls : exn_class; exn_msg : string }.

(** [isinstance(ex, Exception)]. *)
Definition is_Exception (e : exn) : bool :=
  match exn_cls e with NonException _ => false | _ => true end.

(** [isinstance(ex, (ValueError, TypeError))]. *)
Definition is_ValueError_or_TypeError (e : exn) : bool :=
  match exn_cls e with ValueError | TypeError => true | _ => false end.

(** The result of running a statement: it completes with a value or raises. *)
Inductive res (A : Type) :=
| Ret (a : A)
| Raise (e : exn).
Arguments Ret {A} a.
Arguments Raise {A} e.

(* ===================================================================== *)
(** * Decisions and the priority sort *)
(* ===================================================================== *)

(** A decision dictionary: keys action, priority, reason, details, notify. *)
Record decision := Decision {
  action : string;
  priority : Z;
  reason : string;
  details : option string;
  notify : bool;
}.

(** [decisions.sort(key=lambda d: d["priority"])].  Python's sort is stable;
    its result is the one of insertion sort that moves an element in front
    of the later elements of strictly larger key only. *)
Fixpoint insert_by_priority (d : decision) (l : list decision) : list decision :=
  match l with
  | [] => [d]
  | d' :: l' =>
      if priority d <=? priority d' then d :: d' :: l'
      else d' :: insert_by_priority d l'
  end.

Definition sort_by_priority (l : list decision) : list decision :=
  foldr insert_by_priority [] l.

(** [decision.get("details")] as a condition: present and non-empty. *)
Definition details_truthy (d : decision) : bool :=
  match details d with Some m => str_truthy m | None => false end.

(* ===================================================================== *)
(** * The host: sensor states, clock, log, notification service *)
(* ===================================================================== *)

(** Lines the engine writes to the log, by the statement that writes them. *)
Inductive log_entry :=
| LogRunStart                                   (* "Energiemanager-Durchlauf startet..." *)
| LogReadFailure                                (* "Konnte Systemzustand nicht lesen" *)
| LogStateError (ex : exn)                      (* "Fehler beim Lesen des Systemzustands" *)
| LogSystemState                                (* log_system_state *)
| LogNoAction                                   (* "Keine besonderen Maßnahmen nötig." *)
| LogDecision (action_key reason_text : string) (* "Entscheidung: ... – ..." *)
| LogThrottled (action_key : string)            (* "Benachrichtigung ... gedrosselt (Cooldown)" *)
| LogSent (action_key : string)                 (* "Benachrichtigung gesendet: ..." *)
| LogNotifyError (ex : exn)                     (* "Benachrichtigungsfehler: ..." *)
| LogPriceChange (old_price new_price : float). (* "Preisänderung: ... → ..." *)

(** One call of the notification service that went through; the target is
    the app's single "domain/service" string or the integration's domain
    and service. *)
Record service_call := ServiceCall {
  sc_target : list string;
  sc_title : string;
  sc_message : string;
}.

(** [self.state["last_decision"]] of the app. *)
Record decision_summary := DecisionSummary {
  ds_time : Z;
  ds_decisions : list string;
  ds_pv_kw : float;
  ds_battery_soc : float;
  ds_car_soc : float;
  ds_price_ct : float;
}.

(** Everything a run reads or writes.  [clock n] is what the n-th call of
    [datetime.now()] returns; [notifier n] says whether the n-th call of the
    notification service raises, and what. *)
Record world := World {
  states : gmap string string;
  clock : nat -> Z;
  ticks : nat;
  notifier : nat -> option exn;
  attempts : nat;
  outbox : list service_call;
  log : list log_entry;
  last_notification : gmap string Z;
  last_decision : option decision_summary;
  refresh_tasks : nat;
}.

Definition M (A : Type) : Type := world -> res A * world.

Definition ret {A} (a : A) : M A := fun w => (Ret a, w).
Definition raise {A} (e : exn) : M A := fun w => (Raise e, w).
Definition bind {A B} (m : M A) (k : A -> M B) : M B :=
  fun w => match m w with
           | (Ret a, w') => k a w'
           | (Raise e, w') => (Raise e, w')
           end.

Declare Scope py_scope.
Delimit Scope py_scope with py.
Notation "x <- m ;; k" := (bind m (fun x => k))
  (at level 100, m at next level, right associativity) : py_scope.
Notation "m ;;; k" := (bind m (fun _ => k))
  (at level 100, right associativity) : py_scope.
Local Open Scope py_scope.

(** [try: body  except <classes> as ex: handler ex]: an exception of a class
    the clause names is handled, any other one propagates. *)
Definition try_except {A} (catches : exn -> bool) (body : M A) (handler : exn -> M A) : M A :=
  fun w => match body w with
           | (Raise e, w') => if catches e then handler e w' else (Raise e, w')
           | r => r
           end.

(** [for x in xs: body x]. *)
Fixpoint for_each {A} (xs : list A) (body : A -> M unit) : M unit :=
  match xs with
  | [] => ret tt
  | x :: xs' => body x ;;; for_each xs' body
  end.

Definition write_log (e : log_entry) : M unit :=
  fun w => (Ret tt,
    World (states w) (clock w) (ticks w) (notifier w) (attempts w) (outbox w)
          (log w ++ [e]) (last_notification w) (last_decision w) (refresh_tasks w)).

(** [datetime.now()]. *)
Definition datetime_now : M Z :=
  fun w => (Ret (clock w (ticks w)),
    World (states w) (clock w) (S (ticks w)) (notifier w) (attempts w) (outbox w)
          (log w) (last_notification w) (last_decision w) (refresh_tasks w)).

(** The state string of an entity, [None] when the host does not know it. *)
Definition get_state (entity_id : string) : M (option string) :=
  fun w => (Ret (states w !! entity_id), w).

(** [d[key]] on a dictionary: raises [KeyError] on a missing key. *)
Definition dict_item {V} (d : gmap string V) (key : string) : M V :=
  match d !! key with
  | Some v => ret v
  | None => raise (Exn KeyError key)
  end.

(** One call of the notification service. *)
Definition call_service (service : list string) (title message : string) : M unit :=
  fun w =>
    match notifier w (attempts w) with
    | Some e =>
        (Raise e,
         World (states w) (clock w) (ticks w) (notifier w) (S (attempts w)) (outbox w)
               (log w) (last_notification w) (last_decision w) (refresh_tasks w))
    | None =>
        (Ret tt,
         World (states w) (clock w) (ticks w) (notifier w) (S (attempts w))
               (outbox w ++ [ServiceCall service title message])
               (log w) (last_notification w) (last_decision w) (refresh_tasks w))
    end.

Definition get_last_notification (action_key : string) : M (option Z) :=
  fun w => (Ret (last_notification w !! action_key), w).

(** [last_notification[action_key] = now]. *)
Definition set_last_notification (action_key : string) (now : Z) : M unit :=
  fun w => (Ret tt,
    World (states w) (clock w) (ticks w) (notifier w) (attempts w) (outbox w)
          (log w) (<[action_key := now]> (last_notification w)) (last_decision w)
          (refresh_tasks w)).

Definition set_last_decision (d : decision_summary) : M unit :=
  fun w => (Ret tt,
    World (states w) (clock w) (ticks w) (notifier w) (attempts w) (outbox w)
          (log w) (last_notification w) (Some d) (refresh_tasks w)).

(** [hass.async_create_task(self.async_refresh())]: one more run is queued. *)
Definition create_refresh_task : M unit :=
  fun w => (Ret tt,
    World (states w) (clock w) (ticks w) (notifier w) (attempts w) (outbox w)
          (log w) (last_notification w) (last_decision w) (S (refresh_tasks w))).

(** [timedelta(hours=2)] in microseconds. *)
Definition two_hours : Z := 2 * 3600 * 1000000.

(** [.hour] of a naive datetime. *)
Definition hour_of (t : Z) : Z := (t / 3600000000) mod 24.

(** The line break of the f-strings. *)
Definition nl : string := String (Ascii.ascii_of_nat 10) EmptyString.

(** The text before and after the first "." of a string, when it has one. *)
Fixpoint break_at_dot (s : string) : option (string * string) :=
  match s with
  | EmptyString => None
  | String c s' =>
      if Ascii.eqb c "."%char then Some (EmptyString, s')
      else match break_at_dot s' with
           | Some (before, after) => Some (String c before, after)
           | None => None
           end
  end.

(** [s.split(".", 1)]. *)
Definition split_first_dot (s : string) : list string :=
  match break_at_dot s with
  | Some (before, after) => [before; after]
  | None => [s]
  end.

(** [s.replace(".", "/", 1)]. *)
Definition replace_first_dot (s : string) : string :=
  match break_at_dot s with
  | Some (before, after) => before ++ "/" ++ after
  | None => s
  end.

#[local] Instance float_inhabited : Inhabited float := populate 0%float.

(* ===================================================================== *)
(** * custom_components/energy_manager/const.py *)
(* ===================================================================== *)

Module Const.

(** The numeric entries of [DEFAULT_CONFIG]. *)
Definition DEFAULT_CONFIG : gmap string float :=
  list_to_map
    [ ("battery_capacity_kwh", 10.0%float);
      ("battery_min_soc", 10%float);
      ("battery_max_soc", 95%float);
      ("battery_reserve_evening", 30%float);
      ("car_battery_capacity_kwh", 77.0%float);
      ("car_max_charge_power_kw", 11.0%float);
      ("car_min_soc_target", 20%float);
      ("car_default_target_soc", 80%float);
      ("pv_peak_power_kw", 10.0%float);
      ("price_cheap_threshold", 15.0%float);
      ("price_very_cheap_threshold", 8.0%float);
      ("price_expensive_threshold", 30.0%float);
      ("pv_surplus_for_car_charging", 3.0%float);
      ("pv_surplus_for_battery", 1.0%float);
      ("check_interval_minutes", 15%float) ].

(** [DEFAULT_CONFIG["entities"]]. *)
Definition DEFAULT_ENTITIES : gmap string string :=
  list_to_map
    [ ("pv_power", "sensor.pv_power");
      ("pv_forecast_today", "sensor.solcast_pv_forecast_today");
      ("pv_forecast_remaining", "sensor.solcast_forecast_remaining");
      ("battery_soc", "sensor.battery_soc");
      ("battery_power", "sensor.battery_power");
      ("battery_charging_switch", "switch.battery_force_charge");
      ("battery_mode", "select.battery_operating_mode");
      ("car_soc", "sensor.car_battery_level");
      ("car_charging_switch", "switch.car_charger");
      ("car_charging_power", "sensor.car_charging_power");
      ("car_connected", "binary_sensor.car_connected");
      ("grid_power", "sensor.grid_power");
      ("house_consumption", "sensor.house_consumption");
      ("current_price", "sensor.tibber_current_price");
      ("price_level", "sensor.tibber_price_level") ].

(** [DEFAULT_CONFIG["notify_service"]]. *)
Definition DEFAULT_NOTIFY_SERVICE : string := "notify.mobile_app_dein_smartphone".

End Const.

(* ===================================================================== *)
(** * custom_components/energy_manager/__init__.py *)
(* ===================================================================== *)

Module Integration.

(** [self._cfg]: the numeric entries, the notification service and the
    entity mapping ([self._entities]). *)
Record config := Config {
  numbers : gmap string float;
  notify_service : option string;
  entities : gmap string string;
}.

(** [cfg.get(key, DEFAULT_CONFIG[key])]. *)
Definition cfg_get (cfg : config) (key : string) : float :=
  default (Const.DEFAULT_CONFIG !!! key) (numbers cfg !! key).

(** The configuration [async_setup] builds from the user's entries
    ([config.get(DOMAIN, {})]) and hands to the coordinator:
    [{**DEFAULT_CONFIG, **user_cfg, "entities": entities}] with
    [entities = {**DEFAULT_CONFIG["entities"], **user_cfg.get("entities", {})}]:
    the user's entries win, the defaults fill the gaps. *)
Definition async_setup_cfg (user_cfg : config) : config :=
  {| numbers := numbers user_cfg ∪ Const.DEFAULT_CONFIG;
     notify_service :=
       Some (default Const.DEFAULT_NOTIFY_SERVICE (notify_service user_cfg));
     entities := entities user_cfg ∪ Const.DEFAULT_ENTITIES |}.

(** The dictionary [_get_system_state] returns. *)
Record system_state := SystemState {
  pv_power_kw : float;
  pv_surplus_kw : float;
  pv_forecast_today_kwh : float;
  pv_forecast_remaining_kwh : float;
  pv_forecast_tomorrow_kwh : float;
  pv_forecast_next_hour_kwh : float;
  pv_forecast_d3_kwh : float;
  pv_forecast_d4_kwh : float;
  pv_forecast_d5_kwh : float;
  pv_forecast_d6_kwh : float;
  pv_forecast_d7_kwh : float;
  battery_soc : float;
  battery_power_kw : float;
  car_soc : float;
  car_connected : bool;
  car_charging_power_kw : float;
  grid_power_kw : float;
  house_consumption_kw : float;
  current_price_eur : float;
  price_level : string;
  hour : Z;
  is_night : bool;
  is_morning : bool;
}.

Section Engine.

(** [float(s)] on a string ([None]: it raises ValueError), the format
    specifier [:.Nf] and [str] of a number. *)
Variable py_float : string -> option float.
Variable fmt : nat -> float -> string.
Variable py_str : float -> string.

Variable cfg : config.

Definition float_of_str (val : string) : M float :=
  match py_float val with
  | Some x => ret x
  | None => raise (Exn ValueError val)
  end.

Definition _compute_price_level (price : float) : string :=
  let very_cheap := cfg_get cfg "price_very_cheap_threshold" in
  let cheap := cfg_get cfg "price_cheap_threshold" in
  let expensive := cfg_get cfg "price_expensive_threshold" in
  if (price <=? very_cheap)%float then "VERY_CHEAP"
  else if (price <=? cheap)%float then "CHEAP"
  else if (expensive <=? price)%float then "EXPENSIVE"
  else "NORMAL".

Definition _is_pv_producing_well (s : system_state) : bool :=
  (cfg_get cfg "pv_peak_power_kw" * 0.2 <? pv_power_kw s)%float.

Definition _safe_float (entity_id : string) (default : float) : M float :=
  state <- get_state entity_id ;;
  match state with
  | None => ret default
  | Some val =>
      if str_in val ["unavailable"; "unknown"] then ret default
      else try_except is_ValueError_or_TypeError
             (float_of_str val)
             (fun _ => ret default)
  end.

Definition _safe_bool (entity_id : string) : M bool :=
  state <- get_state entity_id ;;
  match state with
  | None => ret false
  | Some val => ret (str_in val ["on"; "true"; "True"; "1"; "home"])
  end.

(** [datetime.now().hour]. *)
Definition now_hour : M Z :=
  t <- datetime_now ;; ret (hour_of t).

(** The body of the [try] of [_get_system_state]. *)
Definition read_system_state : M system_state :=
  let e := entities cfg in
  k <- dict_item e "pv_power" ;; pv_power_w <- _safe_float k 0 ;;
  k <- dict_item e "house_consumption" ;; house_consumption_w <- _safe_float k 0 ;;
  k <- dict_item e "grid_power" ;; grid_power_w <- _safe_float k 0 ;;
  let pv_surplus_w := (pv_power_w - house_consumption_w)%float in
  k <- dict_item e "current_price" ;; current_price_eur <- _safe_float k 0 ;;
  let price_level := _compute_price_level current_price_eur in
  k <- dict_item e "pv_forecast_today" ;; forecast_today <- _safe_float k 0 ;;
  k <- dict_item e "pv_forecast_remaining" ;; forecast_remaining <- _safe_float k 0 ;;
  k <- dict_item e "pv_forecast_tomorrow" ;; forecast_tomorrow <- _safe_float k 0 ;;
  k <- dict_item e "pv_forecast_next_hour" ;; forecast_next_hour <- _safe_float k 0 ;;
  k <- dict_item e "pv_forecast_d3" ;; forecast_d3 <- _safe_float k 0 ;;
  k <- dict_item e "pv_forecast_d4" ;; forecast_d4 <- _safe_float k 0 ;;
  k <- dict_item e "pv_forecast_d5" ;; forecast_d5 <- _safe_float k 0 ;;
  k <- dict_item e "pv_forecast_d6" ;; forecast_d6 <- _safe_float k 0 ;;
  k <- dict_item e "pv_forecast_d7" ;; forecast_d7 <- _safe_float k 0 ;;
  k <- dict_item e "battery_soc" ;; battery_soc <- _safe_float k 0 ;;
  k <- dict_item e "battery_power" ;; battery_power <- _safe_float k 0 ;;
  k <- dict_item e "car_soc" ;; car_soc <- _safe_float k 0 ;;
  k <- dict_item e "car_connected" ;; car_connected <- _safe_bool k ;;
  k <- dict_item e "car_charging_power" ;; car_charging_power <- _safe_float k 0 ;;
  hour <- now_hour ;;
  h1 <- now_hour ;;
  is_night <- (if h1 <? 6 then ret true
               else h2 <- now_hour ;; ret (22 <=? h2)) ;;
  h3 <- now_hour ;;
  ret {| pv_power_kw := (pv_power_w / 1000)%float;
         pv_surplus_kw := (pv_surplus_w / 1000)%float;
         pv_forecast_today_kwh := forecast_today;
         pv_forecast_remaining_kwh := forecast_remaining;
         pv_forecast_tomorrow_kwh := forecast_tomorrow;
         pv_forecast_next_hour_kwh := forecast_next_hour;
         pv_forecast_d3_kwh := forecast_d3;
         pv_forecast_d4_kwh := forecast_d4;
         pv_forecast_d5_kwh := forecast_d5;
         pv_forecast_d6_kwh := forecast_d6;
         pv_forecast_d7_kwh := forecast_d7;
         battery_soc := battery_soc;
         battery_power_kw := (battery_power / 1000)%float;
         car_soc := car_soc;
         car_connected := car_connected;
         car_charging_power_kw := (car_charging_power / 1000)%float;
         grid_power_kw := (grid_power_w / 1000)%float;
         house_consumption_kw := (house_consumption_w / 1000)%float;
         current_price_eur := current_price_eur;
         price_level := price_level;
         hour := hour;
         is_night := is_night;
         is_morning := (6 <=? h3) && (h3 <? 10) |}.

Definition _get_system_state : M (option system_state) :=
  try_except is_Exception
    (s <- read_system_state ;; ret (Some s))
    (fun ex => write_log (LogStateError ex) ;;; ret None).

Definition car_charge_pv (s : system_state) : decision :=
  {| action := "car_charge_pv";
     priority := 1;
     reason := "PV-Überschuss";
     details := Some ("PV-Überschuss: " ++ fmt 1 (pv_surplus_kw s) ++ " kW verfügbar." ++ nl
                      ++ "Auto-Akku: " ++ fmt 0 (car_soc s) ++ "% → Laden empfohlen!");
     notify := true |}.

Definition battery_charge_pv : decision :=
  {| action := "battery_charge_pv";
     priority := 1;
     reason := "PV-Überschuss für Speicher";
     details := None;
     notify := false |}.

Definition battery_charge_grid (s : system_state) : decision :=
  {| action := "battery_charge_grid";
     priority := 2;
     reason := "Sehr günstiger Netzstrom";
     details := Some ("Strompreis sehr günstig: " ++ fmt 3 (current_price_eur s) ++ " €/kWh" ++ nl
                      ++ "Speicher (" ++ fmt 0 (battery_soc s)
                      ++ "%) aus dem Netz laden empfohlen!");
     notify := true |}.

Definition car_charge_cheap (s : system_state) : decision :=
  {| action := "car_charge_cheap";
     priority := 2;
     reason := "Günstiger Netzstrom";
     details := Some ("Günstiger Strom: " ++ fmt 3 (current_price_eur s) ++ " €/kWh" ++ nl
                      ++ "Auto-Akku: " ++ fmt 0 (car_soc s) ++ "% → Jetzt laden empfohlen!");
     notify := true |}.

Definition car_charge_emergency (s : system_state) : decision :=
  {| action := "car_charge_emergency";
     priority := 0;
     reason := "Kritischer Auto-SOC";
     details := Some ("Auto-Akku kritisch niedrig: " ++ fmt 0 (car_soc s) ++ "%!" ++ nl
                      ++ "Sofortiges Laden empfohlen (Mindest-SOC: "
                      ++ py_str (cfg_get cfg "car_min_soc_target") ++ "%)");
     notify := true |}.

Definition stop_grid_consumption (s : system_state) : decision :=
  {| action := "stop_grid_consumption";
     priority := 2;
     reason := "Hoher Strompreis";
     details := Some ("Strom teuer: " ++ fmt 3 (current_price_eur s) ++ " €/kWh" ++ nl
                      ++ "Speicher (" ++ fmt 0 (battery_soc s)
                      ++ "%) statt Netzbezug nutzen empfohlen.");
     notify := true |}.

(** The six [if]s of [_make_decisions], in the order of the source. *)
Definition car_charge_pv_fires (s : system_state) : bool :=
  car_connected s
  && (car_soc s <? cfg_get cfg "car_default_target_soc")%float
  && (cfg_get cfg "pv_surplus_for_car_charging" <=? pv_surplus_kw s)%float.

Definition battery_charge_pv_fires (s : system_state) : bool :=
  (cfg_get cfg "pv_surplus_for_battery" <=? pv_surplus_kw s)%float
  && (battery_soc s <? cfg_get cfg "battery_max_soc")%float
  && negb (car_connected s).

Definition battery_charge_grid_fires (s : system_state) : bool :=
  (current_price_eur s <=? cfg_get cfg "price_very_cheap_threshold")%float
  && (battery_soc s <? cfg_get cfg "battery_max_soc")%float
  && negb (_is_pv_producing_well s).

Definition car_charge_cheap_fires (s : system_state) : bool :=
  car_connected s
  && (car_soc s <? cfg_get cfg "car_default_target_soc")%float
  && (current_price_eur s <=? cfg_get cfg "price_cheap_threshold")%float
  && (pv_surplus_kw s <? cfg_get cfg "pv_surplus_for_car_charging")%float.

Definition car_charge_emergency_fires (s : system_state) : bool :=
  car_connected s && (car_soc s <? cfg_get cfg "car_min_soc_target")%float.

Definition stop_grid_consumption_fires (s : system_state) : bool :=
  (cfg_get cfg "price_expensive_threshold" <=? current_price_eur s)%float
  && (cfg_get cfg "battery_reserve_evening" <? battery_soc s)%float.

(** The list before [decisions.sort]. *)
Definition appended_decisions (s : system_state) : list decision :=
  let decisions := [] in
  let decisions :=
    if car_charge_pv_fires s then (decisions ++ [car_charge_pv s])%list else decisions in
  let decisions :=
    if battery_charge_pv_fires s then (decisions ++ [battery_charge_pv])%list else decisions in
  let decisions :=
    if battery_charge_grid_fires s then (decisions ++ [battery_charge_grid s])%list else decisions in
  let decisions :=
    if car_charge_cheap_fires s then (decisions ++ [car_charge_cheap s])%list else decisions in
  let decisions :=
    if car_charge_emergency_fires s then (decisions ++ [car_charge_emergency s])%list else decisions in
  let decisions :=
    if stop_grid_consumption_fires s then (decisions ++ [stop_grid_consumption s])%list else decisions in
  decisions.

Definition _make_decisions (s : system_state) : list decision :=
  sort_by_priority (appended_decisions s).

Definition _send_smart_notification (action_key message : string) : M unit :=
  now <- datetime_now ;;
  last <- get_last_notification action_key ;;
  if match last with Some l => now - l <? two_hours | None => false end
  then write_log (LogThrottled action_key)
  else
    try_except is_Exception
      (let service_name := default Const.DEFAULT_NOTIFY_SERVICE (notify_service cfg) in
       let parts := split_first_dot service_name in
       let domain := hd "" parts in
       let service := if (1 <? length parts)%nat then nth 1 parts "" else hd "" parts in
       call_service [domain; service] "Energiemanager" message ;;;
       set_last_notification action_key now ;;;
       write_log (LogSent action_key))
      (fun ex => write_log (LogNotifyError ex)).

Definition _execute_decisions (decisions : list decision) (system : system_state) : M unit :=
  match decisions with
  | [] => write_log LogNoAction
  | _ =>
      for_each decisions (fun decision =>
        let action := action decision in
        write_log (LogDecision action (reason decision)) ;;;
        if notify decision && details_truthy decision
        then _send_smart_notification action (default "" (details decision))
        else ret tt)
  end.

Definition _log_system_state (s : system_state) : M unit :=
  write_log LogSystemState.

Definition _async_update_data : M system_state :=
  write_log LogRunStart ;;;
  system <- _get_system_state ;;
  match system with
  | None => raise (Exn UpdateFailed "Konnte Systemzustand nicht lesen")
  | Some system =>
      _log_system_state system ;;;
      let decisions := _make_decisions system in
      _execute_decisions decisions system ;;;
      ret system
  end.

(** [_on_price_change(event)]: the event carries the new and the old
    state object, each possibly absent; a state object is its state
    string. *)
Definition _on_price_change (new_state old_state : option string) : M unit :=
  match new_state with
  | None => ret tt
  | Some new_val =>
      let old_val := old_state in
      if bool_decide (Some new_val = old_val) then ret tt
      else
        try_except is_ValueError_or_TypeError
          (new_price <- float_of_str new_val ;;
           old_price <-
             match old_val with
             | None => ret None
             | Some o =>
                 if str_in o ["unavailable"; "unknown"] then ret None
                 else x <- float_of_str o ;; ret (Some x)
             end ;;
           match old_price with
           | Some old_price =>
               if (0.02 <? abs (new_price - old_price))%float
               then write_log (LogPriceChange old_price new_price) ;;;
                    create_refresh_task
               else ret tt
           | None => ret tt
           end)
          (fun _ => ret tt)
  end.

End Engine.

End Integration.

(* ===================================================================== *)
(** * apps/energy_manager/energy_manager.py *)
(* ===================================================================== *)

Module App.

(** The module-level [CONFIG] dictionary, which the user edits in place. *)
Record config := Config {
  battery_capacity_kwh : float;
  battery_min_soc : float;
  battery_max_soc : float;
  battery_reserve_evening : float;
  car_battery_capacity_kwh : float;
  car_max_charge_power_kw : float;
  car_min_soc_target : float;
  car_default_target_soc : float;
  pv_peak_power_kw : float;
  price_cheap_threshold : float;
  price_very_cheap_threshold : float;
  price_expensive_threshold : float;
  pv_surplus_for_car_charging : float;
  pv_surplus_for_battery : float;
  entities : gmap string string;
  notify_service : string;
  check_interval_minutes : Z;
}.

(** [CONFIG] as shipped. *)
Definition SHIPPED_CONFIG : config :=
  {| battery_capacity_kwh := 10.0;
     battery_min_soc := 10;
     battery_max_soc := 95;
     battery_reserve_evening := 30;
     car_battery_capacity_kwh := 77.0;
     car_max_charge_power_kw := 11.0;
     car_min_soc_target := 20;
     car_default_target_soc := 80;
     pv_peak_power_kw := 10.0;
     price_cheap_threshold := 15.0;
     price_very_cheap_threshold := 8.0;
     price_expensive_threshold := 30.0;
     pv_surplus_for_car_charging := 3.0;
     pv_surplus_for_battery := 1.0;
     entities := Const.DEFAULT_ENTITIES;
     notify_service := "notify.mobile_app_dein_smartphone";
     check_interval_minutes := 15 |}.

(** The dictionary [get_system_state] returns. *)
Record system_state := SystemState {
  pv_power_kw : float;
  pv_surplus_kw : float;
  pv_forecast_today_kwh : float;
  pv_forecast_remaining_kwh : float;
  battery_soc : float;
  battery_power_kw : float;
  car_soc : float;
  car_connected : bool;
  car_charging_power_kw : float;
  grid_power_kw : float;
  house_consumption_kw : float;
  current_price_ct : float;
  price_level : string;
  hour : Z;
  is_night : bool;
  is_morning : bool;
}.

Section Engine.

Variable py_float : string -> option float.
Variable fmt : nat -> float -> string.
Variable py_str : float -> string.

Variable CONFIG : config.

(** [float(val)]: TypeError on [None], ValueError on a string that is
    not a number. *)
Definition float_of_val (val : option string) : M float :=
  match val with
  | None => raise (Exn TypeError "float() argument must be a string or a real number")
  | Some s =>
      match py_float s with
      | Some x => ret x
      | None => raise (Exn ValueError s)
      end
  end.

Definition safe_float (entity_id : string) (default : float) : M float :=
  val <- get_state entity_id ;;
  if match val with
     | None => true
     | Some v => str_in v ["unavailable"; "unknown"]
     end
  then ret default
  else try_except is_ValueError_or_TypeError
         (float_of_val val)
         (fun _ => ret default).

Definition safe_bool (entity_id : string) : M bool :=
  val <- get_state entity_id ;;
  ret match val with
      | None => false
      | Some v => str_in v ["on"; "true"; "True"; "1"; "home"]
      end.

Definition now_hour : M Z :=
  t <- datetime_now ;; ret (hour_of t).

(** The body of the [try] of [get_system_state]. *)
Definition read_system_state : M system_state :=
  let e := entities CONFIG in
  k <- dict_item e "pv_power" ;; pv_power_w <- safe_float k 0 ;;
  k <- dict_item e "house_consumption" ;; house_consumption_w <- safe_float k 0 ;;
  k <- dict_item e "grid_power" ;; grid_power_w <- safe_float k 0 ;;
  let pv_surplus_w := (pv_power_w - house_consumption_w)%float in
  k <- dict_item e "pv_forecast_today" ;; forecast_today <- safe_float k 0 ;;
  k <- dict_item e "pv_forecast_remaining" ;; forecast_remaining <- safe_float k 0 ;;
  k <- dict_item e "battery_soc" ;; battery_soc <- safe_float k 0 ;;
  k <- dict_item e "battery_power" ;; battery_power <- safe_float k 0 ;;
  k <- dict_item e "car_soc" ;; car_soc <- safe_float k 0 ;;
  k <- dict_item e "car_connected" ;; car_connected <- safe_bool k ;;
  k <- dict_item e "car_charging_power" ;; car_charging_power <- safe_float k 0 ;;
  k <- dict_item e "current_price" ;; current_price_ct <- safe_float k 0 ;;
  k <- dict_item e "price_level" ;; level <- get_state k ;;
  hour <- now_hour ;;
  h1 <- now_hour ;;
  is_night <- (if h1 <? 6 then ret true
               else h2 <- now_hour ;; ret (22 <=? h2)) ;;
  h3 <- now_hour ;;
  ret {| pv_power_kw := (pv_power_w / 1000)%float;
         pv_surplus_kw := (pv_surplus_w / 1000)%float;
         pv_forecast_today_kwh := forecast_today;
         pv_forecast_remaining_kwh := forecast_remaining;
         battery_soc := battery_soc;
         battery_power_kw := (battery_power / 1000)%float;
         car_soc := car_soc;
         car_connected := car_connected;
         car_charging_power_kw := (car_charging_power / 1000)%float;
         grid_power_kw := (grid_power_w / 1000)%float;
         house_consumption_kw := (house_consumption_w / 1000)%float;
         current_price_ct := current_price_ct;
         price_level := match level with
                        | Some l => if str_truthy l then l else "NORMAL"
                        | None => "NORMAL"
                        end;
         hour := hour;
         is_night := is_night;
         is_morning := (6 <=? h3) && (h3 <? 10) |}.

Definition get_system_state : M (option system_state) :=
  try_except is_Exception
    (s <- read_system_state ;; ret (Some s))
    (fun ex => write_log (LogStateError ex) ;;; ret None).

Definition _is_pv_producing_well (s : system_state) : bool :=
  (pv_peak_power_kw CONFIG * 0.2 <? pv_power_kw s)%float.

Definition car_charge_pv (s : system_state) : decision :=
  {| action := "car_charge_pv";
     priority := 1;
     reason := "PV-Überschuss";
     details := Some ("☀️ PV-Überschuss: " ++ fmt 1 (pv_surplus_kw s) ++ " kW verfügbar." ++ nl
                      ++ "Auto-Akku: " ++ fmt 0 (car_soc s) ++ "% → Laden empfohlen!");
     notify := true |}.

Definition battery_charge_pv : decision :=
  {| action := "battery_charge_pv";
     priority := 1;
     reason := "PV-Überschuss für Speicher";
     details := None;
     notify := false |}.

Definition battery_charge_grid (s : system_state) : decision :=
  {| action := "battery_charge_grid";
     priority := 2;
     reason := "Sehr günstiger Netzstrom";
     details := Some ("💰 Strompreis sehr günstig: " ++ fmt 1 (current_price_ct s) ++ " Ct/kWh" ++ nl
                      ++ "Speicher (" ++ fmt 0 (battery_soc s)
                      ++ "%) aus dem Netz laden empfohlen!");
     notify := true |}.

Definition car_charge_cheap (s : system_state) : decision :=
  {| action := "car_charge_cheap";
     priority := 2;
     reason := "Günstiger Netzstrom";
     details := Some ("💡 Günstiger Strom: " ++ fmt 1 (current_price_ct s) ++ " Ct/kWh" ++ nl
                      ++ "Auto-Akku: " ++ fmt 0 (car_soc s) ++ "% → Jetzt laden empfohlen!");
     notify := true |}.

Definition car_charge_emergency (s : system_state) : decision :=
  {| action := "car_charge_emergency";
     priority := 0;
     reason := "Kritischer Auto-SOC";
     details := Some ("⚠️ Auto-Akku kritisch niedrig: " ++ fmt 0 (car_soc s) ++ "%!" ++ nl
                      ++ "Sofortiges Laden empfohlen (Mindest-SOC: "
                      ++ py_str (car_min_soc_target CONFIG) ++ "%)");
     notify := true |}.

Definition stop_grid_consumption (s : system_state) : decision :=
  {| action := "stop_grid_consumption";
     priority := 2;
     reason := "Hoher Strompreis";
     details := Some ("🔴 Strom teuer: " ++ fmt 1 (current_price_ct s) ++ " Ct/kWh" ++ nl
                      ++ "Speicher (" ++ fmt 0 (battery_soc s)
                      ++ "%) statt Netzbezug nutzen empfohlen.");
     notify := true |}.

(** The six [if]s of [make_decisions], in the order of the source. *)
Definition car_charge_pv_fires (s : system_state) : bool :=
  car_connected s
  && (car_soc s <? car_default_target_soc CONFIG)%float
  && (pv_surplus_for_car_charging CONFIG <=? pv_surplus_kw s)%float.

Definition battery_charge_pv_fires (s : system_state) : bool :=
  (pv_surplus_for_battery CONFIG <=? pv_surplus_kw s)%float
  && (battery_soc s <? battery_max_soc CONFIG)%float
  && negb (car_connected s).

Definition battery_charge_grid_fires (s : system_state) : bool :=
  (current_price_ct s <=? price_very_cheap_threshold CONFIG)%float
  && (battery_soc s <? battery_max_soc CONFIG)%float
  && negb (_is_pv_producing_well s).

Definition car_charge_cheap_fires (s : system_state) : bool :=
  car_connected s
  && (car_soc s <? car_default_target_soc CONFIG)%float
  && (current_price_ct s <=? price_cheap_threshold CONFIG)%float
  && (pv_surplus_kw s <? pv_surplus_for_car_charging CONFIG)%float.

Definition car_charge_emergency_fires (s : system_state) : bool :=
  car_connected s && (car_soc s <? car_min_soc_target CONFIG)%float.

Definition stop_grid_consumption_fires (s : system_state) : bool :=
  (price_expensive_threshold CONFIG <=? current_price_ct s)%float
  && (battery_reserve_evening CONFIG <? battery_soc s)%float.

(** The list before [decisions.sort]. *)
Definition appended_decisions (s : system_state) : list decision :=
  let decisions := [] in
  let decisions :=
    if car_charge_pv_fires s then (decisions ++ [car_charge_pv s])%list else decisions in
  let decisions :=
    if battery_charge_pv_fires s then (decisions ++ [battery_charge_pv])%list else decisions in
  let decisions :=
    if battery_charge_grid_fires s then (decisions ++ [battery_charge_grid s])%list else decisions in
  let decisions :=
    if car_charge_cheap_fires s then (decisions ++ [car_charge_cheap s])%list else decisions in
  let decisions :=
    if car_charge_emergency_fires s then (decisions ++ [car_charge_emergency s])%list else decisions in
  let decisions :=
    if stop_grid_consumption_fires s then (decisions ++ [stop_grid_consumption s])%list else decisions in
  decisions.

Definition make_decisions (s : system_state) : list decision :=
  sort_by_priority (appended_decisions s).

Definition send_smart_notification (action_key message : string) : M unit :=
  now <- datetime_now ;;
  last <- get_last_notification action_key ;;
  if match last with Some l => now - l <? two_hours | None => false end
  then write_log (LogThrottled action_key)
  else
    try_except is_Exception
      (call_service [replace_first_dot (notify_service CONFIG)] "⚡ Energiemanager" message ;;;
       set_last_notification action_key now ;;;
       write_log (LogSent action_key))
      (fun ex => write_log (LogNotifyError ex)).

Definition execute_decisions (decisions : list decision) (system : system_state) : M unit :=
  match decisions with
  | [] => write_log LogNoAction
  | _ =>
      for_each decisions (fun decision =>
        let action := action decision in
        write_log (LogDecision action (reason decision)) ;;;
        if notify decision && details_truthy decision
        then send_smart_notification action (default "" (details decision))
        else ret tt) ;;;
      now <- datetime_now ;;
      set_last_decision
        {| ds_time := now;
           ds_decisions := map action decisions;
           ds_pv_kw := pv_power_kw system;
           ds_battery_soc := battery_soc system;
           ds_car_soc := car_soc system;
           ds_price_ct := current_price_ct system |}
  end.

Definition log_system_state (s : system_state) : M unit :=
  write_log LogSystemState.

Definition run_energy_manager : M unit :=
  write_log LogRunStart ;;;
  system <- get_system_state ;;
  match system with
  | None => write_log LogReadFailure
  | Some system =>
      log_system_state system ;;;
      let decisions := make_decisions system in
      execute_decisions decisions system
  end.

(** [on_price_change(entity, attribute, old, new, kwargs)]; [old] and
    [new] are state strings or [None]. *)
Definition on_price_change (old new : option string) : M unit :=
  if bool_decide (old = new) then ret tt
  else
    try_except is_ValueError_or_TypeError
      (new_price <- float_of_val new ;;
       old_price <-
         (if match old with
             | None => true
             | Some o => str_in o ["unavailable"]
             end
          then ret None
          else x <- float_of_val old ;; ret (Some x)) ;;
       match old_price with
       | Some old_price =>
           if float_truthy old_price && (2.0 <? abs (new_price - old_price))%float
           then write_log (LogPriceChange old_price new_price) ;;;
                run_energy_manager
           else ret tt
       | None => ret tt
       end)
      (fun _ => ret tt).

End Engine.

End App.


(* ===================================================================== *)
(** * test_logic.py *)
(* ===================================================================== *)

Module TestLogic.

(** The dictionary [get_system_state] of the test script returns. *)
Record system_state := SystemState {
  pv_power_kw : float;
  pv_surplus_kw : float;
  pv_forecast_today_kwh : float;
  pv_forecast_remaining_kwh : float;
  battery_soc : float;
  battery_power_kw : float;
  car_soc : float;
  car_connected : bool;
  car_charging_power_kw : float;
  grid_power_kw : float;
  house_consumption_kw : float;
  current_price_eur : float;
  price_level : string;
  hour : Z;
  is_night : bool;
  is_morning : bool;
}.

(** [cfg] is a dictionary like the integration's; [cfg.get(key,
    DEFAULT_CONFIG[key])] is [Integration.cfg_get]. *)
Definition compute_price_level (price : float) (cfg : Integration.config) : string :=
  let very_cheap := Integration.cfg_get cfg "price_very_cheap_threshold" in
  let cheap := Integration.cfg_get cfg "price_cheap_threshold" in
  let expensive := Integration.cfg_get cfg "price_expensive_threshold" in
  if (price <=? very_cheap)%float then "VERY_CHEAP"
  else if (price <=? cheap)%float then "CHEAP"
  else if (expensive <=? price)%float then "EXPENSIVE"
  else "NORMAL".

(** A decision of the test script has the keys action, priority and reason
    only; details and notify are absent (read with [.get] they are [None]). *)
Definition decision3 (action : string) (priority : Z) (reason : string) : decision :=
  {| action := action; priority := priority; reason := reason;
     details := None; notify := false |}.

Definition make_decisions (s : system_state) (cfg : Integration.config) : list decision :=
  let decisions := [] in
  let price := current_price_eur s in
  let cheap := Integration.cfg_get cfg "price_cheap_threshold" in
  let very_cheap := Integration.cfg_get cfg "price_very_cheap_threshold" in
  let expensive := Integration.cfg_get cfg "price_expensive_threshold" in
  let decisions :=
    if car_connected s
       && (car_soc s <? Integration.cfg_get cfg "car_default_target_soc")%float
       && (Integration.cfg_get cfg "pv_surplus_for_car_charging" <=? pv_surplus_kw s)%float
    then (decisions ++ [decision3 "car_charge_pv" 1 "PV-Überschuss"])%list
    else decisions in
  let decisions :=
    if (Integration.cfg_get cfg "pv_surplus_for_battery" <=? pv_surplus_kw s)%float
       && (battery_soc s <? Integration.cfg_get cfg "battery_max_soc")%float
       && negb (car_connected s)
    then (decisions ++ [decision3 "battery_charge_pv" 1 "PV-Überschuss für Speicher"])%list
    else decisions in
  let pv_producing_well :=
    (Integration.cfg_get cfg "pv_peak_power_kw" * 0.2 <? pv_power_kw s)%float in
  let decisions :=
    if (price <=? very_cheap)%float
       && (battery_soc s <? Integration.cfg_get cfg "battery_max_soc")%float
       && negb pv_producing_well
    then (decisions ++ [decision3 "battery_charge_grid" 2 "Sehr günstiger Netzstrom"])%list
    else decisions in
  let decisions :=
    if car_connected s
       && (car_soc s <? Integration.cfg_get cfg "car_default_target_soc")%float
       && (price <=? cheap)%float
       && (pv_surplus_kw s <? Integration.cfg_get cfg "pv_surplus_for_car_charging")%float
    then (decisions ++ [decision3 "car_charge_cheap" 2 "Günstiger Netzstrom"])%list
    else decisions in
  let decisions :=
    if car_connected s
       && (car_soc s <? Integration.cfg_get cfg "car_min_soc_target")%float
    then (decisions ++ [decision3 "car_charge_emergency" 0 "Kritischer Auto-SOC"])%list
    else decisions in
  let decisions :=
    if (expensive <=? price)%float
       && (Integration.cfg_get cfg "battery_reserve_evening" <? battery_soc s)%float
    then (decisions ++ [decision3 "stop_grid_consumption" 2 "Hoher Strompreis"])%list
    else decisions in
  sort_by_priority decisions.

(** A value of the table [MOCK_SENSORS]: the shipped table holds ints,
    floats and one string; [safe_float] also provides for [None], and
    [str(val)] in [safe_bool] for anything, of which booleans are kept. *)
Inductive mock_value :=
| MockInt (z : Z)
| MockFloat (x : float)
| MockStr (s : string)
| MockBool (b : bool)
| MockNone.

(** [MOCK_SENSORS] as shipped. *)
Definition SHIPPED_MOCK_SENSORS : gmap string mock_value :=
  list_to_map
    [ ("sensor.pv_power", MockInt 3500);
      ("sensor.house_consumption", MockInt 800);
      ("sensor.grid_power", MockInt 200);
      ("sensor.battery_power", MockInt 500);
      ("sensor.battery_soc", MockInt 72);
      ("sensor.car_battery_level", MockInt 45);
      ("sensor.car_charging_power", MockInt 0);
      ("binary_sensor.car_connected", MockStr "on");
      ("sensor.tibber_current_price", MockFloat 0.125);
      ("sensor.solcast_pv_forecast_today", MockFloat 18.0);
      ("sensor.solcast_forecast_remaining", MockFloat 8.0) ].

Section Mock.

(** [str] of a float, and the table the helpers read. *)
Variable py_str : float -> string.
Variable MOCK_SENSORS : gmap string mock_value.

(** [str(val)]. *)
Definition str_of (val : mock_value) : string :=
  match val with
  | MockInt z => str_of_int z
  | MockFloat x => py_str x
  | MockStr s => s
  | MockBool true => "True"
  | MockBool false => "False"
  | MockNone => "None"
  end.

Definition safe_bool (entity_id : string) : bool :=
  let val := default (MockStr "off") (MOCK_SENSORS !! entity_id) in
  str_in (str_of val) ["on"; "true"; "True"; "1"; "home"].

End Mock.

End TestLogic.


(* ===================================================================== *)
(** * Reference definitions for the properties *)
(* ===================================================================== *)

(** Row of an action in the rule table of the specification (section 4.3);
    6 for a string that is no action of the table. *)
Definition table_row (a : string) : nat :=
  if String.eqb a "car_charge_emergency" then 0
  else if String.eqb a "car_charge_pv" then 1
  else if String.eqb a "battery_charge_pv" then 2
  else if String.eqb a "battery_charge_grid" then 3
  else if String.eqb a "car_charge_cheap" then 4
  else if String.eqb a "stop_grid_consumption" then 5
  else 6.

(** [d1] has at most the priority number of [d2]. *)
Definition priority_le (d1 d2 : decision) : Prop := priority d1 <= priority d2.

(** [R] holds of two decisions whenever their priorities are equal. *)
Definition on_ties (R : decision -> decision -> Prop) (d1 d2 : decision) : Prop :=
  priority d1 = priority d2 -> R d1 d2.

(** [d1] stands above [d2] in the rule table. *)
Definition row_before (d1 d2 : decision) : Prop :=
  (table_row (action d1) < table_row (action d2))%nat.

(** The action and the priority of each decision of a list. *)
Definition summary (l : list decision) : list (string * Z) :=
  map (fun d => (action d, priority d)) l.

(** A world in which nothing has happened yet: no sensor state, the clock
    at 0, a notification service that never fails, and the initial
    [last_notification = {}]. *)
Definition initial_world : world :=
  {| states := ∅;
     clock := fun _ => 0;
     ticks := 0%nat;
     notifier := fun _ => None;
     attempts := 0%nat;
     outbox := [];
     log := [];
     last_notification := ∅;
     last_decision := None;
     refresh_tasks := 0%nat |}.

(** Stand-ins for the runtime's formatting functions in concrete runs. *)
Definition no_fmt (digits : nat) (x : float) : string := "?".
Definition no_str (x : float) : string := "?".


(** ** Concrete inputs *)

(** The configuration of the specification's scenario: price thresholds in
    currency per kWh, everything else as in [DEFAULT_CONFIG]. *)
Definition scenario_cfg : Integration.config :=
  {| Integration.numbers :=
       list_to_map
         [ ("price_cheap_threshold", 0.15%float);
           ("price_very_cheap_threshold", 0.08%float);
           ("price_expensive_threshold", 0.30%float) ];
     Integration.notify_service := None;
     Integration.entities := Const.DEFAULT_ENTITIES |}.

(** The same with a vehicle minimum of 50 %, still below the default
    target of 80 %. *)
Definition scenario_cfg_min50 : Integration.config :=
  {| Integration.numbers := <["car_min_soc_target" := 50%float]> (Integration.numbers scenario_cfg);
     Integration.notify_service := None;
     Integration.entities := Const.DEFAULT_ENTITIES |}.

(** The state of the specification's scenario: PV 3.5 kW, house 0.8 kW,
    vehicle connected at 45 %, price 0.125, battery at 72 %. *)
Definition scenario_state : Integration.system_state :=
  {| Integration.pv_power_kw := 3.5;
     Integration.pv_surplus_kw := 3.5 - 0.8;
     Integration.pv_forecast_today_kwh := 18;
     Integration.pv_forecast_remaining_kwh := 8;
     Integration.pv_forecast_tomorrow_kwh := 0;
     Integration.pv_forecast_next_hour_kwh := 0;
     Integration.pv_forecast_d3_kwh := 0;
     Integration.pv_forecast_d4_kwh := 0;
     Integration.pv_forecast_d5_kwh := 0;
     Integration.pv_forecast_d6_kwh := 0;
     Integration.pv_forecast_d7_kwh := 0;
     Integration.battery_soc := 72;
     Integration.battery_power_kw := 0.5;
     Integration.car_soc := 45;
     Integration.car_connected := true;
     Integration.car_charging_power_kw := 0;
     Integration.grid_power_kw := 0.2;
     Integration.house_consumption_kw := 0.8;
     Integration.current_price_eur := 0.125;
     Integration.price_level := "CHEAP";
     Integration.hour := 8;
     Integration.is_night := false;
     Integration.is_morning := true |}.

(** The scenario with the vehicle at 15 %, below the default minimum of 20 %. *)
Definition low_soc_state : Integration.system_state :=
  {| Integration.pv_power_kw := 3.5;
     Integration.pv_surplus_kw := 3.5 - 0.8;
     Integration.pv_forecast_today_kwh := 18;
     Integration.pv_forecast_remaining_kwh := 8;
     Integration.pv_forecast_tomorrow_kwh := 0;
     Integration.pv_forecast_next_hour_kwh := 0;
     Integration.pv_forecast_d3_kwh := 0;
     Integration.pv_forecast_d4_kwh := 0;
     Integration.pv_forecast_d5_kwh := 0;
     Integration.pv_forecast_d6_kwh := 0;
     Integration.pv_forecast_d7_kwh := 0;
     Integration.battery_soc := 72;
     Integration.battery_power_kw := 0.5;
     Integration.car_soc := 15;
     Integration.car_connected := true;
     Integration.car_charging_power_kw := 0;
     Integration.grid_power_kw := 0.2;
     Integration.house_consumption_kw := 0.8;
     Integration.current_price_eur := 0.125;
     Integration.price_level := "CHEAP";
     Integration.hour := 8;
     Integration.is_night := false;
     Integration.is_morning := true |}.

(** The app's view of a vehicle at 15 % with the shipped configuration
    (prices in cent per kWh). *)
Definition app_low_soc_state : App.system_state :=
  {| App.pv_power_kw := 3.5;
     App.pv_surplus_kw := 3.5 - 0.8;
     App.pv_forecast_today_kwh := 18;
     App.pv_forecast_remaining_kwh := 8;
     App.battery_soc := 72;
     App.battery_power_kw := 0.5;
     App.car_soc := 15;
     App.car_connected := true;
     App.car_charging_power_kw := 0;
     App.grid_power_kw := 0.2;
     App.house_consumption_kw := 0.8;
     App.current_price_ct := 12.5;
     App.price_level := "NORMAL";
     App.hour := 8;
     App.is_night := false;
     App.is_morning := true |}.


(** A configuration whose very-cheap and cheap thresholds coincide. *)
Definition tie_cfg : Integration.config :=
  {| Integration.numbers :=
       list_to_map
         [ ("price_cheap_threshold", 0.1%float);
           ("price_very_cheap_threshold", 0.1%float);
           ("price_expensive_threshold", 0.30%float) ];
     Integration.notify_service := None;
     Integration.entities := Const.DEFAULT_ENTITIES |}.

(** The initial world in which one entity has a state string. *)
Definition world_reading (entity_id value : string) : world :=
  {| states := {[ entity_id := value ]};
     clock := clock initial_world;
     ticks := ticks initial_world;
     notifier := notifier initial_world;
     attempts := attempts initial_world;
     outbox := outbox initial_world;
     log := log initial_world;
     last_notification := last_notification initial_world;
     last_decision := last_decision initial_world;
     refresh_tasks := refresh_tasks initial_world |}.

(** ** The specification's words *)

(** The literals the specification (section 4.1) lists as truthy. *)
Definition spec_truthy_literals : list string := ["on"; "true"; "1"; "home"].

(** The literals the three copies of the boolean normalizer accept. *)
Definition accepted_literals : list string := ["on"; "true"; "True"; "1"; "home"].

(** The values the specification's scenario (section 8) fixes; the surplus
    is the PV power minus the house consumption, as the data model says. *)
Definition scenario_inputs (cfg : Integration.config) (s : Integration.system_state) : Prop :=
  Integration.pv_power_kw s = 3.5%float /\
  Integration.house_consumption_kw s = 0.8%float /\
  Integration.pv_surplus_kw s
    = (Integration.pv_power_kw s - Integration.house_consumption_kw s)%float /\
  Integration.car_connected s = true /\
  Integration.car_soc s = 45%float /\
  Integration.cfg_get cfg "car_default_target_soc" = 80%float /\
  Integration.cfg_get cfg "pv_surplus_for_car_charging" = 3.0%float /\
  Integration.current_price_eur s = 0.125%float /\
  Integration.cfg_get cfg "price_cheap_threshold" = 0.15%float /\
  Integration.cfg_get cfg "price_very_cheap_threshold" = 0.08%float /\
  Integration.cfg_get cfg "price_expensive_threshold" = 0.30%float /\
  Integration.battery_soc s = 72%float /\
  Integration.cfg_get cfg "battery_reserve_evening" = 30%float.

(** The configuration invariants of the specification (section 3): ordered
    price thresholds, vehicle minimum below the default target, non-negative
    capacities, powers and thresholds. *)
Definition config_invariants (cfg : Integration.config) : Prop :=
  (Integration.cfg_get cfg "price_very_cheap_threshold"
   <? Integration.cfg_get cfg "price_cheap_threshold")%float = true /\
  (Integration.cfg_get cfg "price_cheap_threshold"
   <? Integration.cfg_get cfg "price_expensive_threshold")%float = true /\
  (Integration.cfg_get cfg "car_min_soc_target"
   <? Integration.cfg_get cfg "car_default_target_soc")%float = true /\
  Forall (fun key => (0 <=? Integration.cfg_get cfg key)%float = true)
    [ "battery_capacity_kwh"; "battery_min_soc"; "battery_max_soc";
      "battery_reserve_evening"; "car_battery_capacity_kwh";
      "car_max_charge_power_kw"; "car_min_soc_target"; "car_default_target_soc";
      "pv_peak_power_kw"; "pv_surplus_for_car_charging"; "pv_surplus_for_battery" ].

(** The ranges the data model gives the fields of a state: states of charge
    between 0 and 100, non-negative powers and energies, a signed surplus. *)
Definition state_in_range (s : Integration.system_state) : Prop :=
  Forall (fun x => (0 <=? x)%float = true /\ (x <=? 100)%float = true)
    [ Integration.battery_soc s; Integration.car_soc s ] /\
  Forall (fun x => (0 <=? x)%float = true)
    [ Integration.pv_power_kw s; Integration.house_consumption_kw s;
      Integration.car_charging_power_kw s; Integration.battery_power_kw s;
      Integration.grid_power_kw s; Integration.current_price_eur s;
      Integration.pv_forecast_today_kwh s; Integration.pv_forecast_remaining_kwh s;
      Integration.pv_forecast_tomorrow_kwh s; Integration.pv_forecast_next_hour_kwh s;
      Integration.pv_forecast_d3_kwh s; Integration.pv_forecast_d4_kwh s;
      Integration.pv_forecast_d5_kwh s; Integration.pv_forecast_d6_kwh s;
      Integration.pv_forecast_d7_kwh s ].


(** ** Observations on a run *)

(** The unread clock value: what the next [datetime.now()] returns. *)
Definition now_of (w : world) : Z := clock w (ticks w).

(** Between [w] and [w'] the notification service was called once. *)
Definition service_called (w w' : world) : Prop := attempts w' = S (attempts w).

(** Between [w] and [w'] nothing was sent and nothing was recorded. *)
Definition suppressed (w w' : world) : Prop :=
  attempts w' = attempts w /\ outbox w' = outbox w /\
  last_notification w' = last_notification w.

(** Between [w] and [w'] the message went out and its time was recorded
    for the action. *)
Definition delivered (action_key message : string) (w w' : world) : Prop :=
  attempts w' = S (attempts w) /\
  (exists call, outbox w' = outbox w ++ [call] /\ sc_message call = message)%list /\
  last_notification w' = <[action_key := now_of w]> (last_notification w).

(** The log lines with which the gate ends: throttled, sent, or failed. *)
Definition is_gate_outcome (e : log_entry) : bool :=
  match e with
  | LogThrottled _ | LogSent _ | LogNotifyError _ => true
  | _ => false
  end.

(** How often the gate was consulted, read off the log. *)
Definition gate_consultations (l : list log_entry) : nat :=
  length (List.filter is_gate_outcome l).

(** The actions of the decisions the orchestrator went through, read off
    the log. *)
Definition logged_decisions (l : list log_entry) : list string :=
  omap (fun e => match e with LogDecision a _ => Some a | _ => None end) l.

(** The decisions the orchestrator passes to the gate. *)
Definition asks_for_notification (d : decision) : bool :=
  notify d && details_truthy d.

(** Every exception the notification service may raise is an [Exception]. *)
Definition notifier_raises_exceptions_only (w : world) : Prop :=
  forall n e, notifier w n = Some e -> is_Exception e = true.

(** A step that sends nothing, records nothing, and logs neither a decision
    nor a gate outcome. *)
Definition quiet (w w' : world) : Prop :=
  notifier w' = notifier w /\ attempts w' = attempts w /\ outbox w' = outbox w /\
  last_notification w' = last_notification w /\
  logged_decisions (log w') = logged_decisions (log w) /\
  gate_consultations (log w') = gate_consultations (log w).

(** The world once a run has written its first log line. *)
Definition started (w : world) : world := snd (write_log LogRunStart w).


(** ** The gate's outcomes *)

(** The test of the gate's first [if]: an entry exists and less than two
    hours have passed since. *)
Definition in_cooldown (action_key : string) (w : world) : bool :=
  match last_notification w !! action_key with
  | Some l => now_of w - l <? two_hours
  | None => false
  end.

(** The world after a throttled call: the clock was read, one line logged. *)
Definition after_throttle (action_key : string) (w : world) : world :=
  {| states := states w; clock := clock w; ticks := S (ticks w);
     notifier := notifier w; attempts := attempts w; outbox := outbox w;
     log := log w ++ [LogThrottled action_key];
     last_notification := last_notification w;
     last_decision := last_decision w; refresh_tasks := refresh_tasks w |}.

(** The world after a call that went out. *)
Definition after_delivery (call : service_call) (action_key : string) (w : world) : world :=
  {| states := states w; clock := clock w; ticks := S (ticks w);
     notifier := notifier w; attempts := S (attempts w);
     outbox := outbox w ++ [call];
     log := log w ++ [LogSent action_key];
     last_notification := <[action_key := now_of w]> (last_notification w);
     last_decision := last_decision w; refresh_tasks := refresh_tasks w |}.

(** The world after a call whose send raised an [Exception]. *)
Definition after_failure (e : exn) (w : world) : world :=
  {| states := states w; clock := clock w; ticks := S (ticks w);
     notifier := notifier w; attempts := S (attempts w); outbox := outbox w;
     log := log w ++ [LogNotifyError e];
     last_notification := last_notification w;
     last_decision := last_decision w; refresh_tasks := refresh_tasks w |}.

(** The world after a call whose send raised something [except Exception]
    lets through. *)
Definition after_escape (w : world) : world :=
  {| states := states w; clock := clock w; ticks := S (ticks w);
     notifier := notifier w; attempts := S (attempts w); outbox := outbox w;
     log := log w;
     last_notification := last_notification w;
     last_decision := last_decision w; refresh_tasks := refresh_tasks w |}.

(** The four ways a call of the gate ends. *)
Definition gate_outcome (call : service_call) (action_key : string) (w : world)
  : res unit * world :=
  if in_cooldown action_key w then (Ret tt, after_throttle action_key w)
  else match notifier w (attempts w) with
       | None => (Ret tt, after_delivery call action_key w)
       | Some e =>
           if is_Exception e then (Ret tt, after_failure e w)
           else (Raise e, after_escape w)
       end.

(** The service call the integration makes for a message. *)
Definition integration_call (cfg : Integration.config) (message : string) : service_call :=
  let parts := split_first_dot (default Const.DEFAULT_NOTIFY_SERVICE
                                  (Integration.notify_service cfg)) in
  {| sc_target := [hd "" parts; if (1 <? length parts)%nat then nth 1 parts "" else hd "" parts];
     sc_title := "Energiemanager";
     sc_message := message |}.

(** The service call the app makes for a message. *)
Definition app_call (CONFIG : App.config) (message : string) : service_call :=
  {| sc_target := [replace_first_dot (App.notify_service CONFIG)];
     sc_title := "⚡ Energiemanager";
     sc_message := message |}.


(** ** Worlds for concrete runs of the gate *)

(** The initial world with one recorded send and a clock that stands at [now]. *)
Definition world_sent_at (action_key : string) (last now : Z) : world :=
  {| states := states initial_world;
     clock := fun _ => now;
     ticks := ticks initial_world;
     notifier := notifier initial_world;
     attempts := attempts initial_world;
     outbox := outbox initial_world;
     log := log initial_world;
     last_notification := {[ action_key := last ]};
     last_decision := last_decision initial_world;
     refresh_tasks := refresh_tasks initial_world |}.

(** The world [w] later, when the clock stands at [now]. *)
Definition at_time (now : Z) (w : world) : world :=
  {| states := states w;
     clock := fun _ => now;
     ticks := ticks w;
     notifier := notifier w;
     attempts := attempts w;
     outbox := outbox w;
     log := log w;
     last_notification := last_notification w;
     last_decision := last_decision w;
     refresh_tasks := refresh_tasks w |}.

(** The initial world with a notification service whose first call raises
    an [Exception] and whose later calls go through. *)
Definition world_failing_once : world :=
  {| states := states initial_world;
     clock := fun _ => 1000;
     ticks := ticks initial_world;
     notifier := fun n => match n with
                          | O => Some (Exn (OtherException "ServiceNotFound") "notify")
                          | S _ => None
                          end;
     attempts := attempts initial_world;
     outbox := outbox initial_world;
     log := log initial_world;
     last_notification := last_notification initial_world;
     last_decision := last_decision initial_world;
     refresh_tasks := refresh_tasks initial_world |}.

(** One hour in microseconds. *)
Definition one_hour : Z := 3600 * 1000000.

(** ** The claims about two calls of the gate and about failing sends *)

(** C4 for one copy of the gate: two calls for an action, at [w0] and later
    at [w2], between which nothing else touched the action's entry.  Less
    than two hours apart and the first delivered: the second is suppressed.
    More than two hours apart, and no send recorded for the action less
    than two hours before the first call: both calls call the service, and
    each call the service accepts is delivered and records its time. *)
Definition two_calls_respect_cooldown (gate : string -> string -> M unit) : Prop :=
  forall (action_key m1 m2 : string) (w0 w2 : world),
    let w1 := snd (gate action_key m1 w0) in
    let w3 := snd (gate action_key m2 w2) in
    last_notification w2 !! action_key = last_notification w1 !! action_key ->
    (now_of w2 - now_of w0 < two_hours -> delivered action_key m1 w0 w1 ->
     suppressed w2 w3) /\
    (two_hours < now_of w2 - now_of w0 ->
     (forall last, last_notification w0 !! action_key = Some last ->
                   two_hours <= now_of w0 - last) ->
     service_called w0 w1 /\ service_called w2 w3 /\
     (notifier w0 (attempts w0) = None ->
      delivered action_key m1 w0 w1 /\
      last_notification w1 !! action_key = Some (now_of w0)) /\
     (notifier w2 (attempts w2) = None ->
      delivered action_key m2 w2 w3 /\
      last_notification w3 !! action_key = Some (now_of w2))).

(** C5 for one copy of the gate: a send that raises an [Exception] does not
    leave the gate, and the throttle map is as before the call. *)
Definition gate_contains_failure (gate : string -> string -> M unit) : Prop :=
  forall (action_key message : string) (w : world) (e : exn),
    notifier w (attempts w) = Some e -> is_Exception e = true ->
    fst (gate action_key message w) = Ret tt /\
    last_notification (snd (gate action_key message w)) = last_notification w.

(** C5 for one copy of the orchestrator: whichever sends fail, the loop
    ends normally, has gone through every decision in order, and has
    consulted the gate for each decision that asks for a notification. *)
Definition run_processes_every_decision (execute : list decision -> M unit) : Prop :=
  forall (decisions : list decision) (w : world),
    notifier_raises_exceptions_only w ->
    fst (execute decisions w) = Ret tt /\
    logged_decisions (log (snd (execute decisions w)))
    = (logged_decisions (log w) ++ map action decisions)%list /\
    gate_consultations (log (snd (execute decisions w)))
    = (gate_consultations (log w)
       + length (List.filter asks_for_notification decisions))%nat.


(** The world after a first, delivered notification for car_charge_cheap
    sent from the initial world (at time 0). *)
Definition world_after_first_send : world :=
  snd (Integration._send_smart_notification scenario_cfg "car_charge_cheap" "first"
         initial_world).

(** The two decisions of the vehicle at 15 %: car_charge_emergency, then
    car_charge_cheap, both asking for a notification. *)
Definition low_soc_decisions : list decision :=
  Integration._make_decisions no_fmt no_str scenario_cfg low_soc_state.


(** ** Reading the sensors *)

(** A step that is [quiet] and raises nothing but [Exception]s. *)
Definition reader {A} (m : M A) : Prop :=
  forall w, quiet w (snd (m w)) /\
            (forall e, fst (m w) = Raise e -> is_Exception e = true).

(** An integration configuration without any entity mapping. *)
Definition cfg_without_entities : Integration.config :=
  {| Integration.numbers := ∅;
     Integration.notify_service := None;
     Integration.entities := ∅ |}.

(** The app's shipped configuration without its entity mapping. *)
Definition CONFIG_without_entities : App.config :=
  {| App.battery_capacity_kwh := App.battery_capacity_kwh App.SHIPPED_CONFIG;
     App.battery_min_soc := App.battery_min_soc App.SHIPPED_CONFIG;
     App.battery_max_soc := App.battery_max_soc App.SHIPPED_CONFIG;
     App.battery_reserve_evening := App.battery_reserve_evening App.SHIPPED_CONFIG;
     App.car_battery_capacity_kwh := App.car_battery_capacity_kwh App.SHIPPED_CONFIG;
     App.car_max_charge_power_kw := App.car_max_charge_power_kw App.SHIPPED_CONFIG;
     App.car_min_soc_target := App.car_min_soc_target App.SHIPPED_CONFIG;
     App.car_default_target_soc := App.car_default_target_soc App.SHIPPED_CONFIG;
     App.pv_peak_power_kw := App.pv_peak_power_kw App.SHIPPED_CONFIG;
     App.price_cheap_threshold := App.price_cheap_threshold App.SHIPPED_CONFIG;
     App.price_very_cheap_threshold := App.price_very_cheap_threshold App.SHIPPED_CONFIG;
     App.price_expensive_threshold := App.price_expensive_threshold App.SHIPPED_CONFIG;
     App.pv_surplus_for_car_charging := App.pv_surplus_for_car_charging App.SHIPPED_CONFIG;
     App.pv_surplus_for_battery := App.pv_surplus_for_battery App.SHIPPED_CONFIG;
     App.entities := ∅;
     App.notify_service := App.notify_service App.SHIPPED_CONFIG;
     App.check_interval_minutes := App.check_interval_minutes App.SHIPPED_CONFIG |}.

(** A [float(...)] that accepts nothing. *)
Definition no_float (s : string) : option float := None.

(** The exception [_async_update_data] raises on a read failure. *)
Definition update_failed : exn := Exn UpdateFailed "Konnte Systemzustand nicht lesen".


(** ** Price-change events *)

(** A [float(...)] on the three price strings of the concrete events below;
    Python's agrees with it there. *)
Definition price_table (s : string) : option float :=
  if String.eqb s "0.0" then Some 0%float
  else if String.eqb s "1.0" then Some 1%float
  else if String.eqb s "5.0" then Some 5%float
  else None.


(** A cloudy night at a very cheap price: PV 0.5 kW against 0.8 kW of
    consumption, vehicle connected at 15 %, price 0.05. *)
Definition very_cheap_state : Integration.system_state :=
  {| Integration.pv_power_kw := 0.5;
     Integration.pv_surplus_kw := 0.5 - 0.8;
     Integration.pv_forecast_today_kwh := 18;
     Integration.pv_forecast_remaining_kwh := 8;
     Integration.pv_forecast_tomorrow_kwh := 0;
     Integration.pv_forecast_next_hour_kwh := 0;
     Integration.pv_forecast_d3_kwh := 0;
     Integration.pv_forecast_d4_kwh := 0;
     Integration.pv_forecast_d5_kwh := 0;
     Integration.pv_forecast_d6_kwh := 0;
     Integration.pv_forecast_d7_kwh := 0;
     Integration.battery_soc := 72;
     Integration.battery_power_kw := 0.5;
     Integration.car_soc := 15;
     Integration.car_connected := true;
     Integration.car_charging_power_kw := 0;
     Integration.grid_power_kw := 0.2;
     Integration.house_consumption_kw := 0.8;
     Integration.current_price_eur := 0.05;
     Integration.price_level := "VERY_CHEAP";
     Integration.hour := 23;
     Integration.is_night := true;
     Integration.is_morning := false |}.


(** ** Proof steps *)

(** Splits a goal [StronglySorted R l] on an explicit list into its
    pairwise obligations. *)
Ltac split_sorted :=
  repeat first [ apply SSorted_nil | apply SSorted_cons
               | apply Forall_nil_2 | apply Forall_cons_2 ].


(** ** The evaluator's output in closed form *)

(** The decision of a rule, if the rule fires. *)
Definition when_fires (fires : bool) (d : decision) : list decision :=
  if fires then [d] else [].

(** The decisions of the rules that fire, in the order of the rule table:
    emergency, car_charge_pv, battery_charge_pv, battery_charge_grid,
    car_charge_cheap, stop_grid_consumption. *)
Definition integration_fired_rules (fmt : nat -> float -> string) (py_str : float -> string)
    (cfg : Integration.config) (s : Integration.system_state) : list decision :=
  (when_fires (Integration.car_charge_emergency_fires cfg s)
     (Integration.car_charge_emergency fmt py_str cfg s)
   ++ when_fires (Integration.car_charge_pv_fires cfg s) (Integration.car_charge_pv fmt s)
   ++ when_fires (Integration.battery_charge_pv_fires cfg s) Integration.battery_charge_pv
   ++ when_fires (Integration.battery_charge_grid_fires cfg s)
        (Integration.battery_charge_grid fmt s)
   ++ when_fires (Integration.car_charge_cheap_fires cfg s) (Integration.car_charge_cheap fmt s)
   ++ when_fires (Integration.stop_grid_consumption_fires cfg s)
        (Integration.stop_grid_consumption fmt s))%list.

Definition app_fired_rules (fmt : nat -> float -> string) (py_str : float -> string)
    (CONFIG : App.config) (s : App.system_state) : list decision :=
  (when_fires (App.car_charge_emergency_fires CONFIG s)
     (App.car_charge_emergency fmt py_str CONFIG s)
   ++ when_fires (App.car_charge_pv_fires CONFIG s) (App.car_charge_pv fmt s)
   ++ when_fires (App.battery_charge_pv_fires CONFIG s) App.battery_charge_pv
   ++ when_fires (App.battery_charge_grid_fires CONFIG s) (App.battery_charge_grid fmt s)
   ++ when_fires (App.car_charge_cheap_fires CONFIG s) (App.car_charge_cheap fmt s)
   ++ when_fires (App.stop_grid_consumption_fires CONFIG s)
        (App.stop_grid_consumption fmt s))%list.

(** The actions of a list of decisions. *)
Definition actions (l : list decision) : list string := map action l.

(** ** Comparisons of floats *)

(** The outcome of a comparison of two floats reads "less or equal",
    "less" ([None]: one of them is nan). *)
Definition cmp_le (c : option comparison) : bool :=
  match c with Some (Lt | Eq) => true | _ => false end.

Definition cmp_lt (c : option comparison) : bool :=
  match c with Some Lt => true | _ => false end.


(** ** Configurations with ordered and with swapped price thresholds *)

(** The integration's configuration with an expensive threshold of 0.05,
    below the very-cheap one of 0.08. *)
Definition swapped_thresholds_cfg : Integration.config :=
  {| Integration.numbers :=
       <["price_expensive_threshold" := 0.05%float]> (Integration.numbers scenario_cfg);
     Integration.notify_service := None;
     Integration.entities := Const.DEFAULT_ENTITIES |}.


(** ** The copies of the rule set side by side *)

(** The action, priority, reason and notify flag of each decision. *)
Definition outline (l : list decision) : list (string * Z * string * bool) :=
  map (fun d => (action d, priority d, reason d, notify d)) l.

(** The action, priority and reason of each decision: what a decision of
    the test script holds. *)
Definition outline3 (l : list decision) : list (string * Z * string) :=
  map (fun d => (action d, priority d, reason d)) l.

(** The app's configuration holds the numbers the integration's rules read. *)
Definition same_settings (cfg : Integration.config) (CONFIG : App.config) : Prop :=
  Integration.cfg_get cfg "battery_max_soc" = App.battery_max_soc CONFIG /\
  Integration.cfg_get cfg "battery_reserve_evening" = App.battery_reserve_evening CONFIG /\
  Integration.cfg_get cfg "car_min_soc_target" = App.car_min_soc_target CONFIG /\
  Integration.cfg_get cfg "car_default_target_soc" = App.car_default_target_soc CONFIG /\
  Integration.cfg_get cfg "pv_peak_power_kw" = App.pv_peak_power_kw CONFIG /\
  Integration.cfg_get cfg "price_cheap_threshold" = App.price_cheap_threshold CONFIG /\
  Integration.cfg_get cfg "price_very_cheap_threshold" = App.price_very_cheap_threshold CONFIG /\
  Integration.cfg_get cfg "price_expensive_threshold" = App.price_expensive_threshold CONFIG /\
  Integration.cfg_get cfg "pv_surplus_for_car_charging" = App.pv_surplus_for_car_charging CONFIG /\
  Integration.cfg_get cfg "pv_surplus_for_battery" = App.pv_surplus_for_battery CONFIG.

(** The app's state holds the readings the integration's rules read, the
    price under the app's key. *)
Definition same_readings (s : Integration.system_state) (sA : App.system_state) : Prop :=
  Integration.pv_power_kw s = App.pv_power_kw sA /\
  Integration.pv_surplus_kw s = App.pv_surplus_kw sA /\
  Integration.battery_soc s = App.battery_soc sA /\
  Integration.car_soc s = App.car_soc sA /\
  Integration.car_connected s = App.car_connected sA /\
  Integration.current_price_eur s = App.current_price_ct sA.

(** The integration's state as the test script's dictionary, which has
    fewer keys. *)
Definition test_view (s : Integration.system_state) : TestLogic.system_state :=
  {| TestLogic.pv_power_kw := Integration.pv_power_kw s;
     TestLogic.pv_surplus_kw := Integration.pv_surplus_kw s;
     TestLogic.pv_forecast_today_kwh := Integration.pv_forecast_today_kwh s;
     TestLogic.pv_forecast_remaining_kwh := Integration.pv_forecast_remaining_kwh s;
     TestLogic.battery_soc := Integration.battery_soc s;
     TestLogic.battery_power_kw := Integration.battery_power_kw s;
     TestLogic.car_soc := Integration.car_soc s;
     TestLogic.car_connected := Integration.car_connected s;
     TestLogic.car_charging_power_kw := Integration.car_charging_power_kw s;
     TestLogic.grid_power_kw := Integration.grid_power_kw s;
     TestLogic.house_consumption_kw := Integration.house_consumption_kw s;
     TestLogic.current_price_eur := Integration.current_price_eur s;
     TestLogic.price_level := Integration.price_level s;
     TestLogic.hour := Integration.hour s;
     TestLogic.is_night := Integration.is_night s;
     TestLogic.is_morning := Integration.is_morning s |}.

(** The app's state at the vehicle's 15 % with the price written as the
    integration's state has it. *)
Definition low_soc_state_in_cent : Integration.system_state :=
  {| Integration.pv_power_kw := App.pv_power_kw app_low_soc_state;
     Integration.pv_surplus_kw := App.pv_surplus_kw app_low_soc_state;
     Integration.pv_forecast_today_kwh := 18;
     Integration.pv_forecast_remaining_kwh := 8;
     Integration.pv_forecast_tomorrow_kwh := 0;
     Integration.pv_forecast_next_hour_kwh := 0;
     Integration.pv_forecast_d3_kwh := 0;
     Integration.pv_forecast_d4_kwh := 0;
     Integration.pv_forecast_d5_kwh := 0;
     Integration.pv_forecast_d6_kwh := 0;
     Integration.pv_forecast_d7_kwh := 0;
     Integration.battery_soc := App.battery_soc app_low_soc_state;
     Integration.battery_power_kw := 0.5;
     Integration.car_soc := App.car_soc app_low_soc_state;
     Integration.car_connected := App.car_connected app_low_soc_state;
     Integration.car_charging_power_kw := 0;
     Integration.grid_power_kw := 0.2;
     Integration.house_consumption_kw := 0.8;
     Integration.current_price_eur := App.current_price_ct app_low_soc_state;
     Integration.price_level := "CHEAP";
     Integration.hour := 8;
     Integration.is_night := false;
     Integration.is_morning := true |}.


(** ** The normalizer's outcomes *)

(** A step that always completes with a value. *)
Definition returns {A} (m : M A) : Prop :=
  forall w, exists a w', m w = (Ret a, w').

(** A step that always raises. *)
Definition raises {A} (m : M A) : Prop :=
  forall w, exists e w', m w = (Raise e, w').

(** What a step returns, when it returns, satisfies [P]. *)
Definition ensures {A} (P : A -> Prop) (m : M A) : Prop :=
  forall w a w', m w = (Ret a, w') -> P a.

(** The logical sensor names [_get_system_state] of the integration looks
    up in the entity mapping, in the order of the source. *)
Definition integration_required_entities : list string :=
  [ "pv_power"; "house_consumption"; "grid_power"; "current_price";
    "pv_forecast_today"; "pv_forecast_remaining"; "pv_forecast_tomorrow";
    "pv_forecast_next_hour"; "pv_forecast_d3"; "pv_forecast_d4"; "pv_forecast_d5";
    "pv_forecast_d6"; "pv_forecast_d7"; "battery_soc"; "battery_power"; "car_soc";
    "car_connected"; "car_charging_power" ].

(** The ones [get_system_state] of the app looks up. *)
Definition app_required_entities : list string :=
  [ "pv_power"; "house_consumption"; "grid_power"; "pv_forecast_today";
    "pv_forecast_remaining"; "battery_soc"; "battery_power"; "car_soc";
    "car_connected"; "car_charging_power"; "current_price"; "price_level" ].

(** The forecast sensors the integration reads and [DEFAULT_CONFIG] does
    not map. *)
Definition unmapped_forecast_entities : list string :=
  [ "pv_forecast_tomorrow"; "pv_forecast_next_hour"; "pv_forecast_d3";
    "pv_forecast_d4"; "pv_forecast_d5"; "pv_forecast_d6"; "pv_forecast_d7" ].

(** The key is mapped to an entity. *)
Definition mapped (entities : gmap string string) (key : string) : Prop :=
  is_Some (entities !! key).

(** A user configuration that maps the seven forecast sensors and nothing else. *)
Definition forecast_user_cfg : Integration.config :=
  {| Integration.numbers := ∅;
     Integration.notify_service := None;
     Integration.entities :=
       list_to_map
         [ ("pv_forecast_tomorrow", "sensor.solcast_pv_forecast_tomorrow");
           ("pv_forecast_next_hour", "sensor.solcast_pv_forecast_next_hour");
           ("pv_forecast_d3", "sensor.solcast_pv_forecast_day_3");
           ("pv_forecast_d4", "sensor.solcast_pv_forecast_day_4");
           ("pv_forecast_d5", "sensor.solcast_pv_forecast_day_5");
           ("pv_forecast_d6", "sensor.solcast_pv_forecast_day_6");
           ("pv_forecast_d7", "sensor.solcast_pv_forecast_day_7") ] |}.


(** The state the integration's normalizer assembles is consistent with
    its readings: the price level is the classification of the price, and
    the PV power, the house consumption and the surplus come from the same
    two readings in watts. *)
Definition consistent_state (cfg : Integration.config) (s : Integration.system_state) : Prop :=
  Integration.price_level s
  = Integration._compute_price_level cfg (Integration.current_price_eur s) /\
  exists pv_power_w house_consumption_w : float,
    Integration.pv_power_kw s = (pv_power_w / 1000)%float /\
    Integration.house_consumption_kw s = (house_consumption_w / 1000)%float /\
    Integration.pv_surplus_kw s = ((pv_power_w - house_consumption_w) / 1000)%float.

(** The state the integration reads in a world without any sensor state at
    clock 0: every reading at its default 0. *)
Definition idle_state : Integration.system_state :=
  {| Integration.pv_power_kw := 0 / 1000;
     Integration.pv_surplus_kw := (0 - 0) / 1000;
     Integration.pv_forecast_today_kwh := 0;
     Integration.pv_forecast_remaining_kwh := 0;
     Integration.pv_forecast_tomorrow_kwh := 0;
     Integration.pv_forecast_next_hour_kwh := 0;
     Integration.pv_forecast_d3_kwh := 0;
     Integration.pv_forecast_d4_kwh := 0;
     Integration.pv_forecast_d5_kwh := 0;
     Integration.pv_forecast_d6_kwh := 0;
     Integration.pv_forecast_d7_kwh := 0;
     Integration.battery_soc := 0;
     Integration.battery_power_kw := 0 / 1000;
     Integration.car_soc := 0;
     Integration.car_connected := false;
     Integration.car_charging_power_kw := 0 / 1000;
     Integration.grid_power_kw := 0 / 1000;
     Integration.house_consumption_kw := 0 / 1000;
     Integration.current_price_eur := 0;
     Integration.price_level := "VERY_CHEAP";
     Integration.hour := 0;
     Integration.is_night := true;
     Integration.is_morning := false |}.


(** ** Runs as steps between worlds *)

(** Whatever world [m] starts in, the world it ends in is related to it by
    [R], whether [m] returns or raises. *)
Definition steps (R : world -> world -> Prop) {A} (m : M A) : Prop :=
  forall w, R w (snd (m w)).

(** The actions of the rules that ask for a notification. *)
Definition notifying_actions : gset string :=
  list_to_set [ "car_charge_emergency"; "car_charge_pv"; "battery_charge_grid";
                "car_charge_cheap"; "stop_grid_consumption" ].

(** Every key of the throttle map is a notifying action. *)
Definition throttle_keys_ok (w : world) : Prop :=
  dom (last_notification w) ⊆ notifying_actions.

(** A step from [w] to [w'] keeps the keys of the throttle map among the
    notifying actions. *)
Definition keeps_keys (w w' : world) : Prop := throttle_keys_ok w -> throttle_keys_ok w'.

(** One call of an entry point of the integration or of the app: a run or a
    price-change event. *)
Definition entry_point (py_float : string -> option float) (fmt : nat -> float -> string)
    (py_str : float -> string) (cfg : Integration.config) (CONFIG : App.config)
    (w w' : world) : Prop :=
  w' = snd (Integration._async_update_data py_float fmt py_str cfg w) \/
  w' = snd (App.run_energy_manager py_float fmt py_str CONFIG w) \/
  (exists new_state old_state,
     w' = snd (Integration._on_price_change py_float new_state old_state w)) \/
  (exists old new,
     w' = snd (App.on_price_change py_float fmt py_str CONFIG old new w)).

(** The host moves on between two calls: sensors report other states, time
    passes, the notification service answers differently.  What the engine
    keeps (the throttle map, the decision summary) and what was observed of
    it so far (the log, the delivered calls and their count, the queued
    refreshes) stays as it is. *)
Definition host_step (w w' : world) : Prop :=
  attempts w' = attempts w /\ outbox w' = outbox w /\ log w' = log w /\
  last_notification w' = last_notification w /\ last_decision w' = last_decision w /\
  refresh_tasks w' = refresh_tasks w.

(** One step of the life of an installation: a call of an entry point, or
    the host moving on. *)
Definition session_step (py_float : string -> option float) (fmt : nat -> float -> string)
    (py_str : float -> string) (cfg : Integration.config) (CONFIG : App.config)
    (w w' : world) : Prop :=
  entry_point py_float fmt py_str cfg CONFIG w w' \/ host_step w w'.

(** The world [w] after the sensor [entity_id] has reported [value] and the
    time [now] has come. *)
Definition host_moves (entity_id value : string) (now : Z) (w : world) : world :=
  {| states := <[entity_id := value]> (states w);
     clock := fun _ => now;
     ticks := ticks w;
     notifier := notifier w;
     attempts := attempts w;
     outbox := outbox w;
     log := log w;
     last_notification := last_notification w;
     last_decision := last_decision w;
     refresh_tasks := refresh_tasks w |}.

(** Every decision of [decisions] that asks for a notification had one sent
    at [last], less than two hours before any reading the clock of [w] has
    still to give. *)
Definition cooldown_covers (decisions : list decision) (w : world) : Prop :=
  forall d, d ∈ decisions -> asks_for_notification d = true ->
    exists last, last_notification w !! action d = Some last /\
                 forall n, (ticks w <= n)%nat -> clock w n - last < two_hours.

(** [w'] is [w] later on: same clock, further along it, and nothing sent or
    recorded in between. *)
Definition later_unsent (w w' : world) : Prop :=
  clock w' = clock w /\ (ticks w <= ticks w')%nat /\ suppressed w w'.

(** What a step leaves alone whatever it sends: the clock itself (readings
    are only consumed), the entity states and the decision summary. *)
Definition frame (w w' : world) : Prop :=
  clock w' = clock w /\ (ticks w <= ticks w')%nat /\ states w' = states w /\
  last_decision w' = last_decision w.

(** The initial world with a clock whose n-th reading is n hours, and a
    notification service whose first call raises an [Exception]. *)
Definition world_ticking : world :=
  {| states := states initial_world;
     clock := fun n => Z.of_nat n * one_hour;
     ticks := ticks initial_world;
     notifier := notifier world_failing_once;
     attempts := attempts initial_world;
     outbox := outbox initial_world;
     log := log initial_world;
     last_notification := last_notification initial_world;
     last_decision := last_decision initial_world;
     refresh_tasks := refresh_tasks initial_world |}.

(** A world all of whose decisions of one hour ago are in the throttle map;
    every clock reading is one hour. *)
Definition world_all_sent (decisions : list decision) : world :=
  {| states := ∅; clock := fun _ => one_hour; ticks := 0;
     notifier := fun _ => None; attempts := 0; outbox := []; log := [];
     last_notification := list_to_map (map (fun d => (action d, 0)) decisions);
     last_decision := None; refresh_tasks := 0 |}.

(** [w'] is [w] grown: the entity states, the clock and the notification
    service are the same; the clock was read on, the service called on; and
    the log and the outbox of [w'] start with those of [w]. *)
Definition grows (w w' : world) : Prop :=
  states w' = states w /\ clock w' = clock w /\ (ticks w <= ticks w')%nat /\
  notifier w' = notifier w /\ (attempts w <= attempts w')%nat /\
  outbox w `prefix_of` outbox w' /\ log w `prefix_of` log w' /\
  (refresh_tasks w <= refresh_tasks w')%nat.

(** The app's handler has something to react to: both state strings are
    there and differ, the old one is not "unavailable", both are numbers
    [x] (new) and [y] (old), [y] is truthy, and they differ by more than
    2.0. *)
Definition app_price_trigger (py_float : string -> option float)
    (old new : option string) (x y : float) : Prop :=
  exists old_val new_val,
    old = Some old_val /\ new = Some new_val /\ old_val <> new_val /\
    old_val <> "unavailable" /\
    py_float new_val = Some x /\ py_float old_val = Some y /\
    float_truthy y = true /\ (2.0 <? abs (x - y))%float = true.

(** The string has no "." in it. *)
Definition dotless (s : string) : Prop := "."%char ∉ list_ascii_of_string s.


(* ===================================================================== *)
(** * The priority sort *)
(* ===================================================================== *)

Lemma insert_by_priority_perm (d : decision) (l : list decision) :
  insert_by_priority d l ≡ₚ d :: l.
Proof.
  induction l as [|d' l IH]; simpl; [done|].
  destruct (priority d <=? priority d'); [done|].
  rewrite IH. apply Permutation_swap.
Qed.

Lemma sort_by_priority_perm (l : list decision) : sort_by_priority l ≡ₚ l.
Proof.
  induction l as [|d l IH]; simpl; [done|].
  rewrite insert_by_priority_perm. by rewrite IH.
Qed.

Lemma elem_of_sort_by_priority (d : decision) (l : list decision) :
  d ∈ sort_by_priority l ↔ d ∈ l.
Proof. by rewrite sort_by_priority_perm. Qed.

Lemma insert_by_priority_sorted (d : decision) (l : list decision) :
  StronglySorted priority_le l -> StronglySorted priority_le (insert_by_priority d l).
Proof.
  induction 1 as [|d' l Hl IH Hall]; simpl.
  - repeat constructor.
  - destruct (Z.leb_spec (priority d) (priority d')) as [Hle|Hgt].
    + constructor; [by constructor|].
      constructor; [done|].
      eapply Forall_impl; [exact Hall|].
      unfold priority_le. intros; lia.
    + constructor; [done|].
      rewrite insert_by_priority_perm.
      constructor; [unfold priority_le; lia | done].
Qed.

Lemma sort_by_priority_sorted (l : list decision) :
  StronglySorted priority_le (sort_by_priority l).
Proof.
  induction l; simpl; [constructor | by apply insert_by_priority_sorted].
Qed.

(** Stability: what holds between equal-priority decisions in the order of
    appending still holds after the sort. *)
Lemma insert_by_priority_stable R (d : decision) (l : list decision) :
  Forall (on_ties R d) l ->
  StronglySorted (on_ties R) l -> StronglySorted (on_ties R) (insert_by_priority d l).
Proof.
  intros Hd Hl. induction Hl as [|d' l Hl IH Hall]; simpl.
  - repeat constructor.
  - destruct (Z.leb_spec (priority d) (priority d')) as [Hle|Hgt].
    + constructor; [by constructor | done].
    + inversion_clear Hd as [|? ? Hd' Hrest].
      constructor; [by apply IH|].
      rewrite insert_by_priority_perm.
      constructor; [|done].
      intros Heq. lia.
Qed.

Lemma sort_by_priority_stable R (l : list decision) :
  StronglySorted (on_ties R) l -> StronglySorted (on_ties R) (sort_by_priority l).
Proof.
  induction 1 as [|d l Hl IH Hall]; simpl; [constructor|].
  apply insert_by_priority_stable; [|done].
  by rewrite sort_by_priority_perm.
Qed.


(* ===================================================================== *)
(** * The rule evaluator *)
(* ===================================================================== *)

(** In the order of appending, the decisions that share a priority stand in
    the order of the rule table: the emergency rule, appended fifth, is the
    only one of priority 0. *)
Lemma integration_appended_ties fmt py_str cfg s :
  StronglySorted (on_ties row_before) (Integration.appended_decisions fmt py_str cfg s).
Proof.
  unfold Integration.appended_decisions.
  destruct (Integration.car_charge_pv_fires cfg s),
           (Integration.battery_charge_pv_fires cfg s),
           (Integration.battery_charge_grid_fires cfg s),
           (Integration.car_charge_cheap_fires cfg s),
           (Integration.car_charge_emergency_fires cfg s),
           (Integration.stop_grid_consumption_fires cfg s);
    cbn [app]; split_sorted;
    intros Heq; try discriminate Heq; cbv; lia.
Qed.

Lemma app_appended_ties fmt py_str CONFIG s :
  StronglySorted (on_ties row_before) (App.appended_decisions fmt py_str CONFIG s).
Proof.
  unfold App.appended_decisions.
  destruct (App.car_charge_pv_fires CONFIG s),
           (App.battery_charge_pv_fires CONFIG s),
           (App.battery_charge_grid_fires CONFIG s),
           (App.car_charge_cheap_fires CONFIG s),
           (App.car_charge_emergency_fires CONFIG s),
           (App.stop_grid_consumption_fires CONFIG s);
    cbn [app]; split_sorted;
    intros Heq; try discriminate Heq; cbv; lia.
Qed.

(** C1: for every state and configuration, the list returned by
    [_make_decisions] (integration) and by [make_decisions] (app) is sorted
    by non-decreasing priority, and two decisions of equal priority stand in
    the order of the rows of the rule table ([table_row]: car_charge_pv
    before battery_charge_pv; battery_charge_grid before car_charge_cheap
    before stop_grid_consumption). *)
Theorem decisions_sorted_in_table_order :
  (forall fmt py_str cfg s,
     StronglySorted priority_le (Integration._make_decisions fmt py_str cfg s) /\
     StronglySorted (on_ties row_before) (Integration._make_decisions fmt py_str cfg s)) /\
  (forall fmt py_str CONFIG s,
     StronglySorted priority_le (App.make_decisions fmt py_str CONFIG s) /\
     StronglySorted (on_ties row_before) (App.make_decisions fmt py_str CONFIG s)).
Proof.
  split; intros; (split; [apply sort_by_priority_sorted|]);
    apply sort_by_priority_stable.
  - apply integration_appended_ties.
  - apply app_appended_ties.
Qed.

(** Three rules fire at once: the emergency decision, appended fifth, comes
    first, and the two decisions of priority 2 keep the order of the table. *)
Example very_cheap_night_decisions :
  summary (Integration._make_decisions no_fmt no_str scenario_cfg very_cheap_state)
  = [("car_charge_emergency", 0); ("battery_charge_grid", 2); ("car_charge_cheap", 2)].
Proof. vm_compute. reflexivity. Qed.

(** The second scenario of the specification: with the surplus threshold
    lowered to 2.0 kW the surplus rule takes the place of the cheap-price rule. *)
Example scenario_with_lower_surplus_threshold :
  summary (Integration._make_decisions no_fmt no_str
             {| Integration.numbers :=
                  <["pv_surplus_for_car_charging" := 2.0%float]>
                    (Integration.numbers scenario_cfg);
                Integration.notify_service := None;
                Integration.entities := Const.DEFAULT_ENTITIES |}
             scenario_state)
  = [("car_charge_pv", 1)].
Proof. vm_compute. reflexivity. Qed.

(** Among the decisions the rules append, only the emergency decision has
    priority 0. *)
Lemma integration_appended_elem fmt py_str cfg s d :
  d ∈ Integration.appended_decisions fmt py_str cfg s ->
  priority d = 0 -> action d = "car_charge_emergency".
Proof.
  unfold Integration.appended_decisions.
  destruct (Integration.car_charge_pv_fires cfg s),
           (Integration.battery_charge_pv_fires cfg s),
           (Integration.battery_charge_grid_fires cfg s),
           (Integration.car_charge_cheap_fires cfg s),
           (Integration.car_charge_emergency_fires cfg s),
           (Integration.stop_grid_consumption_fires cfg s);
    cbn [app]; intros Hin Hp;
    repeat (apply elem_of_cons in Hin as [->|Hin]; [first [discriminate Hp | reflexivity]|]);
    by apply elem_of_nil in Hin.
Qed.

Lemma app_appended_elem fmt py_str CONFIG s d :
  d ∈ App.appended_decisions fmt py_str CONFIG s ->
  priority d = 0 -> action d = "car_charge_emergency".
Proof.
  unfold App.appended_decisions.
  destruct (App.car_charge_pv_fires CONFIG s),
           (App.battery_charge_pv_fires CONFIG s),
           (App.battery_charge_grid_fires CONFIG s),
           (App.car_charge_cheap_fires CONFIG s),
           (App.car_charge_emergency_fires CONFIG s),
           (App.stop_grid_consumption_fires CONFIG s);
    cbn [app]; intros Hin Hp;
    repeat (apply elem_of_cons in Hin as [->|Hin]; [first [discriminate Hp | reflexivity]|]);
    by apply elem_of_nil in Hin.
Qed.

Lemma integration_emergency_first fmt py_str cfg s :
  Integration.car_charge_emergency_fires cfg s = true ->
  head (Integration._make_decisions fmt py_str cfg s)
  = Some (Integration.car_charge_emergency fmt py_str cfg s).
Proof.
  intros Hfires.
  unfold Integration._make_decisions, Integration.appended_decisions.
  rewrite Hfires.
  destruct (Integration.car_charge_pv_fires cfg s),
           (Integration.battery_charge_pv_fires cfg s),
           (Integration.battery_charge_grid_fires cfg s),
           (Integration.car_charge_cheap_fires cfg s),
           (Integration.stop_grid_consumption_fires cfg s);
    reflexivity.
Qed.

Lemma app_emergency_first fmt py_str CONFIG s :
  App.car_charge_emergency_fires CONFIG s = true ->
  head (App.make_decisions fmt py_str CONFIG s)
  = Some (App.car_charge_emergency fmt py_str CONFIG s).
Proof.
  intros Hfires.
  unfold App.make_decisions, App.appended_decisions.
  rewrite Hfires.
  destruct (App.car_charge_pv_fires CONFIG s),
           (App.battery_charge_pv_fires CONFIG s),
           (App.battery_charge_grid_fires CONFIG s),
           (App.car_charge_cheap_fires CONFIG s),
           (App.stop_grid_consumption_fires CONFIG s);
    reflexivity.
Qed.

(** C3: in the evaluator's output a decision of priority 0 is always
    car_charge_emergency, and when the vehicle is connected with a state of
    charge below car_min_soc_target, the car_charge_emergency decision is
    the first element of the list; in the integration and in the app. *)
Theorem emergency_owns_priority_zero_and_comes_first :
  (forall fmt py_str cfg s,
     (forall d, d ∈ Integration._make_decisions fmt py_str cfg s ->
                priority d = 0 -> action d = "car_charge_emergency") /\
     (Integration.car_connected s = true ->
      (Integration.car_soc s <? Integration.cfg_get cfg "car_min_soc_target")%float = true ->
      head (Integration._make_decisions fmt py_str cfg s)
      = Some (Integration.car_charge_emergency fmt py_str cfg s))) /\
  (forall fmt py_str CONFIG s,
     (forall d, d ∈ App.make_decisions fmt py_str CONFIG s ->
                priority d = 0 -> action d = "car_charge_emergency") /\
     (App.car_connected s = true ->
      (App.car_soc s <? App.car_min_soc_target CONFIG)%float = true ->
      head (App.make_decisions fmt py_str CONFIG s)
      = Some (App.car_charge_emergency fmt py_str CONFIG s))).
Proof.
  split; intros fmt py_str c s; split.
  - intros d Hin. apply (proj1 (elem_of_sort_by_priority _ _)) in Hin.
    by apply integration_appended_elem with (1 := Hin).
  - intros Hc Hlow. apply integration_emergency_first.
    unfold Integration.car_charge_emergency_fires. by rewrite Hc, Hlow.
  - intros d Hin. apply (proj1 (elem_of_sort_by_priority _ _)) in Hin.
    by apply app_appended_elem with (1 := Hin).
  - intros Hc Hlow. apply app_emergency_first.
    unfold App.car_charge_emergency_fires. by rewrite Hc, Hlow.
Qed.

(** The vehicle at 15 % under the default minimum of 20 %: both parts of C3
    at a concrete state, for the integration and for the app. *)
Lemma emergency_comes_first_witness :
  (priority (Integration.car_charge_emergency no_fmt no_str scenario_cfg low_soc_state) = 0
   /\ action (Integration.car_charge_emergency no_fmt no_str scenario_cfg low_soc_state)
      = "car_charge_emergency"
   /\ summary (Integration._make_decisions no_fmt no_str scenario_cfg low_soc_state)
      = [("car_charge_emergency", 0); ("car_charge_cheap", 2)]
   /\ head (Integration._make_decisions no_fmt no_str scenario_cfg low_soc_state)
      = Some (Integration.car_charge_emergency no_fmt no_str scenario_cfg low_soc_state))
  /\ head (App.make_decisions no_fmt no_str App.SHIPPED_CONFIG app_low_soc_state)
     = Some (App.car_charge_emergency no_fmt no_str App.SHIPPED_CONFIG app_low_soc_state).
Proof.
  split; [split; [reflexivity | split; [|split]] |].
  - apply (proj1 (proj1 emergency_owns_priority_zero_and_comes_first
                    no_fmt no_str scenario_cfg low_soc_state)).
    + vm_compute. constructor.
    + reflexivity.
  - vm_compute. reflexivity.
  - apply (proj2 (proj1 emergency_owns_priority_zero_and_comes_first
                    no_fmt no_str scenario_cfg low_soc_state)).
    + reflexivity.
    + vm_compute. reflexivity.
  - apply (proj2 (proj2 emergency_owns_priority_zero_and_comes_first
                    no_fmt no_str App.SHIPPED_CONFIG app_low_soc_state)).
    + reflexivity.
    + vm_compute. reflexivity.
Defined.

(** C7, as stated, fails: the vehicle minimum is one of the remaining
    fields, and a minimum of 50 % (below the default target of 80 %, so
    within the invariants) makes the emergency rule fire at 45 % as well. *)
Lemma scenario_with_minimum_50_has_two_decisions :
  ~ (forall fmt py_str cfg s,
       scenario_inputs cfg s -> config_invariants cfg -> state_in_range s ->
       summary (Integration._make_decisions fmt py_str cfg s) = [("car_charge_cheap", 2)]).
Proof.
  intros H.
  assert (Hin : scenario_inputs scenario_cfg_min50 scenario_state)
    by (repeat split; vm_compute; reflexivity).
  assert (Hinv : config_invariants scenario_cfg_min50).
  { repeat split; try (vm_compute; reflexivity).
    repeat constructor; vm_compute; reflexivity. }
  assert (Hrange : state_in_range scenario_state)
    by (split; repeat constructor; vm_compute; reflexivity).
  specialize (H no_fmt no_str scenario_cfg_min50 scenario_state Hin Hinv Hrange).
  assert (Hout : summary (Integration._make_decisions no_fmt no_str scenario_cfg_min50
                            scenario_state)
                 = [("car_charge_emergency", 0); ("car_charge_cheap", 2)])
    by (vm_compute; reflexivity).
  rewrite Hout in H.
  discriminate H.
Qed.

(** C7, amended: with the scenario's values and a vehicle state of charge
    that is not below car_min_soc_target (as with the default minimum of
    20 %), [_make_decisions] returns exactly one decision, car_charge_cheap
    with priority 2, whatever the remaining fields are. *)
Theorem scenario_yields_car_charge_cheap_only fmt py_str cfg s :
  scenario_inputs cfg s ->
  (Integration.car_soc s <? Integration.cfg_get cfg "car_min_soc_target")%float = false ->
  summary (Integration._make_decisions fmt py_str cfg s) = [("car_charge_cheap", 2)].
Proof.
  intros (Hpv & Hhouse & Hsurplus & Hconn & Hsoc & Htarget & Hthr & Hprice
          & Hcheap & Hvery & Hexp & Hbat & Hres) Hmin.
  rewrite Hpv, Hhouse in Hsurplus.
  assert (Hpvrule : Integration.car_charge_pv_fires cfg s = false).
  { unfold Integration.car_charge_pv_fires.
    rewrite Hconn, Hsoc, Htarget, Hthr, Hsurplus. reflexivity. }
  assert (Hbatpv : Integration.battery_charge_pv_fires cfg s = false).
  { unfold Integration.battery_charge_pv_fires.
    rewrite Hconn. apply andb_false_r. }
  assert (Hgrid : Integration.battery_charge_grid_fires cfg s = false).
  { unfold Integration.battery_charge_grid_fires.
    rewrite Hprice, Hvery. reflexivity. }
  assert (Hcheaprule : Integration.car_charge_cheap_fires cfg s = true).
  { unfold Integration.car_charge_cheap_fires.
    rewrite Hconn, Hsoc, Htarget, Hprice, Hcheap, Hsurplus, Hthr. reflexivity. }
  assert (Hemergency : Integration.car_charge_emergency_fires cfg s = false).
  { unfold Integration.car_charge_emergency_fires.
    rewrite Hmin. apply andb_false_r. }
  assert (Hstop : Integration.stop_grid_consumption_fires cfg s = false).
  { unfold Integration.stop_grid_consumption_fires.
    rewrite Hexp, Hprice. reflexivity. }
  unfold Integration._make_decisions, Integration.appended_decisions.
  rewrite Hpvrule, Hbatpv, Hgrid, Hcheaprule, Hemergency, Hstop.
  reflexivity.
Qed.

(** The scenario with everything else as in [DEFAULT_CONFIG]. *)
Lemma scenario_yields_car_charge_cheap_only_witness :
  summary (Integration._make_decisions no_fmt no_str scenario_cfg scenario_state)
  = [("car_charge_cheap", 2)].
Proof.
  apply (scenario_yields_car_charge_cheap_only no_fmt no_str scenario_cfg scenario_state).
  - repeat split; vm_compute; reflexivity.
  - vm_compute. reflexivity.
Defined.


(* ===================================================================== *)
(** * The price classifier and the boolean normalizer *)
(* ===================================================================== *)

(** Python's [==] on floats implies [<=]. *)
Lemma float_eqb_leb (x y : float) : (x =? y)%float = true -> (x <=? y)%float = true.
Proof.
  rewrite FloatAxioms.eqb_spec, FloatAxioms.leb_spec. unfold SFeqb, SFleb.
  by destruct (SFcompare (Prim2SF x) (Prim2SF y)) as [[]|].
Qed.

(** C2: [_compute_price_level] tests the thresholds in the order very cheap,
    cheap, expensive: VERY_CHEAP if p <= very_cheap; otherwise CHEAP if
    p <= cheap; otherwise EXPENSIVE if p >= expensive; otherwise NORMAL.  In
    particular a price equal to coinciding very-cheap and cheap thresholds
    is VERY_CHEAP. *)
Theorem price_level_thresholds_in_order (cfg : Integration.config) (p : float) :
  let very_cheap := Integration.cfg_get cfg "price_very_cheap_threshold" in
  let cheap := Integration.cfg_get cfg "price_cheap_threshold" in
  let expensive := Integration.cfg_get cfg "price_expensive_threshold" in
  let level := Integration._compute_price_level cfg p in
  ((p <=? very_cheap)%float = true -> level = "VERY_CHEAP") /\
  ((p <=? very_cheap)%float = false -> (p <=? cheap)%float = true -> level = "CHEAP") /\
  ((p <=? very_cheap)%float = false -> (p <=? cheap)%float = false ->
   (expensive <=? p)%float = true -> level = "EXPENSIVE") /\
  ((p <=? very_cheap)%float = false -> (p <=? cheap)%float = false ->
   (expensive <=? p)%float = false -> level = "NORMAL") /\
  ((very_cheap =? cheap)%float = true -> (p =? very_cheap)%float = true ->
   level = "VERY_CHEAP").
Proof.
  cbv zeta. unfold Integration._compute_price_level.
  repeat split.
  - by intros ->.
  - by intros -> ->.
  - by intros -> -> ->.
  - by intros -> -> ->.
  - intros _ Heq. by rewrite (float_eqb_leb _ _ Heq).
Qed.

(** The four levels with the scenario's thresholds 0.08, 0.15 and 0.30, and
    a price of 0.1 on coinciding thresholds of 0.1. *)
Lemma price_level_thresholds_in_order_witness :
  Integration._compute_price_level scenario_cfg 0.05 = "VERY_CHEAP" /\
  Integration._compute_price_level scenario_cfg 0.125 = "CHEAP" /\
  Integration._compute_price_level scenario_cfg 0.5 = "EXPENSIVE" /\
  Integration._compute_price_level scenario_cfg 0.2 = "NORMAL" /\
  Integration._compute_price_level tie_cfg 0.1 = "VERY_CHEAP".
Proof.
  split; [|split; [|split; [|split]]].
  - apply (proj1 (price_level_thresholds_in_order scenario_cfg 0.05)).
    vm_compute. reflexivity.
  - apply (proj1 (proj2 (price_level_thresholds_in_order scenario_cfg 0.125)));
      vm_compute; reflexivity.
  - apply (proj1 (proj2 (proj2 (price_level_thresholds_in_order scenario_cfg 0.5))));
      vm_compute; reflexivity.
  - apply (proj1 (proj2 (proj2 (proj2 (price_level_thresholds_in_order scenario_cfg 0.2)))));
      vm_compute; reflexivity.
  - apply (proj2 (proj2 (proj2 (proj2 (price_level_thresholds_in_order tie_cfg 0.1)))));
      vm_compute; reflexivity.
Defined.

Lemma str_in_elem_of (val : string) (tuple : list string) :
  str_in val tuple = true <-> val ∈ tuple.
Proof.
  unfold str_in. split.
  - intros H. apply existsb_exists in H as (x & Hx & Heq).
    apply String.eqb_eq in Heq as ->. by apply list_elem_of_In.
  - intros Hin. apply existsb_exists. exists val.
    split; [by apply list_elem_of_In | apply String.eqb_refl].
Qed.

(** C8, as stated, fails: the state string "True" is none of on, true, 1,
    home, and the normalizer returns true for it. *)
Lemma safe_bool_accepts_capital_True :
  ~ (forall w entity_id,
       fst (Integration._safe_bool entity_id w) = Ret true <->
       exists val, states w !! entity_id = Some val /\ val ∈ spec_truthy_literals).
Proof.
  intros H.
  destruct (proj1 (H (world_reading "binary_sensor.car_connected" "True")
                     "binary_sensor.car_connected")) as (val & Hval & Hin).
  - vm_compute. reflexivity.
  - vm_compute in Hval. injection Hval as <-.
    unfold spec_truthy_literals in Hin.
    repeat (apply elem_of_cons in Hin as [Hin|Hin]; [discriminate Hin|]).
    by apply elem_of_nil in Hin.
Qed.

Lemma str_of_int_read_back z :
  exists d, NilZero.int_of_string (str_of_int z) = Some d /\ Z.of_int d = z.
Proof.
  unfold str_of_int. pose proof (of_to z) as Hz.
  destruct (Z.to_int z) as [u|u].
  - destruct u;
      [exists (Decimal.Pos (Decimal.D0 Decimal.Nil)); split;
         [apply NilZero.isi_posnil | by rewrite <- Hz]|..];
      (eexists; split; [apply NilZero.isi; discriminate | exact Hz]).
  - destruct u;
      [exists (Decimal.Neg (Decimal.D0 Decimal.Nil)); split;
         [apply NilZero.isi_negnil | by rewrite <- Hz]|..];
      (eexists; split; [apply NilZero.isi; discriminate | exact Hz]).
Qed.

(** Of the accepted literals only "1" is the numeral of an int, of 1. *)
Lemma str_of_int_accepted z : str_of_int z ∈ accepted_literals <-> z = 1.
Proof.
  split; [|intros ->; apply (bool_decide_unpack _); vm_compute; exact I].
  intros Hin. destruct (str_of_int_read_back z) as (d & Hread & <-).
  unfold accepted_literals in Hin.
  repeat (apply elem_of_cons in Hin as [Hin|Hin];
          [rewrite Hin in Hread; vm_compute in Hread;
           first [discriminate Hread | by injection Hread as <-]|]).
  by apply elem_of_nil in Hin.
Qed.

(** C8, amended: the boolean normalizer ([_safe_bool] of the integration,
    [safe_bool] of the app) returns true exactly when the entity has a state
    string and that string is one of on, true, True, 1, home (compared as
    is, without case folding), and false for every other string and for a
    missing reading; it changes nothing.  The test script's [safe_bool]
    returns true exactly when the table has a value for the entity and
    [str] of that value is one of these literals: a string that is one of
    them, the int 1, the boolean [True], and no other int, boolean or
    [None]; a missing entry reads as "off". *)
Theorem safe_bool_true_iff_accepted_literal py_str MOCK_SENSORS
    (w : world) (entity_id : string) :
  (exists b, Integration._safe_bool entity_id w = (Ret b, w) /\
     (b = true <-> exists val, states w !! entity_id = Some val /\ val ∈ accepted_literals)) /\
  (exists b, App.safe_bool entity_id w = (Ret b, w) /\
     (b = true <-> exists val, states w !! entity_id = Some val /\ val ∈ accepted_literals)) /\
  (TestLogic.safe_bool py_str MOCK_SENSORS entity_id = true <->
   exists val, MOCK_SENSORS !! entity_id = Some val /\
               TestLogic.str_of py_str val ∈ accepted_literals) /\
  (forall val,
     TestLogic.str_of py_str val ∈ accepted_literals <->
     match val with
     | TestLogic.MockStr s => s ∈ accepted_literals
     | TestLogic.MockInt z => z = 1
     | TestLogic.MockBool b => b = true
     | TestLogic.MockFloat x => py_str x ∈ accepted_literals
     | TestLogic.MockNone => False
     end).
Proof.
  split; [|split; [|split]].
  - unfold Integration._safe_bool, bind, get_state, ret.
    destruct (states w !! entity_id) as [val|]; eexists; (split; [reflexivity|]).
    + rewrite str_in_elem_of. split;
        [ intros Hin; by exists val | by intros (v & [= <-] & Hin) ].
    + split; [discriminate | by intros (v & [=] & _)].
  - unfold App.safe_bool, bind, get_state, ret.
    destruct (states w !! entity_id) as [val|]; eexists; (split; [reflexivity|]).
    + rewrite str_in_elem_of. split;
        [ intros Hin; by exists val | by intros (v & [= <-] & Hin) ].
    + split; [discriminate | by intros (v & [=] & _)].
  - unfold TestLogic.safe_bool. cbv zeta. rewrite str_in_elem_of.
    fold accepted_literals.
    destruct (MOCK_SENSORS !! entity_id) as [val|]; cbn [default].
    + split; [intros Hin; by exists val | by intros (v & [= <-] & Hin)].
    + split; [|by intros (v & [=] & _)].
      intros Hin. exfalso. cbn in Hin. unfold accepted_literals in Hin.
      repeat (apply elem_of_cons in Hin as [Hin|Hin]; [discriminate Hin|]).
      by apply elem_of_nil in Hin.
  - intros [z|x|s|[|]|]; cbn [TestLogic.str_of]; try done.
    + apply str_of_int_accepted.
    + split; [done|]. intros _. apply (bool_decide_unpack _). vm_compute. exact I.
    + split; [|done]. unfold accepted_literals. intros Hin.
      repeat (apply elem_of_cons in Hin as [Hin|Hin]; [discriminate Hin|]).
      by apply elem_of_nil in Hin.
    + split; [|done]. unfold accepted_literals. intros Hin.
      repeat (apply elem_of_cons in Hin as [Hin|Hin]; [discriminate Hin|]).
      by apply elem_of_nil in Hin.
Qed.


(** The shipped table of the test script: the vehicle reads as connected
    (the string "on"), the battery level (the int 72) does not read as
    true, and a sensor that is not in the table neither. *)
Example test_script_safe_bool_on_the_shipped_table :
  TestLogic.safe_bool no_str TestLogic.SHIPPED_MOCK_SENSORS "binary_sensor.car_connected"
  = true /\
  TestLogic.safe_bool no_str TestLogic.SHIPPED_MOCK_SENSORS "sensor.battery_soc" = false /\
  TestLogic.safe_bool no_str TestLogic.SHIPPED_MOCK_SENSORS "binary_sensor.door" = false /\
  TestLogic.safe_bool no_str {[ "binary_sensor.car_connected" := TestLogic.MockInt 1 ]}
    "binary_sensor.car_connected" = true.
Proof. repeat split; vm_compute; reflexivity. Qed.


(* ===================================================================== *)
(** * The notification gate *)
(* ===================================================================== *)

(** Both copies of the gate end in one of the four outcomes. *)
Lemma integration_gate_outcome cfg action_key message w :
  Integration._send_smart_notification cfg action_key message w
  = gate_outcome (integration_call cfg message) action_key w.
Proof.
  unfold Integration._send_smart_notification, gate_outcome, in_cooldown, now_of,
    bind, datetime_now, get_last_notification, try_except, call_service,
    set_last_notification, write_log, integration_call.
  cbn.
  destruct (last_notification w !! action_key) as [l|]; cbn;
    [destruct (clock w (ticks w) - l <? two_hours); [reflexivity|]|];
    cbn; (destruct (notifier w (attempts w)) as [e|]; cbn;
          [destruct (is_Exception e)|]; reflexivity).
Qed.

Lemma app_gate_outcome CONFIG action_key message w :
  App.send_smart_notification CONFIG action_key message w
  = gate_outcome (app_call CONFIG message) action_key w.
Proof.
  unfold App.send_smart_notification, gate_outcome, in_cooldown, now_of,
    bind, datetime_now, get_last_notification, try_except, call_service,
    set_last_notification, write_log, app_call.
  cbn.
  destruct (last_notification w !! action_key) as [l|]; cbn;
    [destruct (clock w (ticks w) - l <? two_hours); [reflexivity|]|];
    cbn; (destruct (notifier w (attempts w)) as [e|]; cbn;
          [destruct (is_Exception e)|]; reflexivity).
Qed.

Lemma in_cooldown_true action_key w :
  in_cooldown action_key w = true <->
  exists last, last_notification w !! action_key = Some last /\ now_of w - last < two_hours.
Proof.
  unfold in_cooldown. destruct (last_notification w !! action_key) as [l|].
  - rewrite Z.ltb_lt. split; [intros H; by exists l | by intros (? & [= <-] & H)].
  - split; [discriminate | by intros (? & [=] & _)].
Qed.

Lemma in_cooldown_false action_key w :
  in_cooldown action_key w = false <->
  forall last, last_notification w !! action_key = Some last -> two_hours <= now_of w - last.
Proof.
  unfold in_cooldown. destruct (last_notification w !! action_key) as [l|].
  - rewrite Z.ltb_ge. split; [by intros H ? [= <-] | intros H; by apply H].
  - split; [by intros _ ? [=] | done].
Qed.

(** The gate calls the service exactly when the action is not in its cooldown. *)
Lemma gate_outcome_service_called call action_key w :
  service_called w (snd (gate_outcome call action_key w)) <-> in_cooldown action_key w = false.
Proof.
  unfold gate_outcome, service_called.
  destruct (in_cooldown action_key w); cbn.
  - split; [lia | discriminate].
  - destruct (notifier w (attempts w)) as [e|]; [destruct (is_Exception e)|]; cbn; done.
Qed.

Lemma gate_outcome_suppressed call action_key w :
  in_cooldown action_key w = true -> suppressed w (snd (gate_outcome call action_key w)).
Proof. unfold gate_outcome. by intros ->. Qed.

Lemma gate_outcome_delivered call action_key w :
  in_cooldown action_key w = false -> notifier w (attempts w) = None ->
  gate_outcome call action_key w = (Ret tt, after_delivery call action_key w).
Proof. unfold gate_outcome. by intros -> ->. Qed.

Lemma gate_outcome_entry call action_key w :
  last_notification (snd (gate_outcome call action_key w)) !! action_key
  = if in_cooldown action_key w then last_notification w !! action_key
    else match notifier w (attempts w) with
         | None => Some (now_of w)
         | Some _ => last_notification w !! action_key
         end.
Proof.
  unfold gate_outcome.
  destruct (in_cooldown action_key w); cbn; [done|].
  destruct (notifier w (attempts w)) as [e|]; [by destruct (is_Exception e)|].
  cbn. apply lookup_insert_eq.
Qed.

(** C10: with a recorded send for the action, the gate calls the service
    (and, if the service accepts, delivers and records) as soon as the
    elapsed time is two hours or more, two hours exactly included; it
    suppresses when the elapsed time is strictly less, and only then.  For
    the integration and for the app. *)
Theorem cooldown_comparison_is_strict cfg CONFIG action_key message w last :
  last_notification w !! action_key = Some last ->
  let wi := snd (Integration._send_smart_notification cfg action_key message w) in
  let wa := snd (App.send_smart_notification CONFIG action_key message w) in
  (two_hours <= now_of w - last ->
     (service_called w wi /\ service_called w wa) /\
     (notifier w (attempts w) = None ->
      delivered action_key message w wi /\ delivered action_key message w wa)) /\
  (now_of w - last < two_hours -> suppressed w wi /\ suppressed w wa) /\
  (suppressed w wi \/ suppressed w wa -> now_of w - last < two_hours).
Proof.
  intros Hlast wi wa. subst wi wa.
  rewrite integration_gate_outcome, app_gate_outcome.
  split; [|split].
  - intros Hge.
    assert (Hcool : in_cooldown action_key w = false).
    { apply in_cooldown_false. intros l Hl. congruence. }
    split; [split; by apply gate_outcome_service_called|].
    intros Hok. rewrite !gate_outcome_delivered by done. cbn.
    split; (split; [done | split; [eexists; split; [reflexivity|done] | done]]).
  - intros Hlt.
    assert (Hcool : in_cooldown action_key w = true).
    { apply in_cooldown_true. by exists last. }
    split; by apply gate_outcome_suppressed.
  - intros Hsup.
    destruct (in_cooldown action_key w) eqn:Hcool.
    + apply in_cooldown_true in Hcool as (l & Hl & Hlt). congruence.
    + exfalso.
      assert (Hcalled : forall call, service_called w (snd (gate_outcome call action_key w)))
        by (intros; by apply gate_outcome_service_called).
      destruct Hsup as [(Ha & _)|(Ha & _)];
        [specialize (Hcalled (integration_call cfg message))
        |specialize (Hcalled (app_call CONFIG message))];
        unfold service_called in Hcalled; lia.
Qed.

(** A send recorded at 0: at exactly two hours the next call goes out, one
    microsecond earlier it is suppressed. *)
Lemma cooldown_comparison_is_strict_witness :
  (service_called (world_sent_at "car_charge_cheap" 0 two_hours)
     (snd (Integration._send_smart_notification scenario_cfg "car_charge_cheap" "msg"
             (world_sent_at "car_charge_cheap" 0 two_hours)))
   /\ service_called (world_sent_at "car_charge_cheap" 0 two_hours)
        (snd (App.send_smart_notification App.SHIPPED_CONFIG "car_charge_cheap" "msg"
                (world_sent_at "car_charge_cheap" 0 two_hours))))
  /\ (suppressed (world_sent_at "car_charge_cheap" 0 (two_hours - 1))
        (snd (Integration._send_smart_notification scenario_cfg "car_charge_cheap" "msg"
                (world_sent_at "car_charge_cheap" 0 (two_hours - 1))))
      /\ suppressed (world_sent_at "car_charge_cheap" 0 (two_hours - 1))
           (snd (App.send_smart_notification App.SHIPPED_CONFIG "car_charge_cheap" "msg"
                   (world_sent_at "car_charge_cheap" 0 (two_hours - 1))))).
Proof.
  split.
  - apply (cooldown_comparison_is_strict scenario_cfg App.SHIPPED_CONFIG
             "car_charge_cheap" "msg" (world_sent_at "car_charge_cheap" 0 two_hours) 0).
    + reflexivity.
    + vm_compute. discriminate.
  - apply (cooldown_comparison_is_strict scenario_cfg App.SHIPPED_CONFIG
             "car_charge_cheap" "msg" (world_sent_at "car_charge_cheap" 0 (two_hours - 1)) 0).
    + reflexivity.
    + vm_compute. reflexivity.
Defined.

Section TwoCalls.

Variable gate : string -> string -> M unit.
Variable mk_call : string -> service_call.
Hypothesis gate_is : forall action_key message w,
  gate action_key message w = gate_outcome (mk_call message) action_key w.

Lemma gate_outcome_is_delivered call action_key w :
  in_cooldown action_key w = false -> notifier w (attempts w) = None ->
  delivered action_key (sc_message call) w (snd (gate_outcome call action_key w)).
Proof.
  intros Hcool Hok. rewrite (gate_outcome_delivered _ _ _ Hcool Hok). cbn.
  split; [done|]. split; [|done]. by exists call.
Qed.

Lemma two_calls_respect_cooldown_of_outcome :
  (forall message, sc_message (mk_call message) = message) ->
  two_calls_respect_cooldown gate.
Proof.
  intros Hmsg action_key m1 m2 w0 w2 w1 w3 Hkept. subst w1 w3.
  rewrite !gate_is in *. split.
  - intros Hlt (_ & _ & Hrec).
    apply gate_outcome_suppressed, in_cooldown_true.
    exists (now_of w0). split; [|done].
    rewrite Hkept, Hrec. apply lookup_insert_eq.
  - intros Hgt Hfree.
    assert (Hcool0 : in_cooldown action_key w0 = false) by by apply in_cooldown_false.
    rewrite gate_outcome_entry, Hcool0 in Hkept.
    assert (Hcool2 : in_cooldown action_key w2 = false).
    { apply in_cooldown_false. intros l Hl. rewrite Hkept in Hl.
      destruct (notifier w0 (attempts w0)).
      - pose proof (Hfree l Hl). unfold two_hours in *. lia.
      - injection Hl as <-. lia. }
    split; [by apply gate_outcome_service_called|].
    split; [by apply gate_outcome_service_called|].
    split; intros Hok.
    + split.
      * rewrite <- (Hmsg m1) at 1. by apply gate_outcome_is_delivered.
      * by rewrite gate_outcome_entry, Hcool0, Hok.
    + split.
      * rewrite <- (Hmsg m2) at 1. by apply gate_outcome_is_delivered.
      * by rewrite gate_outcome_entry, Hcool2, Hok.
Qed.

Lemma gate_contains_failure_of_outcome : gate_contains_failure gate.
Proof.
  intros action_key message w e He Hexc. rewrite gate_is. unfold gate_outcome.
  destruct (in_cooldown action_key w); [done|].
  by rewrite He, Hexc.
Qed.

(** Under a service that raises [Exception]s only, one call of the gate
    ends normally and logs exactly one outcome. *)
Lemma gate_consulted_once action_key message w :
  notifier_raises_exceptions_only w ->
  exists w', gate action_key message w = (Ret tt, w') /\
             notifier w' = notifier w /\
             logged_decisions (log w') = logged_decisions (log w) /\
             gate_consultations (log w') = S (gate_consultations (log w)).
Proof.
  intros Hexc. rewrite gate_is. unfold gate_outcome.
  assert (Hlog : forall e, is_gate_outcome e = true ->
            logged_decisions (log w ++ [e]) = logged_decisions (log w) /\
            gate_consultations (log w ++ [e]) = S (gate_consultations (log w))).
  { intros e He. unfold logged_decisions, gate_consultations.
    rewrite omap_app, List.filter_app, length_app. cbn. rewrite He. cbn.
    split; [|lia]. destruct e; try discriminate He; cbn; apply app_nil_r. }
  destruct (in_cooldown action_key w);
    [|destruct (notifier w (attempts w)) as [e|] eqn:He;
      [rewrite (Hexc _ _ He)|]];
    eexists; (split; [reflexivity|]); cbn; (split; [done|]); by apply Hlog.
Qed.

(** The loop of [execute_decisions]. *)
Lemma loop_processes_every_decision (decisions : list decision) (w : world) :
  notifier_raises_exceptions_only w ->
  exists w',
    for_each decisions (fun decision =>
      write_log (LogDecision (action decision) (reason decision)) ;;;
      if notify decision && details_truthy decision
      then gate (action decision) (default "" (details decision))
      else ret tt) w = (Ret tt, w') /\
    notifier w' = notifier w /\
    logged_decisions (log w')
    = (logged_decisions (log w) ++ map action decisions)%list /\
    gate_consultations (log w')
    = (gate_consultations (log w) + length (List.filter asks_for_notification decisions))%nat.
Proof.
  revert w. induction decisions as [|d ds IH]; intros w Hexc.
  - exists w. cbn. rewrite app_nil_r. repeat split; lia.
  - cbn [for_each]. unfold bind at 1. unfold bind at 1. cbn [write_log].
    set (w1 := World _ _ _ _ _ _ (log w ++ [LogDecision (action d) (reason d)])%list _ _ _).
    assert (Hexc1 : notifier_raises_exceptions_only w1) by exact Hexc.
    assert (Hdec1 : logged_decisions (log w1)
                    = (logged_decisions (log w) ++ [action d])%list).
    { unfold logged_decisions. cbn. by rewrite omap_app. }
    assert (Hgate1 : gate_consultations (log w1) = gate_consultations (log w)).
    { unfold gate_consultations. cbn. rewrite List.filter_app, length_app. cbn. lia. }
    cbn [List.filter map]. unfold asks_for_notification at 1.
    destruct (notify d && details_truthy d) eqn:Hasks.
    + destruct (gate_consulted_once (action d) (default "" (details d)) w1 Hexc1)
        as (w2 & -> & Hn2 & Hd2 & Hg2).
      destruct (IH w2) as (w' & -> & Hn' & Hd' & Hg').
      { unfold notifier_raises_exceptions_only. by rewrite Hn2. }
      exists w'. split; [done|].
      split; [by rewrite Hn', Hn2|].
      split.
      * rewrite Hd', Hd2, Hdec1, <- app_assoc. done.
      * rewrite Hg', Hg2, Hgate1. cbn. lia.
    + cbn [ret].
      destruct (IH w1 Hexc1) as (w' & -> & Hn' & Hd' & Hg').
      exists w'. split; [done|].
      split; [done|].
      split.
      * rewrite Hd', Hdec1, <- app_assoc. done.
      * rewrite Hg', Hgate1. lia.
Qed.

End TwoCalls.

(** C4, as stated, fails in its second half: of three calls at 0 h, 1 h and
    4 h the last two are more than two hours apart, yet the one at 1 h is
    suppressed by the send at 0 h. *)
Lemma call_inside_an_earlier_cooldown_is_not_sent :
  ~ (forall cfg action_key m1 m2 w0 w2,
       let w1 := snd (Integration._send_smart_notification cfg action_key m1 w0) in
       let w3 := snd (Integration._send_smart_notification cfg action_key m2 w2) in
       last_notification w2 !! action_key = last_notification w1 !! action_key ->
       two_hours < now_of w2 - now_of w0 ->
       service_called w0 w1 /\ service_called w2 w3).
Proof.
  intros H.
  destruct (H scenario_cfg "car_charge_cheap" "second" "third"
              (world_sent_at "car_charge_cheap" 0 one_hour)
              (at_time (4 * one_hour)
                 (snd (Integration._send_smart_notification scenario_cfg
                         "car_charge_cheap" "second"
                         (world_sent_at "car_charge_cheap" 0 one_hour)))))
    as [Hfirst _].
  - reflexivity.
  - vm_compute. reflexivity.
  - vm_compute in Hfirst. discriminate Hfirst.
Qed.

(** C4, amended: for two calls of the gate for one action, between which
    nothing else touched the action's entry: if less than two hours lie
    between them and the first was delivered, the second sends nothing and
    leaves the throttle map as it is; if more than two hours lie between
    them and no send for the action is recorded less than two hours before
    the first, both calls call the service, and each of them the service
    accepts is delivered and records its time for the action.  For the
    integration and for the app. *)
Theorem two_calls_and_the_cooldown cfg CONFIG :
  two_calls_respect_cooldown (Integration._send_smart_notification cfg) /\
  two_calls_respect_cooldown (App.send_smart_notification CONFIG).
Proof.
  split.
  - apply (two_calls_respect_cooldown_of_outcome _ (integration_call cfg));
      [intros; apply integration_gate_outcome | reflexivity].
  - apply (two_calls_respect_cooldown_of_outcome _ (app_call CONFIG));
      [intros; apply app_gate_outcome | reflexivity].
Qed.

(** A first call in the initial world, where no send is recorded: it goes
    out at 0; a second call one hour later is suppressed, a second call
    three hours later goes out as well and records its time. *)
Lemma two_calls_and_the_cooldown_witness :
  suppressed (at_time one_hour world_after_first_send)
    (snd (Integration._send_smart_notification scenario_cfg "car_charge_cheap" "second"
            (at_time one_hour world_after_first_send)))
  /\ (forall last, last_notification initial_world !! "car_charge_cheap" = Some last ->
                   two_hours <= now_of initial_world - last)
  /\ service_called initial_world
       (snd (Integration._send_smart_notification scenario_cfg "car_charge_cheap" "first"
               initial_world))
  /\ service_called (at_time (3 * one_hour) world_after_first_send)
       (snd (Integration._send_smart_notification scenario_cfg "car_charge_cheap" "second"
               (at_time (3 * one_hour) world_after_first_send)))
  /\ last_notification
       (snd (Integration._send_smart_notification scenario_cfg "car_charge_cheap" "second"
               (at_time (3 * one_hour) world_after_first_send))) !! "car_charge_cheap"
     = Some (3 * one_hour).
Proof.
  assert (Hfree : forall last,
            last_notification initial_world !! "car_charge_cheap" = Some last ->
            two_hours <= now_of initial_world - last).
  { intros last Hlast. vm_compute in Hlast. discriminate Hlast. }
  split.
  - apply (proj1 (two_calls_and_the_cooldown scenario_cfg App.SHIPPED_CONFIG)
             "car_charge_cheap" "first" "second" initial_world
             (at_time one_hour world_after_first_send)).
    + reflexivity.
    + vm_compute. reflexivity.
    + split; [reflexivity | split; [eexists; split; reflexivity | reflexivity]].
  - split; [exact Hfree|].
    destruct (proj1 (two_calls_and_the_cooldown scenario_cfg App.SHIPPED_CONFIG)
                "car_charge_cheap" "first" "second" initial_world
                (at_time (3 * one_hour) world_after_first_send)) as [_ Hfar].
    + reflexivity.
    + destruct (Hfar ltac:(vm_compute; reflexivity) Hfree)
        as (Hcalled0 & Hcalled2 & _ & Hrec).
      split; [exact Hcalled0|]. split; [exact Hcalled2|].
      apply Hrec. reflexivity.
Defined.

Lemma bind_returns {A B} (m : M A) (k : A -> M B) (w w' : world) (a : A) :
  m w = (Ret a, w') -> bind m k w = k a w'.
Proof. unfold bind. by intros ->. Qed.

Lemma bind_raises {A B} (m : M A) (k : A -> M B) (w w' : world) (e : exn) :
  m w = (Raise e, w') -> bind m k w = (Raise e, w').
Proof. unfold bind. by intros ->. Qed.

Lemma integration_run_processes_every_decision cfg system :
  run_processes_every_decision (fun ds => Integration._execute_decisions cfg ds system).
Proof.
  intros decisions w Hexc. unfold Integration._execute_decisions.
  destruct decisions as [|d ds].
  - cbn. unfold logged_decisions, gate_consultations.
    rewrite omap_app, List.filter_app, length_app, app_nil_r. cbn.
    rewrite app_nil_r. repeat split; lia.
  - destruct (loop_processes_every_decision _ _ (integration_gate_outcome cfg) (d :: ds) w Hexc)
      as (w' & -> & _ & Hd & Hg).
    done.
Qed.

Lemma app_run_processes_every_decision CONFIG system :
  run_processes_every_decision (fun ds => App.execute_decisions CONFIG ds system).
Proof.
  intros decisions w Hexc.
  destruct decisions as [|d ds].
  - cbn. unfold logged_decisions, gate_consultations.
    rewrite omap_app, List.filter_app, length_app, app_nil_r. cbn.
    rewrite app_nil_r. repeat split; lia.
  - destruct (loop_processes_every_decision _ _ (app_gate_outcome CONFIG) (d :: ds) w Hexc)
      as (w' & Hloop & _ & Hd & Hg).
    assert (Hrun : exists w'',
               App.execute_decisions CONFIG (d :: ds) system w = (Ret tt, w'')
               /\ log w'' = log w').
    { unfold App.execute_decisions. rewrite (bind_returns _ _ _ _ _ Hloop).
      cbn. by eexists. }
    destruct Hrun as (w'' & -> & Hlog). cbn [fst snd]. by rewrite Hlog.
Qed.

(** C5: a notification send that raises an [Exception] does not leave the
    gate, and the throttle map is as before the call; and under a service
    that raises [Exception]s only, [execute_decisions] ends normally, has
    gone through every decision of the run in order and has consulted the
    gate for each one that asks for a notification, whichever sends
    failed.  For the integration and for the app. *)
Theorem notification_failure_is_contained cfg CONFIG :
  (gate_contains_failure (Integration._send_smart_notification cfg) /\
   gate_contains_failure (App.send_smart_notification CONFIG)) /\
  (forall system,
     run_processes_every_decision (fun ds => Integration._execute_decisions cfg ds system)) /\
  (forall system,
     run_processes_every_decision (fun ds => App.execute_decisions CONFIG ds system)).
Proof.
  split; [split|split].
  - apply (gate_contains_failure_of_outcome _ (integration_call cfg)).
    intros. apply integration_gate_outcome.
  - apply (gate_contains_failure_of_outcome _ (app_call CONFIG)).
    intros. apply app_gate_outcome.
  - apply integration_run_processes_every_decision.
  - apply app_run_processes_every_decision.
Qed.

(** The vehicle at 15 % with a service whose first call fails: the send for
    car_charge_emergency raises, nothing is recorded for it, and the run
    goes on to car_charge_cheap, which is delivered and recorded. *)
Lemma notification_failure_is_contained_witness :
  (fst (Integration._send_smart_notification scenario_cfg "car_charge_emergency" "msg"
          world_failing_once) = Ret tt
   /\ last_notification
        (snd (Integration._send_smart_notification scenario_cfg "car_charge_emergency" "msg"
                world_failing_once)) = ∅)
  /\ (fst (Integration._execute_decisions scenario_cfg low_soc_decisions low_soc_state
             world_failing_once) = Ret tt
      /\ logged_decisions
           (log (snd (Integration._execute_decisions scenario_cfg low_soc_decisions
                        low_soc_state world_failing_once)))
         = ["car_charge_emergency"; "car_charge_cheap"]
      /\ gate_consultations
           (log (snd (Integration._execute_decisions scenario_cfg low_soc_decisions
                        low_soc_state world_failing_once))) = 2%nat)
  /\ last_notification
       (snd (Integration._execute_decisions scenario_cfg low_soc_decisions
               low_soc_state world_failing_once))
     = {[ "car_charge_cheap" := 1000 ]}.
Proof.
  split; [|split].
  - apply (proj1 (proj1 (notification_failure_is_contained scenario_cfg App.SHIPPED_CONFIG))
             "car_charge_emergency" "msg" world_failing_once
             (Exn (OtherException "ServiceNotFound") "notify"));
      reflexivity.
  - apply (proj1 (proj2 (notification_failure_is_contained scenario_cfg App.SHIPPED_CONFIG))
             low_soc_state low_soc_decisions world_failing_once).
    intros [|n] e He; [by injection He as <- | discriminate He].
  - vm_compute. reflexivity.
Defined.

(** A call of the gate for one action leaves the entries of all other
    actions alone: the cooldown is per identifier. *)
Lemma gate_outcome_other_entries call action_key other w :
  other <> action_key ->
  last_notification (snd (gate_outcome call action_key w)) !! other
  = last_notification w !! other.
Proof.
  intros Hne. unfold gate_outcome.
  destruct (in_cooldown action_key w); [done|].
  destruct (notifier w (attempts w)) as [e|]; [by destruct (is_Exception e)|].
  cbn. by apply lookup_insert_ne.
Qed.

(** A call of the gate for one action, in the integration and in the app,
    leaves the throttle entries of every other action as they were. *)
Theorem gate_writes_its_own_entry_only cfg CONFIG action_key other message w :
  other <> action_key ->
  last_notification (snd (Integration._send_smart_notification cfg action_key message w))
    !! other = last_notification w !! other /\
  last_notification (snd (App.send_smart_notification CONFIG action_key message w))
    !! other = last_notification w !! other.
Proof.
  intros Hne. rewrite integration_gate_outcome, app_gate_outcome.
  split; by apply gate_outcome_other_entries.
Qed.

(** A call for car_charge_emergency keeps the entry of car_charge_cheap. *)
Lemma gate_writes_its_own_entry_only_witness :
  last_notification
    (snd (Integration._send_smart_notification scenario_cfg "car_charge_emergency" "msg"
            (at_time (3 * one_hour) world_after_first_send))) !! "car_charge_cheap"
  = Some 0.
Proof.
  rewrite (proj1 (gate_writes_its_own_entry_only scenario_cfg App.SHIPPED_CONFIG
                    "car_charge_emergency" "car_charge_cheap" "msg"
                    (at_time (3 * one_hour) world_after_first_send) ltac:(discriminate))).
  reflexivity.
Defined.


(* ===================================================================== *)
(** * The state normalizer and the orchestrator *)
(* ===================================================================== *)

Lemma quiet_refl (w : world) : quiet w w.
Proof. by repeat split. Qed.

Lemma quiet_trans (w1 w2 w3 : world) : quiet w1 w2 -> quiet w2 w3 -> quiet w1 w3.
Proof.
  intros (? & ? & ? & ? & ? & ?) (? & ? & ? & ? & ? & ?).
  repeat split; congruence.
Qed.

(** A log line that is neither a decision nor a gate outcome. *)
Lemma quiet_write_log (e : log_entry) (w : world) :
  is_gate_outcome e = false ->
  (forall a r, e <> LogDecision a r) ->
  quiet w (snd (write_log e w)).
Proof.
  intros Hgate Hdec. unfold quiet, logged_decisions, gate_consultations. cbn.
  rewrite omap_app, List.filter_app, length_app. cbn. rewrite Hgate. cbn.
  repeat split; try lia.
  destruct e; cbn; try apply app_nil_r. by destruct (Hdec action_key reason_text).
Qed.

Lemma reader_ret {A} (a : A) : reader (ret a).
Proof. intros w. split; [apply quiet_refl | discriminate]. Qed.

Lemma reader_raise {A} (e : exn) : is_Exception e = true -> reader (@raise A e).
Proof. intros He w. split; [apply quiet_refl | by intros ? [= <-]]. Qed.

Lemma reader_bind {A B} (m : M A) (k : A -> M B) :
  reader m -> (forall a, reader (k a)) -> reader (bind m k).
Proof.
  intros Hm Hk w. unfold bind.
  destruct (Hm w) as [Hq He]. destruct (m w) as [[a|e] w'] eqn:Hmw; cbn in *.
  - destruct (Hk a w') as [Hq' He']. split; [by eapply quiet_trans | done].
  - split; [done|]. intros e' [= <-]. by apply He.
Qed.

Lemma reader_try_except {A} (catches : exn -> bool) (body : M A) (handler : exn -> M A) :
  reader body -> (forall e, reader (handler e)) -> reader (try_except catches body handler).
Proof.
  intros Hb Hh w. unfold try_except.
  destruct (Hb w) as [Hq He]. destruct (body w) as [[a|e] w'] eqn:Hbw; cbn in *.
  - split; [done | discriminate].
  - destruct (catches e).
    + destruct (Hh e w') as [Hq' He']. split; [by eapply quiet_trans | done].
    + split; [done|]. intros e' [= <-]. by apply He.
Qed.

Lemma reader_get_state (entity_id : string) : reader (get_state entity_id).
Proof. intros w. split; [apply quiet_refl | discriminate]. Qed.

Lemma reader_datetime_now : reader datetime_now.
Proof. intros w. split; [by repeat split | discriminate]. Qed.

Lemma reader_dict_item {V} (d : gmap string V) (key : string) : reader (dict_item d key).
Proof.
  unfold dict_item. destruct (d !! key); [apply reader_ret | by apply reader_raise].
Qed.

Create HintDb reader_db.

#[local] Hint Resolve reader_ret reader_get_state reader_datetime_now reader_dict_item
  reader_bind reader_try_except : reader_db.
#[local] Hint Extern 1 (reader (raise _)) => (apply reader_raise; reflexivity) : reader_db.
#[local] Hint Extern 5 (reader (if ?b then _ else _)) => destruct b : reader_db.
#[local] Hint Extern 5 (reader (match ?x with _ => _ end)) => destruct x : reader_db.

Lemma integration_reader_safe_float py_float entity_id default :
  reader (Integration._safe_float py_float entity_id default).
Proof.
  unfold Integration._safe_float, Integration.float_of_str. eauto 20 with reader_db.
Qed.

Lemma integration_reader_safe_bool entity_id : reader (Integration._safe_bool entity_id).
Proof. unfold Integration._safe_bool. eauto 20 with reader_db. Qed.

#[local] Hint Resolve integration_reader_safe_float integration_reader_safe_bool : reader_db.

Lemma integration_reader_read_system_state py_float cfg :
  reader (Integration.read_system_state py_float cfg).
Proof.
  unfold Integration.read_system_state, Integration.now_hour. cbv zeta.
  eauto 200 with reader_db.
Qed.

Lemma app_reader_safe_float py_float entity_id default :
  reader (App.safe_float py_float entity_id default).
Proof.
  unfold App.safe_float, App.float_of_val. eauto 20 with reader_db.
Qed.

Lemma app_reader_safe_bool entity_id : reader (App.safe_bool entity_id).
Proof. unfold App.safe_bool. eauto 20 with reader_db. Qed.

#[local] Hint Resolve app_reader_safe_float app_reader_safe_bool : reader_db.

Lemma app_reader_read_system_state py_float CONFIG :
  reader (App.read_system_state py_float CONFIG).
Proof.
  unfold App.read_system_state, App.now_hour. cbv zeta.
  eauto 200 with reader_db.
Qed.

Lemma reader_write_log (e : log_entry) :
  is_gate_outcome e = false -> (forall a r, e <> LogDecision a r) -> reader (write_log e).
Proof. intros Hgate Hdec w. split; [by apply quiet_write_log | discriminate]. Qed.

Lemma integration_reader_get_system_state py_float cfg :
  reader (Integration._get_system_state py_float cfg).
Proof.
  unfold Integration._get_system_state.
  apply reader_try_except.
  - apply reader_bind; [apply integration_reader_read_system_state | intros; apply reader_ret].
  - intros e. apply reader_bind; [by apply reader_write_log | intros; apply reader_ret].
Qed.

Lemma app_reader_get_system_state py_float CONFIG :
  reader (App.get_system_state py_float CONFIG).
Proof.
  unfold App.get_system_state.
  apply reader_try_except.
  - apply reader_bind; [apply app_reader_read_system_state | intros; apply reader_ret].
  - intros e. apply reader_bind; [by apply reader_write_log | intros; apply reader_ret].
Qed.

(** The [except Exception] of the normalizer turns whatever the reading
    raises into [None], after one line in the log. *)
Lemma integration_read_failure py_float cfg w e w1 :
  Integration.read_system_state py_float cfg w = (Raise e, w1) ->
  Integration._get_system_state py_float cfg w
  = (Ret None, snd (write_log (LogStateError e) w1)).
Proof.
  intros Hread.
  pose proof (proj2 (integration_reader_read_system_state py_float cfg w) e) as Hexc.
  unfold Integration._get_system_state, try_except.
  rewrite (bind_raises _ _ _ _ _ Hread).
  rewrite Hread in Hexc. by rewrite Hexc.
Qed.

Lemma app_read_failure py_float CONFIG w e w1 :
  App.read_system_state py_float CONFIG w = (Raise e, w1) ->
  App.get_system_state py_float CONFIG w
  = (Ret None, snd (write_log (LogStateError e) w1)).
Proof.
  intros Hread.
  pose proof (proj2 (app_reader_read_system_state py_float CONFIG w) e) as Hexc.
  unfold App.get_system_state, try_except.
  rewrite (bind_raises _ _ _ _ _ Hread).
  rewrite Hread in Hexc. by rewrite Hexc.
Qed.

(** C6: when reading the state raises, the normalizer returns [None]
    instead of raising; and a run whose normalizer returns [None] stops
    there: the integration raises UpdateFailed to the coordinator, the app
    logs a warning and returns, and in both no decision is logged, the gate
    is not consulted, nothing is sent and the throttle map is untouched. *)
Theorem read_failure_skips_the_run py_float fmt py_str cfg CONFIG w :
  (forall e w1,
     Integration.read_system_state py_float cfg w = (Raise e, w1) ->
     fst (Integration._get_system_state py_float cfg w) = Ret None) /\
  (forall e w1,
     App.read_system_state py_float CONFIG w = (Raise e, w1) ->
     fst (App.get_system_state py_float CONFIG w) = Ret None) /\
  (fst (Integration._get_system_state py_float cfg (started w)) = Ret None ->
   fst (Integration._async_update_data py_float fmt py_str cfg w) = Raise update_failed /\
   quiet w (snd (Integration._async_update_data py_float fmt py_str cfg w))) /\
  (fst (App.get_system_state py_float CONFIG (started w)) = Ret None ->
   fst (App.run_energy_manager py_float fmt py_str CONFIG w) = Ret tt /\
   quiet w (snd (App.run_energy_manager py_float fmt py_str CONFIG w))).
Proof.
  assert (Hstart : quiet w (started w)) by (by apply quiet_write_log).
  split; [|split; [|split]].
  - intros e w1 Hread. by rewrite (integration_read_failure _ _ _ _ _ Hread).
  - intros e w1 Hread. by rewrite (app_read_failure _ _ _ _ _ Hread).
  - intros Hnone.
    pose proof (proj1 (integration_reader_get_system_state py_float cfg (started w))) as Hq.
    unfold Integration._async_update_data.
    rewrite (bind_returns _ _ w (started w) tt) by reflexivity.
    destruct (Integration._get_system_state py_float cfg (started w)) as [r w2] eqn:Hget.
    cbn in Hnone, Hq. subst r.
    rewrite (bind_returns _ _ _ _ _ Hget). cbn.
    split; [reflexivity | by eapply quiet_trans].
  - intros Hnone.
    pose proof (proj1 (app_reader_get_system_state py_float CONFIG (started w))) as Hq.
    unfold App.run_energy_manager.
    rewrite (bind_returns _ _ w (started w) tt) by reflexivity.
    destruct (App.get_system_state py_float CONFIG (started w)) as [r w2] eqn:Hget.
    cbn in Hnone, Hq. subst r.
    rewrite (bind_returns _ _ _ _ _ Hget). cbn [fst snd].
    split; [reflexivity|].
    eapply quiet_trans; [exact Hstart|]. eapply quiet_trans; [exact Hq|].
    by apply quiet_write_log.
Qed.

(** A configuration without entity mapping: reading the state raises
    KeyError at the first sensor, the normalizer returns [None], and the run
    is skipped. *)
Lemma read_failure_skips_the_run_witness :
  (fst (Integration._get_system_state no_float cfg_without_entities initial_world) = Ret None
   /\ fst (App.get_system_state no_float CONFIG_without_entities initial_world) = Ret None)
  /\ (fst (Integration._async_update_data no_float no_fmt no_str cfg_without_entities
             initial_world) = Raise update_failed
      /\ quiet initial_world
           (snd (Integration._async_update_data no_float no_fmt no_str cfg_without_entities
                   initial_world)))
  /\ (fst (App.run_energy_manager no_float no_fmt no_str CONFIG_without_entities
             initial_world) = Ret tt
      /\ quiet initial_world
           (snd (App.run_energy_manager no_float no_fmt no_str CONFIG_without_entities
                   initial_world))).
Proof.
  pose proof (read_failure_skips_the_run no_float no_fmt no_str cfg_without_entities
                CONFIG_without_entities initial_world) as (Hi & Ha & Hri & Hra).
  split; [split|split].
  - apply (Hi (Exn KeyError "pv_power") initial_world). reflexivity.
  - apply (Ha (Exn KeyError "pv_power") initial_world). reflexivity.
  - apply Hri. reflexivity.
  - apply Hra. reflexivity.
Defined.


(* ===================================================================== *)
(** * Price-change events *)
(* ===================================================================== *)

(** The integration queues a run exactly when the state string changed,
    both strings are numbers, the old one is a known price, and the
    absolute difference exceeds 0.02; whatever the old price is. *)
Lemma integration_price_change_triggers_iff py_float new_state old_state w :
  refresh_tasks (snd (Integration._on_price_change py_float new_state old_state w))
  = S (refresh_tasks w)
  <-> exists new_val old_val x y,
        new_state = Some new_val /\ old_state = Some old_val /\ new_val <> old_val /\
        str_in old_val ["unavailable"; "unknown"] = false /\
        py_float new_val = Some x /\ py_float old_val = Some y /\
        (0.02 <? abs (x - y))%float = true.
Proof.
  unfold Integration._on_price_change.
  destruct new_state as [new_val|]; cbn -[str_in];
    [|split; [lia | by intros (? & ? & ? & ? & [=] & _)]].
  case_bool_decide as Hsame; cbn -[str_in].
  { split; [lia|]. intros (nv & ov & x & y & [= <-] & -> & Hne & _). congruence. }
  unfold try_except, bind, Integration.float_of_str.
  destruct (py_float new_val) as [x|] eqn:Hnew; cbn -[str_in];
    [|split; [lia | intros (nv & ? & ? & ? & [= <-] & _ & _ & _ & Hx & _); congruence]].
  destruct old_state as [old_val|]; cbn -[str_in];
    [|split; [lia | by intros (? & ? & ? & ? & _ & [=] & _)]].
  destruct (str_in old_val ["unavailable"; "unknown"]) eqn:Hknown; cbn -[str_in];
    [split; [lia | intros (? & ov & ? & ? & _ & [= <-] & _ & Hk & _); congruence]|].
  destruct (py_float old_val) as [y|] eqn:Hold; cbn -[str_in];
    [|split; [lia | intros (? & ov & ? & ? & _ & [= <-] & _ & _ & _ & Hy & _); congruence]].
  destruct (0.02 <? abs (x - y))%float eqn:Hdelta; cbn -[str_in].
  - split; [|done]. intros _. exists new_val, old_val, x, y.
    repeat split; try done. congruence.
  - split; [lia|].
    intros (nv & ov & x' & y' & [= <-] & [= <-] & _ & _ & Hx & Hy & Hd). congruence.
Qed.

(** C9, the app's handler: it tests [old_price] for truth where the
    integration's compares it with [None], so a change away from a price of
    0.0 starts no run, whatever the difference is.  (The integration's
    handler does what the claim says: [integration_price_change_triggers_iff].) *)
Theorem app_skips_change_from_zero_price py_float fmt py_str CONFIG old_val new_val x y w :
  py_float new_val = Some x -> py_float old_val = Some y ->
  float_truthy y = false ->
  App.on_price_change py_float fmt py_str CONFIG (Some old_val) (Some new_val) w = (Ret tt, w).
Proof.
  intros Hnew Hold Hzero. unfold App.on_price_change.
  case_bool_decide; [done|].
  unfold try_except, bind, App.float_of_val. rewrite Hnew. cbn -[str_in].
  destruct (str_in old_val ["unavailable"]); cbn -[str_in]; [done|].
  rewrite Hold. cbn -[str_in]. by rewrite Hzero.
Qed.

(** From 0.0 to 5.0: the difference of 5 exceeds the app's threshold of 2.0
    and the integration's of 0.02; the app does nothing, the integration
    queues a run; from 1.0 to 5.0 the app does run. *)
Lemma app_skips_change_from_zero_price_witness :
  (2.0 <? abs (5 - 0))%float = true
  /\ App.on_price_change price_table no_fmt no_str App.SHIPPED_CONFIG
       (Some "0.0") (Some "5.0") initial_world = (Ret tt, initial_world)
  /\ refresh_tasks (snd (Integration._on_price_change price_table
                           (Some "5.0") (Some "0.0") initial_world)) = 1%nat
  /\ log (snd (App.on_price_change price_table no_fmt no_str App.SHIPPED_CONFIG
                 (Some "1.0") (Some "5.0") initial_world)) !! 1%nat = Some LogRunStart.
Proof.
  split; [reflexivity | split; [|split]].
  - apply (app_skips_change_from_zero_price price_table no_fmt no_str App.SHIPPED_CONFIG
             "0.0" "5.0" 5%float 0%float initial_world); reflexivity.
  - vm_compute. reflexivity.
  - vm_compute. reflexivity.
Defined.


(* ===================================================================== *)
(** * More on the rule evaluator *)
(* ===================================================================== *)

Lemma integration_fired_rules_eq fmt py_str cfg s :
  Integration._make_decisions fmt py_str cfg s = integration_fired_rules fmt py_str cfg s.
Proof.
  unfold Integration._make_decisions, Integration.appended_decisions, integration_fired_rules.
  destruct (Integration.car_charge_pv_fires cfg s),
           (Integration.battery_charge_pv_fires cfg s),
           (Integration.battery_charge_grid_fires cfg s),
           (Integration.car_charge_cheap_fires cfg s),
           (Integration.car_charge_emergency_fires cfg s),
           (Integration.stop_grid_consumption_fires cfg s);
    reflexivity.
Qed.

Lemma app_fired_rules_eq fmt py_str CONFIG s :
  App.make_decisions fmt py_str CONFIG s = app_fired_rules fmt py_str CONFIG s.
Proof.
  unfold App.make_decisions, App.appended_decisions, app_fired_rules.
  destruct (App.car_charge_pv_fires CONFIG s),
           (App.battery_charge_pv_fires CONFIG s),
           (App.battery_charge_grid_fires CONFIG s),
           (App.car_charge_cheap_fires CONFIG s),
           (App.car_charge_emergency_fires CONFIG s),
           (App.stop_grid_consumption_fires CONFIG s);
    reflexivity.
Qed.

(** The list [_make_decisions] / [make_decisions] returns is exactly the
    decisions of the rules whose condition holds, each once, in the order
    of the rule table, although the source appends the emergency decision
    fifth and sorts afterwards. *)
Theorem decisions_are_the_fired_rules_in_table_order :
  (forall fmt py_str cfg s,
     Integration._make_decisions fmt py_str cfg s = integration_fired_rules fmt py_str cfg s) /\
  (forall fmt py_str CONFIG s,
     App.make_decisions fmt py_str CONFIG s = app_fired_rules fmt py_str CONFIG s).
Proof.
  split; intros; [apply integration_fired_rules_eq | apply app_fired_rules_eq].
Qed.

(** The comparison of binary64 numbers is antisymmetric and transitive. *)
Lemma SFcompare_antisym (x y : spec_float) :
  SFcompare y x = option_map CompOpp (SFcompare x y).
Proof.
  destruct x as [sx|sx| |sx mx ex], y as [sy|sy| |sy my ey]; cbn;
    try destruct sx; try destruct sy; cbn; try reflexivity.
  all: rewrite (Z.compare_antisym ex ey);
       change (Pos.compare_cont Eq my mx) with (my ?= mx)%positive;
       change (Pos.compare_cont Eq mx my) with (mx ?= my)%positive;
       rewrite (Pos.compare_antisym mx my);
       destruct (ex ?= ey)%Z; cbn; try reflexivity;
       destruct (mx ?= my)%positive; reflexivity.
Qed.

Lemma SFcompare_trans (x y z : spec_float) :
  cmp_le (SFcompare x y) = true -> cmp_le (SFcompare y z) = true ->
  cmp_le (SFcompare x z) = true /\
  (cmp_lt (SFcompare x y) = true \/ cmp_lt (SFcompare y z) = true ->
   cmp_lt (SFcompare x z) = true).
Proof.
  destruct x as [sx|sx| |sx mx ex], y as [sy|sy| |sy my ey], z as [sz|sz| |sz mz ez]; cbn;
    try destruct sx; try destruct sy; try destruct sz; cbn;
    try (intros; discriminate);
    try (intros _ _; split; [reflexivity | intros [|]; (reflexivity || discriminate)]).
  all: change (Pos.compare_cont Eq mx my) with (mx ?= my)%positive;
       change (Pos.compare_cont Eq my mz) with (my ?= mz)%positive;
       change (Pos.compare_cont Eq mx mz) with (mx ?= mz)%positive;
       destruct (Z.compare_spec ex ey), (Z.compare_spec ey ez), (Z.compare_spec ex ez);
       try lia; cbn; try (intros; discriminate);
       try (intros _ _; split; [reflexivity | intros [|]; (reflexivity || discriminate)]);
       destruct (Pos.compare_spec mx my), (Pos.compare_spec my mz), (Pos.compare_spec mx mz);
       try lia; cbn; try (intros; discriminate);
       try (intros _ _; split; [reflexivity | intros [|]; (reflexivity || discriminate)]).
Qed.

Lemma float_ltb_cmp (x y : float) :
  (x <? y)%float = cmp_lt (SFcompare (Prim2SF x) (Prim2SF y)).
Proof. by rewrite FloatAxioms.ltb_spec. Qed.

Lemma float_leb_cmp (x y : float) :
  (x <=? y)%float = cmp_le (SFcompare (Prim2SF x) (Prim2SF y)).
Proof. by rewrite FloatAxioms.leb_spec. Qed.

(** Python's [x < y] excludes [y <= x]. *)
Lemma float_ltb_not_geb (x y : float) :
  (x <? y)%float = true -> (y <=? x)%float = false.
Proof.
  rewrite float_ltb_cmp, float_leb_cmp, (SFcompare_antisym (Prim2SF x) (Prim2SF y)).
  by destruct (SFcompare (Prim2SF x) (Prim2SF y)) as [[]|].
Qed.

Lemma float_ltb_leb (x y : float) : (x <? y)%float = true -> (x <=? y)%float = true.
Proof.
  rewrite float_ltb_cmp, float_leb_cmp.
  by destruct (SFcompare (Prim2SF x) (Prim2SF y)) as [[]|].
Qed.

(** [x <= y] and [y < z] give [x < z]; [x < y] and [y <= z] as well. *)
Lemma float_leb_ltb_trans (x y z : float) :
  (x <=? y)%float = true -> (y <? z)%float = true -> (x <? z)%float = true.
Proof.
  intros Hxy Hyz. pose proof (float_ltb_leb _ _ Hyz) as Hyz'.
  rewrite float_leb_cmp in Hxy, Hyz'. rewrite float_ltb_cmp in *.
  apply (SFcompare_trans _ _ _ Hxy Hyz'). by right.
Qed.

Lemma float_ltb_leb_trans (x y z : float) :
  (x <? y)%float = true -> (y <=? z)%float = true -> (x <? z)%float = true.
Proof.
  intros Hxy Hyz. pose proof (float_ltb_leb _ _ Hxy) as Hxy'.
  rewrite float_leb_cmp in Hxy', Hyz. rewrite float_ltb_cmp in *.
  apply (SFcompare_trans _ _ _ Hxy' Hyz). by left.
Qed.

Lemma integration_surplus_rule_excludes cfg s :
  Integration.car_charge_pv_fires cfg s = true ->
  Integration.battery_charge_pv_fires cfg s = false /\
  Integration.car_charge_cheap_fires cfg s = false.
Proof.
  unfold Integration.car_charge_pv_fires, Integration.battery_charge_pv_fires,
    Integration.car_charge_cheap_fires.
  intros H. apply andb_prop in H as [H Hsurplus]. apply andb_prop in H as [-> _].
  split; [apply andb_false_r|].
  destruct (Integration.pv_surplus_kw s
            <? Integration.cfg_get cfg "pv_surplus_for_car_charging")%float eqn:Hlt;
    [|apply andb_false_r].
  apply float_ltb_not_geb in Hlt. congruence.
Qed.

Lemma integration_battery_rule_excludes cfg s :
  Integration.battery_charge_pv_fires cfg s = true ->
  Integration.car_charge_pv_fires cfg s = false /\
  Integration.car_charge_cheap_fires cfg s = false /\
  Integration.car_charge_emergency_fires cfg s = false.
Proof.
  unfold Integration.car_charge_pv_fires, Integration.battery_charge_pv_fires,
    Integration.car_charge_cheap_fires, Integration.car_charge_emergency_fires.
  intros H. apply andb_prop in H as [_ H]. apply negb_true_iff in H as ->. done.
Qed.

Lemma app_surplus_rule_excludes CONFIG s :
  App.car_charge_pv_fires CONFIG s = true ->
  App.battery_charge_pv_fires CONFIG s = false /\
  App.car_charge_cheap_fires CONFIG s = false.
Proof.
  unfold App.car_charge_pv_fires, App.battery_charge_pv_fires, App.car_charge_cheap_fires.
  intros H. apply andb_prop in H as [H Hsurplus]. apply andb_prop in H as [-> _].
  split; [apply andb_false_r|].
  destruct (App.pv_surplus_kw s <? App.pv_surplus_for_car_charging CONFIG)%float eqn:Hlt;
    [|apply andb_false_r].
  apply float_ltb_not_geb in Hlt. congruence.
Qed.

Lemma app_battery_rule_excludes CONFIG s :
  App.battery_charge_pv_fires CONFIG s = true ->
  App.car_charge_pv_fires CONFIG s = false /\
  App.car_charge_cheap_fires CONFIG s = false /\
  App.car_charge_emergency_fires CONFIG s = false.
Proof.
  unfold App.car_charge_pv_fires, App.battery_charge_pv_fires,
    App.car_charge_cheap_fires, App.car_charge_emergency_fires.
  intros H. apply andb_prop in H as [_ H]. apply negb_true_iff in H as ->. done.
Qed.

(** Whatever the state and the configuration: car_charge_pv never comes
    with car_charge_cheap (the surplus is either at the threshold or below
    it), battery_charge_pv never comes with any vehicle decision (it needs
    the vehicle disconnected), no action occurs twice, and so at most four
    decisions are returned. *)
Theorem surplus_rules_exclude_each_other :
  (forall fmt py_str cfg s,
     let acts := actions (Integration._make_decisions fmt py_str cfg s) in
     ~ ("car_charge_pv" ∈ acts /\ "car_charge_cheap" ∈ acts) /\
     ~ ("battery_charge_pv" ∈ acts /\
        ("car_charge_pv" ∈ acts \/ "car_charge_cheap" ∈ acts
         \/ "car_charge_emergency" ∈ acts)) /\
     NoDup acts /\ (length acts <= 4)%nat) /\
  (forall fmt py_str CONFIG s,
     let acts := actions (App.make_decisions fmt py_str CONFIG s) in
     ~ ("car_charge_pv" ∈ acts /\ "car_charge_cheap" ∈ acts) /\
     ~ ("battery_charge_pv" ∈ acts /\
        ("car_charge_pv" ∈ acts \/ "car_charge_cheap" ∈ acts
         \/ "car_charge_emergency" ∈ acts)) /\
     NoDup acts /\ (length acts <= 4)%nat).
Proof.
  split; intros fmt py_str c s acts; subst acts.
  - rewrite integration_fired_rules_eq.
    pose proof (integration_surplus_rule_excludes c s) as Hpv.
    pose proof (integration_battery_rule_excludes c s) as Hbat.
    unfold integration_fired_rules, actions.
    destruct (Integration.car_charge_pv_fires c s),
             (Integration.battery_charge_pv_fires c s),
             (Integration.battery_charge_grid_fires c s),
             (Integration.car_charge_cheap_fires c s),
             (Integration.car_charge_emergency_fires c s),
             (Integration.stop_grid_consumption_fires c s);
      try (destruct (Hpv eq_refl); discriminate);
      try (destruct (Hbat eq_refl) as (? & ? & ?); discriminate);
      clear Hpv Hbat; apply (bool_decide_unpack _); vm_compute; exact I.
  - rewrite app_fired_rules_eq.
    pose proof (app_surplus_rule_excludes c s) as Hpv.
    pose proof (app_battery_rule_excludes c s) as Hbat.
    unfold app_fired_rules, actions.
    destruct (App.car_charge_pv_fires c s),
             (App.battery_charge_pv_fires c s),
             (App.battery_charge_grid_fires c s),
             (App.car_charge_cheap_fires c s),
             (App.car_charge_emergency_fires c s),
             (App.stop_grid_consumption_fires c s);
      try (destruct (Hpv eq_refl); discriminate);
      try (destruct (Hbat eq_refl) as (? & ? & ?); discriminate);
      clear Hpv Hbat; apply (bool_decide_unpack _); vm_compute; exact I.
Qed.

Lemma integration_stop_rule_excludes cfg s :
  (Integration.cfg_get cfg "price_very_cheap_threshold"
   <? Integration.cfg_get cfg "price_cheap_threshold")%float = true ->
  (Integration.cfg_get cfg "price_cheap_threshold"
   <? Integration.cfg_get cfg "price_expensive_threshold")%float = true ->
  Integration.stop_grid_consumption_fires cfg s = true ->
  Integration.battery_charge_grid_fires cfg s = false /\
  Integration.car_charge_cheap_fires cfg s = false.
Proof.
  unfold Integration.stop_grid_consumption_fires, Integration.battery_charge_grid_fires,
    Integration.car_charge_cheap_fires.
  intros Hvc Hce Hstop. apply andb_prop in Hstop as [Hexp _].
  assert (Hcheap : (Integration.current_price_eur s
                    <=? Integration.cfg_get cfg "price_cheap_threshold")%float = false).
  { destruct (Integration.current_price_eur s
              <=? Integration.cfg_get cfg "price_cheap_threshold")%float eqn:Hle; [|done].
    pose proof (float_leb_ltb_trans _ _ _ Hle Hce) as Hlt.
    apply float_ltb_not_geb in Hlt. congruence. }
  assert (Hvery : (Integration.current_price_eur s
                   <=? Integration.cfg_get cfg "price_very_cheap_threshold")%float = false).
  { destruct (Integration.current_price_eur s
              <=? Integration.cfg_get cfg "price_very_cheap_threshold")%float eqn:Hle; [|done].
    pose proof (float_ltb_leb _ _ (float_leb_ltb_trans _ _ _ Hle Hvc)) as Hle'. congruence. }
  rewrite Hcheap, Hvery. split; [done|].
  by rewrite !andb_false_r.
Qed.

Lemma app_stop_rule_excludes CONFIG s :
  (App.price_very_cheap_threshold CONFIG <? App.price_cheap_threshold CONFIG)%float = true ->
  (App.price_cheap_threshold CONFIG <? App.price_expensive_threshold CONFIG)%float = true ->
  App.stop_grid_consumption_fires CONFIG s = true ->
  App.battery_charge_grid_fires CONFIG s = false /\
  App.car_charge_cheap_fires CONFIG s = false.
Proof.
  unfold App.stop_grid_consumption_fires, App.battery_charge_grid_fires,
    App.car_charge_cheap_fires.
  intros Hvc Hce Hstop. apply andb_prop in Hstop as [Hexp _].
  assert (Hcheap : (App.current_price_ct s <=? App.price_cheap_threshold CONFIG)%float = false).
  { destruct (App.current_price_ct s <=? App.price_cheap_threshold CONFIG)%float eqn:Hle;
      [|done].
    pose proof (float_leb_ltb_trans _ _ _ Hle Hce) as Hlt.
    apply float_ltb_not_geb in Hlt. congruence. }
  assert (Hvery : (App.current_price_ct s
                   <=? App.price_very_cheap_threshold CONFIG)%float = false).
  { destruct (App.current_price_ct s <=? App.price_very_cheap_threshold CONFIG)%float eqn:Hle;
      [|done].
    pose proof (float_ltb_leb _ _ (float_leb_ltb_trans _ _ _ Hle Hvc)) as Hle'. congruence. }
  rewrite Hcheap, Hvery. split; [done|].
  by rewrite !andb_false_r.
Qed.

(** With price thresholds in their order (very cheap < cheap < expensive)
    stop_grid_consumption never comes with battery_charge_grid or with
    car_charge_cheap: the evaluator does not recommend drawing from the
    grid and avoiding it in one run. *)
Theorem ordered_thresholds_keep_stop_apart :
  (forall fmt py_str cfg s,
     (Integration.cfg_get cfg "price_very_cheap_threshold"
      <? Integration.cfg_get cfg "price_cheap_threshold")%float = true ->
     (Integration.cfg_get cfg "price_cheap_threshold"
      <? Integration.cfg_get cfg "price_expensive_threshold")%float = true ->
     let acts := actions (Integration._make_decisions fmt py_str cfg s) in
     ~ ("stop_grid_consumption" ∈ acts /\
        ("battery_charge_grid" ∈ acts \/ "car_charge_cheap" ∈ acts))) /\
  (forall fmt py_str CONFIG s,
     (App.price_very_cheap_threshold CONFIG <? App.price_cheap_threshold CONFIG)%float = true ->
     (App.price_cheap_threshold CONFIG <? App.price_expensive_threshold CONFIG)%float = true ->
     let acts := actions (App.make_decisions fmt py_str CONFIG s) in
     ~ ("stop_grid_consumption" ∈ acts /\
        ("battery_charge_grid" ∈ acts \/ "car_charge_cheap" ∈ acts))).
Proof.
  split; intros fmt py_str c s Hvc Hce acts; subst acts.
  - rewrite integration_fired_rules_eq.
    pose proof (integration_stop_rule_excludes c s Hvc Hce) as Hstop.
    unfold integration_fired_rules, actions.
    destruct (Integration.car_charge_pv_fires c s),
             (Integration.battery_charge_pv_fires c s),
             (Integration.battery_charge_grid_fires c s),
             (Integration.car_charge_cheap_fires c s),
             (Integration.car_charge_emergency_fires c s),
             (Integration.stop_grid_consumption_fires c s);
      try (destruct (Hstop eq_refl); discriminate);
      clear Hstop; apply (bool_decide_unpack _); vm_compute; exact I.
  - rewrite app_fired_rules_eq.
    pose proof (app_stop_rule_excludes c s Hvc Hce) as Hstop.
    unfold app_fired_rules, actions.
    destruct (App.car_charge_pv_fires c s),
             (App.battery_charge_pv_fires c s),
             (App.battery_charge_grid_fires c s),
             (App.car_charge_cheap_fires c s),
             (App.car_charge_emergency_fires c s),
             (App.stop_grid_consumption_fires c s);
      try (destruct (Hstop eq_refl); discriminate);
      clear Hstop; apply (bool_decide_unpack _); vm_compute; exact I.
Qed.

(** The scenario's thresholds 0.08 < 0.15 < 0.30 and the app's shipped
    8 < 15 < 30 are in order. *)
Lemma ordered_thresholds_keep_stop_apart_witness :
  ~ ("stop_grid_consumption"
       ∈ actions (Integration._make_decisions no_fmt no_str scenario_cfg very_cheap_state) /\
     ("battery_charge_grid"
        ∈ actions (Integration._make_decisions no_fmt no_str scenario_cfg very_cheap_state)
      \/ "car_charge_cheap"
           ∈ actions (Integration._make_decisions no_fmt no_str scenario_cfg very_cheap_state)))
  /\ ~ ("stop_grid_consumption"
          ∈ actions (App.make_decisions no_fmt no_str App.SHIPPED_CONFIG app_low_soc_state) /\
        ("battery_charge_grid"
           ∈ actions (App.make_decisions no_fmt no_str App.SHIPPED_CONFIG app_low_soc_state)
         \/ "car_charge_cheap"
              ∈ actions (App.make_decisions no_fmt no_str App.SHIPPED_CONFIG
                           app_low_soc_state))).
Proof.
  split.
  - apply (proj1 ordered_thresholds_keep_stop_apart no_fmt no_str scenario_cfg very_cheap_state);
      vm_compute; reflexivity.
  - apply (proj2 ordered_thresholds_keep_stop_apart no_fmt no_str App.SHIPPED_CONFIG
             app_low_soc_state); vm_compute; reflexivity.
Defined.

(** With the expensive threshold below the very-cheap one the order is
    needed: at a price of 0.05 all three price rules fire, and with the
    emergency rule the list reaches its maximum of four. *)
Example swapped_thresholds_contradict :
  summary (Integration._make_decisions no_fmt no_str swapped_thresholds_cfg very_cheap_state)
  = [("car_charge_emergency", 0); ("battery_charge_grid", 2); ("car_charge_cheap", 2);
     ("stop_grid_consumption", 2)].
Proof. vm_compute. reflexivity. Qed.

(** Every decision the evaluator returns asks for a notification (its
    notify flag is set and its detail message is not empty), except
    battery_charge_pv, which never does. *)
Theorem only_battery_charge_pv_is_silent :
  (forall fmt py_str cfg s,
     Forall (fun d => asks_for_notification d
                      = negb (String.eqb (action d) "battery_charge_pv"))
       (Integration._make_decisions fmt py_str cfg s)) /\
  (forall fmt py_str CONFIG s,
     Forall (fun d => asks_for_notification d
                      = negb (String.eqb (action d) "battery_charge_pv"))
       (App.make_decisions fmt py_str CONFIG s)).
Proof.
  split; intros fmt py_str c s.
  - rewrite integration_fired_rules_eq.
    unfold integration_fired_rules.
    destruct (Integration.car_charge_pv_fires c s),
             (Integration.battery_charge_pv_fires c s),
             (Integration.battery_charge_grid_fires c s),
             (Integration.car_charge_cheap_fires c s),
             (Integration.car_charge_emergency_fires c s),
             (Integration.stop_grid_consumption_fires c s);
      cbn [when_fires app]; repeat (apply Forall_cons_2; [reflexivity|]); apply Forall_nil_2.
  - rewrite app_fired_rules_eq.
    unfold app_fired_rules.
    destruct (App.car_charge_pv_fires c s),
             (App.battery_charge_pv_fires c s),
             (App.battery_charge_grid_fires c s),
             (App.car_charge_cheap_fires c s),
             (App.car_charge_emergency_fires c s),
             (App.stop_grid_consumption_fires c s);
      cbn [when_fires app]; repeat (apply Forall_cons_2; [reflexivity|]); apply Forall_nil_2.
Qed.


(* ===================================================================== *)
(** * The three copies of the rule set *)
(* ===================================================================== *)

(** The app and the integration decide alike: on configurations that hold
    the same numbers and states that hold the same readings they return the
    same actions with the same priorities, reasons and notify flags, in the
    same order (the detail messages differ in their wording). *)
Theorem app_and_integration_decide_alike fmt py_str cfg CONFIG s sA :
  same_settings cfg CONFIG -> same_readings s sA ->
  outline (App.make_decisions fmt py_str CONFIG sA)
  = outline (Integration._make_decisions fmt py_str cfg s).
Proof.
  intros (Hmax & Hres & Hmin & Htarget & Hpeak & Hcheap & Hvery & Hexp & Hcar & Hbat)
         (Hpv & Hsurplus & Hsoc & Hcarsoc & Hconn & Hprice).
  rewrite app_fired_rules_eq, integration_fired_rules_eq.
  unfold app_fired_rules, integration_fired_rules.
  replace (App.car_charge_emergency_fires CONFIG sA)
    with (Integration.car_charge_emergency_fires cfg s)
    by (unfold App.car_charge_emergency_fires, Integration.car_charge_emergency_fires;
        congruence).
  replace (App.car_charge_pv_fires CONFIG sA) with (Integration.car_charge_pv_fires cfg s)
    by (unfold App.car_charge_pv_fires, Integration.car_charge_pv_fires; congruence).
  replace (App.battery_charge_pv_fires CONFIG sA)
    with (Integration.battery_charge_pv_fires cfg s)
    by (unfold App.battery_charge_pv_fires, Integration.battery_charge_pv_fires; congruence).
  replace (App.battery_charge_grid_fires CONFIG sA)
    with (Integration.battery_charge_grid_fires cfg s)
    by (unfold App.battery_charge_grid_fires, Integration.battery_charge_grid_fires,
          App._is_pv_producing_well, Integration._is_pv_producing_well; congruence).
  replace (App.car_charge_cheap_fires CONFIG sA)
    with (Integration.car_charge_cheap_fires cfg s)
    by (unfold App.car_charge_cheap_fires, Integration.car_charge_cheap_fires; congruence).
  replace (App.stop_grid_consumption_fires CONFIG sA)
    with (Integration.stop_grid_consumption_fires cfg s)
    by (unfold App.stop_grid_consumption_fires, Integration.stop_grid_consumption_fires;
        congruence).
  destruct (Integration.car_charge_pv_fires cfg s),
           (Integration.battery_charge_pv_fires cfg s),
           (Integration.battery_charge_grid_fires cfg s),
           (Integration.car_charge_cheap_fires cfg s),
           (Integration.car_charge_emergency_fires cfg s),
           (Integration.stop_grid_consumption_fires cfg s);
    reflexivity.
Qed.

(** The numbers of [DEFAULT_CONFIG] are those of the app's [CONFIG] as
    shipped: on the vehicle at 15 % and 12.5 ct both return the emergency
    decision and car_charge_cheap. *)
Lemma app_and_integration_decide_alike_witness :
  outline (App.make_decisions no_fmt no_str App.SHIPPED_CONFIG app_low_soc_state)
  = outline (Integration._make_decisions no_fmt no_str cfg_without_entities
               low_soc_state_in_cent).
Proof.
  apply (app_and_integration_decide_alike no_fmt no_str cfg_without_entities
           App.SHIPPED_CONFIG low_soc_state_in_cent app_low_soc_state).
  - repeat split; vm_compute; reflexivity.
  - repeat split; reflexivity.
Defined.

(** The test script's copies are what its comments say, taken 1:1 from the
    integration: its classifier returns the integration's level, and its
    rule set returns the integration's actions, priorities and reasons in
    the integration's order. *)
Theorem test_script_decides_like_the_integration fmt py_str cfg s (price : float) :
  TestLogic.compute_price_level price cfg = Integration._compute_price_level cfg price /\
  outline3 (TestLogic.make_decisions (test_view s) cfg)
  = outline3 (Integration._make_decisions fmt py_str cfg s).
Proof.
  split; [reflexivity|].
  rewrite integration_fired_rules_eq.
  unfold TestLogic.make_decisions, integration_fired_rules,
    Integration.car_charge_pv_fires, Integration.battery_charge_pv_fires,
    Integration.battery_charge_grid_fires, Integration.car_charge_cheap_fires,
    Integration.car_charge_emergency_fires, Integration.stop_grid_consumption_fires,
    Integration._is_pv_producing_well.
  cbn [test_view TestLogic.car_connected TestLogic.car_soc TestLogic.pv_surplus_kw
       TestLogic.battery_soc TestLogic.pv_power_kw TestLogic.current_price_eur].
  cbv zeta.
  repeat match goal with
         | |- context [if ?c then _ else _] => destruct c
         end;
    reflexivity.
Qed.


(* ===================================================================== *)
(** * More on the state normalizer *)
(* ===================================================================== *)

Lemma integration_safe_float_value py_float entity_id default w :
  Integration._safe_float py_float entity_id default w
  = (Ret match states w !! entity_id with
         | Some val =>
             if str_in val ["unavailable"; "unknown"] then default
             else match py_float val with Some x => x | None => default end
         | None => default
         end, w).
Proof.
  unfold Integration._safe_float, Integration.float_of_str, bind, get_state, try_except.
  destruct (states w !! entity_id) as [val|]; [|reflexivity].
  destruct (str_in val ["unavailable"; "unknown"]); [reflexivity|].
  by destruct (py_float val).
Qed.

Lemma app_safe_float_value py_float entity_id default w :
  App.safe_float py_float entity_id default w
  = Integration._safe_float py_float entity_id default w.
Proof.
  rewrite integration_safe_float_value.
  unfold App.safe_float, App.float_of_val, bind, get_state, try_except.
  destruct (states w !! entity_id) as [val|]; [|reflexivity].
  destruct (str_in val ["unavailable"; "unknown"]); [reflexivity|].
  by destruct (py_float val).
Qed.

Lemma returns_ret {A} (a : A) : returns (ret a).
Proof. intros w. by eexists _, _. Qed.

Lemma returns_bind {A B} (m : M A) (k : A -> M B) :
  returns m -> (forall a, returns (k a)) -> returns (bind m k).
Proof.
  intros Hm Hk w. destruct (Hm w) as (a & w' & Hmw).
  rewrite (bind_returns _ _ _ _ _ Hmw). apply Hk.
Qed.

Lemma returns_get_state entity_id : returns (get_state entity_id).
Proof. intros w. by eexists _, _. Qed.

Lemma returns_datetime_now : returns datetime_now.
Proof. intros w. by eexists _, _. Qed.

Lemma returns_dict_item {V} (d : gmap string V) key :
  is_Some (d !! key) -> returns (dict_item d key).
Proof. intros [v Hv] w. unfold dict_item. rewrite Hv. by eexists _, _. Qed.

Lemma returns_integration_safe_float py_float entity_id default :
  returns (Integration._safe_float py_float entity_id default).
Proof. intros w. rewrite integration_safe_float_value. by eexists _, _. Qed.

Lemma returns_app_safe_float py_float entity_id default :
  returns (App.safe_float py_float entity_id default).
Proof.
  intros w. rewrite app_safe_float_value, integration_safe_float_value. by eexists _, _.
Qed.

Lemma returns_integration_safe_bool entity_id : returns (Integration._safe_bool entity_id).
Proof.
  intros w. unfold Integration._safe_bool, bind, get_state.
  destruct (states w !! entity_id); by eexists _, _.
Qed.

Lemma returns_app_safe_bool entity_id : returns (App.safe_bool entity_id).
Proof. intros w. by eexists _, _. Qed.

Lemma raises_dict_item {V} (d : gmap string V) key :
  d !! key = None -> raises (dict_item d key).
Proof. intros Hv w. unfold dict_item. rewrite Hv. by eexists _, _. Qed.

Lemma raises_bind_l {A B} (m : M A) (k : A -> M B) : raises m -> raises (bind m k).
Proof.
  intros Hm w. destruct (Hm w) as (e & w' & Hmw).
  rewrite (bind_raises _ _ _ _ _ Hmw). by eexists _, _.
Qed.

Lemma raises_bind_r {A B} (m : M A) (k : A -> M B) :
  (forall a, raises (k a)) -> raises (bind m k).
Proof.
  intros Hk w. unfold bind. destruct (m w) as [[a|e] w']; [apply Hk | by eexists _, _].
Qed.

Create HintDb returns_db.
#[local] Hint Resolve returns_ret returns_bind returns_get_state returns_datetime_now
  returns_dict_item returns_integration_safe_float returns_app_safe_float
  returns_integration_safe_bool returns_app_safe_bool : returns_db.
#[local] Hint Extern 5 (returns (if ?b then _ else _)) => destruct b : returns_db.

Create HintDb raises_db.
#[local] Hint Resolve raises_dict_item raises_bind_l raises_bind_r : raises_db.

Lemma integration_read_returns py_float cfg :
  Forall (mapped (Integration.entities cfg)) integration_required_entities ->
  returns (Integration.read_system_state py_float cfg).
Proof.
  unfold integration_required_entities, mapped. intros H.
  repeat (apply Forall_cons in H as [? H]).
  unfold Integration.read_system_state, Integration.now_hour. cbv zeta.
  eauto 200 with returns_db.
Qed.

Lemma integration_read_raises py_float cfg :
  Exists (fun key => Integration.entities cfg !! key = None) integration_required_entities ->
  raises (Integration.read_system_state py_float cfg).
Proof.
  unfold integration_required_entities. intros H.
  unfold Integration.read_system_state, Integration.now_hour. cbv zeta.
  repeat (apply Exists_cons in H as [H|H]; [eauto 200 with raises_db|]).
  by apply Exists_nil in H.
Qed.

Lemma ensures_ret {A} (P : A -> Prop) (a : A) : P a -> ensures P (ret a).
Proof. by intros HP w a' w' [= <- _]. Qed.

Lemma ensures_bind {A B} (P : B -> Prop) (m : M A) (k : A -> M B) :
  (forall a, ensures P (k a)) -> ensures P (bind m k).
Proof.
  intros Hk w b w'. unfold bind. destruct (m w) as [[a|e] w1]; [apply Hk | discriminate].
Qed.


Create HintDb ensures_db.
#[local] Hint Resolve ensures_bind : ensures_db.
#[local] Hint Extern 1 (ensures _ (ret _)) =>
  (apply ensures_ret; split; [reflexivity | eexists _, _; repeat split]) : ensures_db.
#[local] Hint Extern 5 (ensures _ (if ?b then _ else _)) => destruct b : ensures_db.

Lemma integration_read_consistent py_float cfg :
  ensures (consistent_state cfg) (Integration.read_system_state py_float cfg).
Proof.
  unfold Integration.read_system_state. cbv zeta.
  eauto 200 with ensures_db.
Qed.

Lemma integration_get_some py_float cfg w s :
  fst (Integration._get_system_state py_float cfg w) = Ret (Some s) ->
  exists w', Integration.read_system_state py_float cfg w = (Ret s, w').
Proof.
  unfold Integration._get_system_state, try_except, bind.
  destruct (Integration.read_system_state py_float cfg w) as [[s'|e] w']; cbn.
  - intros [= <-]. by eexists.
  - destruct (is_Exception e); discriminate.
Qed.


(** [_safe_float] of the integration and [safe_float] of the app never
    raise, change nothing and return the same number: [float(state)] when
    the entity has a state string other than unavailable and unknown that
    [float] accepts, and the default in every other case (no such entity,
    unavailable, unknown, not a number). *)
Theorem safe_float_falls_back_to_default py_float entity_id default w :
  exists x,
    Integration._safe_float py_float entity_id default w = (Ret x, w) /\
    App.safe_float py_float entity_id default w = (Ret x, w) /\
    (forall val y, states w !! entity_id = Some val ->
                   val ∉ ["unavailable"; "unknown"] -> py_float val = Some y -> x = y) /\
    (~ (exists val y, states w !! entity_id = Some val /\
                      (val ∉ ["unavailable"; "unknown"]) /\ py_float val = Some y) ->
     x = default).
Proof.
  eexists. split; [apply integration_safe_float_value|].
  split; [rewrite app_safe_float_value; apply integration_safe_float_value|].
  destruct (states w !! entity_id) as [val|]; [|split; [by intros ? ? [=] | done]].
  destruct (str_in val ["unavailable"; "unknown"]) eqn:Hin.
  - apply str_in_elem_of in Hin. split; [by intros ? ? [= <-] | done].
  - assert (Hnot : val ∉ ["unavailable"; "unknown"]).
    { intros Hel. apply str_in_elem_of in Hel. congruence. }
    destruct (py_float val) as [x|] eqn:Hx.
    + split; [intros ? ? [= <-] _ Hy; congruence|].
      intros Hno. destruct Hno. by exists val, x.
    + split; [intros ? ? [= <-] _ Hy; congruence | done].
Qed.

(** A price sensor at 5.0 reads 5.0; an unavailable one reads the default. *)
Lemma safe_float_falls_back_to_default_witness :
  Integration._safe_float price_table "sensor.tibber_current_price" 0%float
    (world_reading "sensor.tibber_current_price" "5.0")
  = (Ret 5%float, world_reading "sensor.tibber_current_price" "5.0")
  /\ Integration._safe_float price_table "sensor.tibber_current_price" 0%float
       (world_reading "sensor.tibber_current_price" "unavailable")
     = (Ret 0%float, world_reading "sensor.tibber_current_price" "unavailable").
Proof.
  split.
  - destruct (safe_float_falls_back_to_default price_table "sensor.tibber_current_price"
                0%float (world_reading "sensor.tibber_current_price" "5.0"))
      as (x & Hx & _ & Hval & _).
    rewrite Hx. f_equal. f_equal.
    apply (Hval "5.0"); [reflexivity | | reflexivity].
    intros Hin. repeat (apply elem_of_cons in Hin as [Hin|Hin]; [discriminate Hin|]).
    by apply elem_of_nil in Hin.
  - destruct (safe_float_falls_back_to_default price_table "sensor.tibber_current_price"
                0%float (world_reading "sensor.tibber_current_price" "unavailable"))
      as (x & Hx & _ & _ & Hdef).
    rewrite Hx. f_equal. f_equal.
    apply Hdef. intros (val & y & Hval & Hnot & _).
    vm_compute in Hval. injection Hval as <-.
    apply Hnot. constructor.
Defined.

Lemma integration_state_iff py_float cfg w :
  (exists s, fst (Integration._get_system_state py_float cfg w) = Ret (Some s))
  <-> Forall (mapped (Integration.entities cfg)) integration_required_entities.
Proof.
  split.
  - intros [s Hs].
    destruct (decide (Forall (mapped (Integration.entities cfg))
                        integration_required_entities)) as [|Hno]; [done|].
    apply (not_Forall_Exists _) in Hno.
    assert (Hex : Exists (fun key => Integration.entities cfg !! key = None)
                    integration_required_entities).
    { eapply Exists_impl; [exact Hno|]. intros key Hk.
      unfold mapped, compose in Hk. by apply eq_None_not_Some. }
    destruct (integration_read_raises py_float cfg Hex w) as (e & w' & Hraise).
    rewrite (integration_read_failure _ _ _ _ _ Hraise) in Hs. discriminate Hs.
  - intros Hall. destruct (integration_read_returns py_float cfg Hall w) as (s & w' & Hread).
    exists s. unfold Integration._get_system_state, try_except.
    by rewrite (bind_returns _ _ _ _ _ Hread).
Qed.

Lemma app_read_returns py_float CONFIG :
  Forall (mapped (App.entities CONFIG)) app_required_entities ->
  returns (App.read_system_state py_float CONFIG).
Proof.
  unfold app_required_entities, mapped. intros H.
  repeat (apply Forall_cons in H as [? H]).
  unfold App.read_system_state, App.now_hour. cbv zeta.
  eauto 200 with returns_db.
Qed.

Lemma app_read_raises py_float CONFIG :
  Exists (fun key => App.entities CONFIG !! key = None) app_required_entities ->
  raises (App.read_system_state py_float CONFIG).
Proof.
  unfold app_required_entities. intros H.
  unfold App.read_system_state, App.now_hour. cbv zeta.
  repeat (apply Exists_cons in H as [H|H]; [eauto 200 with raises_db|]).
  by apply Exists_nil in H.
Qed.

Lemma app_state_iff py_float CONFIG w :
  (exists s, fst (App.get_system_state py_float CONFIG w) = Ret (Some s))
  <-> Forall (mapped (App.entities CONFIG)) app_required_entities.
Proof.
  split.
  - intros [s Hs].
    destruct (decide (Forall (mapped (App.entities CONFIG)) app_required_entities))
      as [|Hno]; [done|].
    apply (not_Forall_Exists _) in Hno.
    assert (Hex : Exists (fun key => App.entities CONFIG !! key = None)
                    app_required_entities).
    { eapply Exists_impl; [exact Hno|]. intros key Hk.
      unfold mapped, compose in Hk. by apply eq_None_not_Some. }
    destruct (app_read_raises py_float CONFIG Hex w) as (e & w' & Hraise).
    rewrite (app_read_failure _ _ _ _ _ Hraise) in Hs. discriminate Hs.
  - intros Hall. destruct (app_read_returns py_float CONFIG Hall w) as (s & w' & Hread).
    exists s. unfold App.get_system_state, try_except.
    by rewrite (bind_returns _ _ _ _ _ Hread).
Qed.

(** The normalizer never raises: it returns a state or [None]. *)
Lemma integration_state_or_none py_float cfg w :
  (exists s, fst (Integration._get_system_state py_float cfg w) = Ret (Some s))
  \/ fst (Integration._get_system_state py_float cfg w) = Ret None.
Proof.
  destruct (Integration.read_system_state py_float cfg w) as [[s|e] w'] eqn:Hread.
  - left. exists s. unfold Integration._get_system_state, try_except.
    by rewrite (bind_returns _ _ _ _ _ Hread).
  - right. by rewrite (integration_read_failure _ _ _ _ _ Hread).
Qed.

Lemma app_state_or_none py_float CONFIG w :
  (exists s, fst (App.get_system_state py_float CONFIG w) = Ret (Some s))
  \/ fst (App.get_system_state py_float CONFIG w) = Ret None.
Proof.
  destruct (App.read_system_state py_float CONFIG w) as [[s|e] w'] eqn:Hread.
  - left. exists s. unfold App.get_system_state, try_except.
    by rewrite (bind_returns _ _ _ _ _ Hread).
  - right. by rewrite (app_read_failure _ _ _ _ _ Hread).
Qed.

(** Whether the normalizer returns a state or [None] depends on the entity
    mapping alone: it returns a state exactly when every logical sensor
    name it looks up is mapped, whatever the sensors say (missing,
    unavailable or non-numeric readings fall back to defaults), and [None]
    exactly when one is not; it never raises.  For the integration's
    eighteen names and the app's twelve. *)
Theorem state_is_read_iff_entities_are_mapped py_float cfg CONFIG w :
  ((exists s, fst (Integration._get_system_state py_float cfg w) = Ret (Some s))
   <-> Forall (mapped (Integration.entities cfg)) integration_required_entities) /\
  (fst (Integration._get_system_state py_float cfg w) = Ret None
   <-> ~ Forall (mapped (Integration.entities cfg)) integration_required_entities) /\
  ((exists s, fst (App.get_system_state py_float CONFIG w) = Ret (Some s))
   <-> Forall (mapped (App.entities CONFIG)) app_required_entities) /\
  (fst (App.get_system_state py_float CONFIG w) = Ret None
   <-> ~ Forall (mapped (App.entities CONFIG)) app_required_entities).
Proof.
  pose proof (integration_state_iff py_float cfg w) as Hi.
  pose proof (app_state_iff py_float CONFIG w) as Ha.
  split; [done|]. split; [|split; [done|]].
  - split.
    + intros Hnone Hall. apply Hi in Hall as [s Hs]. congruence.
    + intros Hno. destruct (integration_state_or_none py_float cfg w) as [Hs|]; [|done].
      by apply Hi in Hs.
  - split.
    + intros Hnone Hall. apply Ha in Hall as [s Hs]. congruence.
    + intros Hno. destruct (app_state_or_none py_float CONFIG w) as [Hs|]; [|done].
      by apply Ha in Hs.
Qed.

Lemma setup_entities_mapped user_cfg :
  Forall (mapped (Integration.entities (Integration.async_setup_cfg user_cfg)))
    integration_required_entities
  <-> Forall (mapped (Integration.entities user_cfg)) unmapped_forecast_entities.
Proof.
  unfold mapped, Integration.async_setup_cfg. cbn [Integration.entities].
  rewrite !Forall_forall. split.
  - intros H key Hkey.
    assert (Hreq : key ∈ integration_required_entities).
    { unfold unmapped_forecast_entities in Hkey.
      repeat (apply elem_of_cons in Hkey as [->|Hkey];
              [apply (bool_decide_unpack _); vm_compute; exact I|]).
      by apply elem_of_nil in Hkey. }
    apply H, lookup_union_is_Some in Hreq as [Huser|[v Hv]]; [done|].
    exfalso. unfold unmapped_forecast_entities in Hkey.
    repeat (apply elem_of_cons in Hkey as [->|Hkey]; [vm_compute in Hv; discriminate Hv|]).
    by apply elem_of_nil in Hkey.
  - intros H key Hkey. apply lookup_union_is_Some.
    unfold integration_required_entities in Hkey.
    repeat (apply elem_of_cons in Hkey as [->|Hkey];
            [first [ right; vm_compute; by eexists
                   | left; apply H; apply (bool_decide_unpack _); vm_compute; exact I ]|]).
    by apply elem_of_nil in Hkey.
Qed.

Lemma integration_run_without_state py_float fmt py_str cfg w :
  fst (Integration._get_system_state py_float cfg (started w)) = Ret None ->
  fst (Integration._async_update_data py_float fmt py_str cfg w) = Raise update_failed.
Proof.
  intros Hnone. unfold Integration._async_update_data.
  rewrite (bind_returns _ _ w (started w) tt) by reflexivity.
  destruct (Integration._get_system_state py_float cfg (started w)) as [r w2] eqn:Hget.
  cbn in Hnone. subst r. by rewrite (bind_returns _ _ _ _ _ Hget).
Qed.

(** With the configuration [async_setup] builds, the integration reads a
    state exactly when the user's entity mapping names all seven forecast
    sensors that [DEFAULT_CONFIG] leaves out; whenever one of them is
    missing, whatever the sensors say, the normalizer returns [None] and the
    run ends in UpdateFailed. *)
Theorem default_entities_lack_the_forecast_sensors py_float fmt py_str user_cfg w :
  ((exists s, fst (Integration._get_system_state py_float
                     (Integration.async_setup_cfg user_cfg) w) = Ret (Some s))
   <-> Forall (mapped (Integration.entities user_cfg)) unmapped_forecast_entities) /\
  (~ Forall (mapped (Integration.entities user_cfg)) unmapped_forecast_entities ->
   fst (Integration._async_update_data py_float fmt py_str
          (Integration.async_setup_cfg user_cfg) w) = Raise update_failed).
Proof.
  split.
  - rewrite integration_state_iff. apply setup_entities_mapped.
  - intros Hno. apply integration_run_without_state.
    destruct (integration_state_or_none py_float (Integration.async_setup_cfg user_cfg)
                (started w)) as [Hs|]; [|done].
    apply integration_state_iff, setup_entities_mapped in Hs. done.
Qed.

(** Without any user entry the run fails; with the seven forecast sensors
    mapped a state is read, even in a world without any sensor state. *)
Lemma default_entities_lack_the_forecast_sensors_witness :
  fst (Integration._async_update_data no_float no_fmt no_str
         (Integration.async_setup_cfg cfg_without_entities) initial_world)
  = Raise update_failed
  /\ exists s, fst (Integration._get_system_state no_float
                      (Integration.async_setup_cfg forecast_user_cfg) initial_world)
               = Ret (Some s).
Proof.
  split.
  - apply (proj2 (default_entities_lack_the_forecast_sensors no_float no_fmt no_str
                    cfg_without_entities initial_world)).
    intros Hall. apply Forall_cons in Hall as [[v Hv] _]. vm_compute in Hv. discriminate Hv.
  - apply (proj1 (default_entities_lack_the_forecast_sensors no_float no_fmt no_str
                    forecast_user_cfg initial_world)).
    unfold unmapped_forecast_entities.
    repeat (apply Forall_cons_2; [vm_compute; by eexists|]). apply Forall_nil_2.
Defined.

(** A state the integration's normalizer returns is consistent with its
    readings: its price level is the classification of its price, and its
    PV power, house consumption and surplus come from the same two readings
    in watts, the surplus as their difference divided by 1000. *)
Theorem read_state_is_consistent py_float cfg w s :
  fst (Integration._get_system_state py_float cfg w) = Ret (Some s) ->
  consistent_state cfg s.
Proof.
  intros Hs. apply integration_get_some in Hs as [w' Hread].
  by apply (integration_read_consistent py_float cfg w s w').
Qed.

(** The state read from the initial world. *)
Lemma read_state_is_consistent_witness :
  consistent_state (Integration.async_setup_cfg forecast_user_cfg) idle_state.
Proof.
  apply (read_state_is_consistent no_float (Integration.async_setup_cfg forecast_user_cfg)
           initial_world idle_state).
  vm_compute. reflexivity.
Defined.


(* ===================================================================== *)
(** * Runs as steps: the throttle map's keys *)
(* ===================================================================== *)

Section Steps.

Variable R : world -> world -> Prop.
Hypothesis R_refl : forall w, R w w.
Hypothesis R_trans : forall w1 w2 w3, R w1 w2 -> R w2 w3 -> R w1 w3.

Lemma steps_ret {A} (a : A) : steps R (ret a).
Proof. intros w. apply R_refl. Qed.

Lemma steps_raise {A} (e : exn) : steps R (@raise A e).
Proof. intros w. apply R_refl. Qed.

Lemma steps_bind {A B} (m : M A) (k : A -> M B) :
  steps R m -> (forall a, steps R (k a)) -> steps R (bind m k).
Proof.
  intros Hm Hk w. unfold bind. specialize (Hm w).
  destruct (m w) as [[a|e] w']; cbn in *; [|done].
  eapply R_trans; [exact Hm | apply Hk].
Qed.

Lemma steps_try_except {A} (catches : exn -> bool) (body : M A) (handler : exn -> M A) :
  steps R body -> (forall e, steps R (handler e)) -> steps R (try_except catches body handler).
Proof.
  intros Hb Hh w. unfold try_except. specialize (Hb w).
  destruct (body w) as [[a|e] w']; cbn in *; [done|].
  destruct (catches e); [|done].
  eapply R_trans; [exact Hb | apply Hh].
Qed.

Lemma steps_for_each {A} (xs : list A) (body : A -> M unit) :
  (forall x, x ∈ xs -> steps R (body x)) -> steps R (for_each xs body).
Proof.
  induction xs as [|x xs IH]; intros Hbody; cbn [for_each].
  - apply steps_ret.
  - apply steps_bind; [apply Hbody; constructor|].
    intros _. apply IH. intros y Hy. apply Hbody. by constructor.
Qed.

Lemma steps_get_state entity_id : steps R (get_state entity_id).
Proof. intros w. apply R_refl. Qed.

Lemma steps_get_last_notification action_key : steps R (get_last_notification action_key).
Proof. intros w. apply R_refl. Qed.

Lemma steps_dict_item {V} (d : gmap string V) key : steps R (dict_item d key).
Proof. unfold dict_item. destruct (d !! key); [apply steps_ret | apply steps_raise]. Qed.

End Steps.

Lemma keeps_keys_refl w : keeps_keys w w.
Proof. by intros H. Qed.

Lemma keeps_keys_trans w1 w2 w3 : keeps_keys w1 w2 -> keeps_keys w2 w3 -> keeps_keys w1 w3.
Proof. unfold keeps_keys. auto. Qed.

Lemma same_map_keeps_keys w w' :
  last_notification w' = last_notification w -> keeps_keys w w'.
Proof. unfold keeps_keys, throttle_keys_ok. by intros ->. Qed.

Lemma quiet_keeps_keys w w' : quiet w w' -> keeps_keys w w'.
Proof. intros (_ & _ & _ & H & _). by apply same_map_keeps_keys. Qed.

Lemma reader_keeps_keys {A} (m : M A) : reader m -> steps keeps_keys m.
Proof. intros Hm w. apply quiet_keeps_keys, Hm. Qed.

Lemma write_log_keeps_keys e : steps keeps_keys (write_log e).
Proof. intros w. by apply same_map_keeps_keys. Qed.

Lemma gate_outcome_keeps_keys call action_key w :
  action_key ∈ notifying_actions ->
  keeps_keys w (snd (gate_outcome call action_key w)).
Proof.
  intros Hin. unfold gate_outcome.
  destruct (in_cooldown action_key w); [by apply same_map_keeps_keys|].
  destruct (notifier w (attempts w)) as [e|];
    [destruct (is_Exception e); by apply same_map_keeps_keys|].
  unfold keeps_keys, throttle_keys_ok. cbn. intros Hok.
  rewrite dom_insert_L.
  intros x [->%elem_of_singleton|Hx]%elem_of_union; auto.
Qed.

Lemma integration_notifying_decisions fmt py_str cfg s d :
  d ∈ Integration._make_decisions fmt py_str cfg s ->
  asks_for_notification d = true -> action d ∈ notifying_actions.
Proof.
  rewrite integration_fired_rules_eq. unfold integration_fired_rules.
  destruct (Integration.car_charge_pv_fires cfg s),
           (Integration.battery_charge_pv_fires cfg s),
           (Integration.battery_charge_grid_fires cfg s),
           (Integration.car_charge_cheap_fires cfg s),
           (Integration.car_charge_emergency_fires cfg s),
           (Integration.stop_grid_consumption_fires cfg s);
    cbn [when_fires app]; intros Hin Hasks;
    repeat (apply elem_of_cons in Hin as [->|Hin];
            [first [discriminate Hasks | apply (bool_decide_unpack _); vm_compute; exact I]|]);
    by apply elem_of_nil in Hin.
Qed.

Lemma app_notifying_decisions fmt py_str CONFIG s d :
  d ∈ App.make_decisions fmt py_str CONFIG s ->
  asks_for_notification d = true -> action d ∈ notifying_actions.
Proof.
  rewrite app_fired_rules_eq. unfold app_fired_rules.
  destruct (App.car_charge_pv_fires CONFIG s),
           (App.battery_charge_pv_fires CONFIG s),
           (App.battery_charge_grid_fires CONFIG s),
           (App.car_charge_cheap_fires CONFIG s),
           (App.car_charge_emergency_fires CONFIG s),
           (App.stop_grid_consumption_fires CONFIG s);
    cbn [when_fires app]; intros Hin Hasks;
    repeat (apply elem_of_cons in Hin as [->|Hin];
            [first [discriminate Hasks | apply (bool_decide_unpack _); vm_compute; exact I]|]);
    by apply elem_of_nil in Hin.
Qed.

Section KeysLoop.

Variable gate : string -> string -> M unit.
Variable mk_call : string -> service_call.
Hypothesis gate_is : forall action_key message w,
  gate action_key message w = gate_outcome (mk_call message) action_key w.

Lemma loop_keeps_keys (decisions : list decision) :
  (forall d, d ∈ decisions -> asks_for_notification d = true ->
             action d ∈ notifying_actions) ->
  steps keeps_keys
    (for_each decisions (fun decision =>
       write_log (LogDecision (action decision) (reason decision)) ;;;
       if notify decision && details_truthy decision
       then gate (action decision) (default "" (details decision))
       else ret tt)).
Proof.
  intros Hds. apply steps_for_each; [apply keeps_keys_refl | apply keeps_keys_trans|].
  intros d Hd. apply steps_bind; [apply keeps_keys_trans | apply write_log_keeps_keys|].
  intros _. destruct (notify d && details_truthy d) eqn:Hasks.
  - intros w. rewrite gate_is. apply gate_outcome_keeps_keys. by apply Hds.
  - apply steps_ret, keeps_keys_refl.
Qed.

End KeysLoop.

Lemma integration_run_keeps_keys py_float fmt py_str cfg :
  steps keeps_keys (Integration._async_update_data py_float fmt py_str cfg).
Proof.
  unfold Integration._async_update_data.
  apply steps_bind; [apply keeps_keys_trans | apply write_log_keeps_keys|]. intros _.
  apply steps_bind; [apply keeps_keys_trans
                    | apply reader_keeps_keys, integration_reader_get_system_state|].
  intros [s|]; [|apply steps_raise, keeps_keys_refl].
  apply steps_bind; [apply keeps_keys_trans | apply write_log_keeps_keys|]. intros _.
  apply steps_bind; [apply keeps_keys_trans | | intros; apply steps_ret, keeps_keys_refl].
  unfold Integration._execute_decisions.
  destruct (Integration._make_decisions fmt py_str cfg s) as [|d ds] eqn:Hds;
    [apply write_log_keeps_keys|].
  apply (loop_keeps_keys _ _ (integration_gate_outcome cfg)).
  rewrite <- Hds. apply integration_notifying_decisions.
Qed.

Lemma set_last_decision_keeps_keys d : steps keeps_keys (set_last_decision d).
Proof. intros w. by apply same_map_keeps_keys. Qed.

Lemma datetime_now_keeps_keys : steps keeps_keys datetime_now.
Proof. intros w. by apply same_map_keeps_keys. Qed.

Lemma app_run_keeps_keys py_float fmt py_str CONFIG :
  steps keeps_keys (App.run_energy_manager py_float fmt py_str CONFIG).
Proof.
  unfold App.run_energy_manager.
  apply steps_bind; [apply keeps_keys_trans | apply write_log_keeps_keys|]. intros _.
  apply steps_bind; [apply keeps_keys_trans
                    | apply reader_keeps_keys, app_reader_get_system_state|].
  intros [s|]; [|apply write_log_keeps_keys].
  apply steps_bind; [apply keeps_keys_trans | apply write_log_keeps_keys|]. intros _.
  unfold App.execute_decisions.
  destruct (App.make_decisions fmt py_str CONFIG s) as [|d ds] eqn:Hds;
    [apply write_log_keeps_keys|].
  apply steps_bind; [apply keeps_keys_trans | |].
  - apply (loop_keeps_keys _ _ (app_gate_outcome CONFIG)).
    rewrite <- Hds. apply app_notifying_decisions.
  - intros _. apply steps_bind; [apply keeps_keys_trans | apply datetime_now_keeps_keys|].
    intros t. apply set_last_decision_keeps_keys.
Qed.

Lemma integration_price_change_keeps_keys py_float new_state old_state :
  steps keeps_keys (Integration._on_price_change py_float new_state old_state).
Proof.
  intros w. apply same_map_keeps_keys.
  unfold Integration._on_price_change.
  destruct new_state as [new_val|]; [|done].
  case_bool_decide; [done|].
  unfold try_except, bind, Integration.float_of_str.
  destruct (py_float new_val); [|done]. cbn -[str_in].
  destruct old_state as [old_val|]; [|done]. cbn -[str_in].
  destruct (str_in old_val ["unavailable"; "unknown"]); [done|].
  destruct (py_float old_val); [|done]. cbn.
  by destruct (0.02 <? abs (f - f0))%float.
Qed.

Lemma app_price_change_keeps_keys py_float fmt py_str CONFIG old new :
  steps keeps_keys (App.on_price_change py_float fmt py_str CONFIG old new).
Proof.
  unfold App.on_price_change.
  case_bool_decide; [apply steps_ret, keeps_keys_refl|].
  apply steps_try_except; [apply keeps_keys_trans | | intros; apply steps_ret, keeps_keys_refl].
  apply steps_bind; [apply keeps_keys_trans | |].
  { unfold App.float_of_val. destruct new; [destruct (py_float s)|];
      first [apply steps_ret | apply steps_raise]; apply keeps_keys_refl. }
  intros new_price.
  apply steps_bind; [apply keeps_keys_trans | |].
  { destruct (match old with Some o => str_in o ["unavailable"] | None => true end);
      [apply steps_ret, keeps_keys_refl|].
    apply steps_bind; [apply keeps_keys_trans | | intros; apply steps_ret, keeps_keys_refl].
    unfold App.float_of_val. destruct old; [destruct (py_float s)|];
      first [apply steps_ret | apply steps_raise]; apply keeps_keys_refl. }
  intros [old_price|]; [|apply steps_ret, keeps_keys_refl].
  destruct (float_truthy old_price && (2.0 <? abs (new_price - old_price))%float);
    [|apply steps_ret, keeps_keys_refl].
  apply steps_bind; [apply keeps_keys_trans | apply write_log_keeps_keys|].
  intros _. apply app_run_keeps_keys.
Qed.

Lemma throttle_keys_size w : throttle_keys_ok w -> (size (last_notification w) <= 5)%nat.
Proof.
  unfold throttle_keys_ok. intros Hsub.
  rewrite <- size_dom. apply subseteq_size in Hsub.
  etrans; [exact Hsub|]. by vm_compute.
Qed.

Lemma entry_point_keeps_keys py_float fmt py_str cfg CONFIG w w' :
  entry_point py_float fmt py_str cfg CONFIG w w' -> keeps_keys w w'.
Proof.
  intros [->|[->|[(new_state & old_state & ->)|(old & new & ->)]]].
  - apply integration_run_keeps_keys.
  - apply app_run_keeps_keys.
  - apply integration_price_change_keeps_keys.
  - apply app_price_change_keeps_keys.
Qed.

Lemma empty_throttle_map_ok w : last_notification w = ∅ -> throttle_keys_ok w.
Proof.
  intros Hempty. unfold throttle_keys_ok. rewrite Hempty, dom_empty_L.
  apply empty_subseteq.
Qed.

Lemma session_step_keeps_keys py_float fmt py_str cfg CONFIG w w' :
  session_step py_float fmt py_str cfg CONFIG w w' -> keeps_keys w w'.
Proof.
  intros [Hstep|(_ & _ & _ & Hmap & _)].
  - by apply (entry_point_keeps_keys _ _ _ _ _ _ _ Hstep).
  - by apply same_map_keeps_keys.
Qed.

(** From any world in which the keys of the throttle map are among the five
    notifying actions (at start-up the map is empty), they still are after
    whatever sequence of runs and price-change events, between which
    sensors change, time passes and the notification service answers as it
    likes; so the map never holds more than five entries. *)
Theorem throttle_map_keeps_to_notifying_actions py_float fmt py_str cfg CONFIG w0 w :
  throttle_keys_ok w0 ->
  rtc (session_step py_float fmt py_str cfg CONFIG) w0 w ->
  throttle_keys_ok w /\ (size (last_notification w) <= 5)%nat.
Proof.
  intros H0 Hrun.
  assert (Hok : throttle_keys_ok w).
  { induction Hrun as [|w1 w2 w3 Hstep _ IH]; [done|].
    apply IH. by apply (session_step_keeps_keys _ _ _ _ _ _ _ Hstep). }
  split; [done | by apply throttle_keys_size].
Qed.

Lemma host_moves_is_host_step entity_id value now w :
  host_step w (host_moves entity_id value now w).
Proof. unfold host_step. cbn. repeat split; reflexivity. Qed.

(** From the initial world: the price sensor reports and time passes, the
    app runs, the price changes and time passes, the app's handler is
    called. *)
Lemma throttle_map_keeps_to_notifying_actions_witness :
  throttle_keys_ok initial_world /\
  (size (last_notification
           (snd (App.on_price_change price_table no_fmt no_str App.SHIPPED_CONFIG
                   (Some "1.0") (Some "5.0")
                   (host_moves "sensor.tibber_current_price" "5.0" (3 * one_hour)
                      (snd (App.run_energy_manager price_table no_fmt no_str
                              App.SHIPPED_CONFIG
                              (host_moves "sensor.tibber_current_price" "1.0" one_hour
                                 initial_world)))))))
   <= 5)%nat.
Proof.
  assert (H0 : throttle_keys_ok initial_world) by (apply empty_throttle_map_ok; reflexivity).
  split; [exact H0|].
  apply (throttle_map_keeps_to_notifying_actions price_table no_fmt no_str scenario_cfg
           App.SHIPPED_CONFIG initial_world _ H0).
  eapply rtc_l; [right; apply host_moves_is_host_step|].
  eapply rtc_l; [left; right; left; reflexivity|].
  eapply rtc_l; [right; apply host_moves_is_host_step|].
  apply rtc_once. left. right. right. right.
  exists (Some "1.0"), (Some "5.0"). reflexivity.
Defined.


(* ===================================================================== *)
(** * Runs inside the cooldown, and the app's summary *)
(* ===================================================================== *)

Lemma frame_refl w : frame w w.
Proof. unfold frame. auto. Qed.

Lemma frame_trans w1 w2 w3 : frame w1 w2 -> frame w2 w3 -> frame w1 w3.
Proof.
  unfold frame. intros (-> & ? & -> & ->) (-> & ? & -> & ->). repeat split; lia.
Qed.

Lemma gate_outcome_frame call action_key w :
  frame w (snd (gate_outcome call action_key w)).
Proof.
  unfold gate_outcome, frame.
  destruct (in_cooldown action_key w); [cbn; repeat split; lia|].
  destruct (notifier w (attempts w)) as [e|]; [destruct (is_Exception e)|];
    cbn; repeat split; lia.
Qed.

Lemma write_log_frame e : steps frame (write_log e).
Proof. intros w. unfold frame. cbn. auto. Qed.

Lemma logged_decisions_app l1 l2 :
  logged_decisions (l1 ++ l2) = (logged_decisions l1 ++ logged_decisions l2)%list.
Proof. unfold logged_decisions. apply omap_app. Qed.

Section GateLoop.

Variable gate : string -> string -> M unit.
Variable mk_call : string -> service_call.
Hypothesis gate_is : forall action_key message w,
  gate action_key message w = gate_outcome (mk_call message) action_key w.

Let body (decision : decision) : M unit :=
  write_log (LogDecision (action decision) (reason decision)) ;;;
  if notify decision && details_truthy decision
  then gate (action decision) (default "" (details decision))
  else ret tt.

Lemma loop_frame (decisions : list decision) : steps frame (for_each decisions body).
Proof.
  apply steps_for_each; [apply frame_refl | apply frame_trans|].
  intros d _. apply steps_bind; [apply frame_trans | apply write_log_frame|].
  intros _. destruct (notify d && details_truthy d).
  - intros w. rewrite gate_is. apply gate_outcome_frame.
  - apply steps_ret, frame_refl.
Qed.

Lemma covered_in_cooldown decisions w0 w1 d :
  cooldown_covers decisions w0 -> later_unsent w0 w1 ->
  d ∈ decisions -> asks_for_notification d = true ->
  in_cooldown (action d) w1 = true.
Proof.
  intros Hcov (Hclock & Hticks & _ & _ & Hmap) Hd Hasks.
  destruct (Hcov d Hd Hasks) as (last & Hlast & Hrecent).
  unfold in_cooldown, now_of. rewrite Hmap, Hlast, Hclock.
  apply Z.ltb_lt, Hrecent, Hticks.
Qed.

Lemma loop_inside_cooldown (decisions : list decision) (w0 : world) :
  cooldown_covers decisions w0 ->
  forall todo w1, todo ⊆ decisions -> later_unsent w0 w1 ->
    exists w2, for_each todo body w1 = (Ret tt, w2) /\ later_unsent w0 w2 /\
               logged_decisions (log w2)
               = (logged_decisions (log w1) ++ map action todo)%list.
Proof.
  intros Hcov todo. induction todo as [|d ds IH]; intros w1 Hsub Hlater.
  - exists w1. cbn. by rewrite app_nil_r.
  - assert (Hd : d ∈ decisions) by (apply Hsub; left).
    assert (Hds : ds ⊆ decisions) by (intros x Hx; apply Hsub; by right).
    cbn [for_each]. unfold body at 1. unfold bind at 1. unfold bind at 1.
    cbn [write_log].
    set (w1' := World _ _ _ _ _ _ (log w1 ++ [LogDecision (action d) (reason d)])%list _ _ _).
    assert (Hlater' : later_unsent w0 w1') by exact Hlater.
    assert (Hlog' : logged_decisions (log w1')
                    = (logged_decisions (log w1) ++ [action d])%list).
    { unfold w1'. cbn. by rewrite logged_decisions_app. }
    destruct (notify d && details_truthy d) eqn:Hasks.
    + rewrite gate_is. unfold gate_outcome.
      rewrite (covered_in_cooldown _ _ _ _ Hcov Hlater' Hd Hasks).
      destruct (IH (after_throttle (action d) w1') Hds) as (w2 & -> & Hl2 & Hlog2).
      { destruct Hlater' as (Hc & Ht & Hs). split; [exact Hc|].
        split; [unfold w1' in *; cbn in *; lia | exact Hs]. }
      exists w2. split; [done|]. split; [done|].
      rewrite Hlog2. cbn [after_throttle log].
      rewrite logged_decisions_app, Hlog'. cbn. by rewrite app_nil_r, <- app_assoc.
    + cbn [ret].
      destruct (IH w1' Hds Hlater') as (w2 & -> & Hl2 & Hlog2).
      exists w2. split; [done|]. split; [done|].
      rewrite Hlog2, Hlog'. by rewrite <- app_assoc.
Qed.

Lemma gate_reads_the_clock_once action_key message w :
  notifier_raises_exceptions_only w ->
  exists w', gate action_key message w = (Ret tt, w') /\
             notifier w' = notifier w /\ clock w' = clock w /\
             ticks w' = S (ticks w).
Proof.
  intros Hexc. rewrite gate_is. unfold gate_outcome.
  destruct (in_cooldown action_key w);
    [|destruct (notifier w (attempts w)) as [e|] eqn:He;
      [rewrite (Hexc _ _ He)|]];
    eexists; (split; [reflexivity|]); cbn; done.
Qed.

(** The loop reads the clock once for each decision it passes to the gate,
    and not otherwise. *)
Lemma loop_reads_the_clock (decisions : list decision) (w : world) :
  notifier_raises_exceptions_only w ->
  exists w', for_each decisions body w = (Ret tt, w') /\
             clock w' = clock w /\
             ticks w' = (ticks w + length (List.filter asks_for_notification decisions))%nat.
Proof.
  revert w. induction decisions as [|d ds IH]; intros w Hexc.
  - exists w. cbn. repeat split; lia.
  - cbn [for_each]. unfold body at 1. unfold bind at 1. unfold bind at 1.
    cbn [write_log].
    set (w1 := World _ _ _ _ _ _ (log w ++ [LogDecision (action d) (reason d)])%list _ _ _).
    assert (Hexc1 : notifier_raises_exceptions_only w1) by exact Hexc.
    cbn [List.filter]. unfold asks_for_notification at 1.
    destruct (notify d && details_truthy d) eqn:Hasks.
    + destruct (gate_reads_the_clock_once (action d) (default "" (details d)) w1 Hexc1)
        as (w2 & -> & Hn2 & Hc2 & Ht2).
      destruct (IH w2) as (w' & -> & Hc' & Ht').
      { unfold notifier_raises_exceptions_only. by rewrite Hn2. }
      exists w'. split; [done|]. split; [by rewrite Hc', Hc2|].
      rewrite Ht', Ht2. cbn. lia.
    + cbn [ret]. destruct (IH w1 Hexc1) as (w' & -> & Hc' & Ht').
      exists w'. split; [done|]. split; [done|]. rewrite Ht'. cbn. lia.
Qed.

End GateLoop.

Lemma later_unsent_refl w : later_unsent w w.
Proof. unfold later_unsent, suppressed. auto. Qed.

Lemma integration_execute_inside_cooldown cfg decisions system w :
  cooldown_covers decisions w ->
  fst (Integration._execute_decisions cfg decisions system w) = Ret tt /\
  suppressed w (snd (Integration._execute_decisions cfg decisions system w)) /\
  logged_decisions (log (snd (Integration._execute_decisions cfg decisions system w)))
  = (logged_decisions (log w) ++ map action decisions)%list.
Proof.
  intros Hcov. unfold Integration._execute_decisions.
  destruct decisions as [|d ds].
  - cbn. rewrite logged_decisions_app, app_nil_r. cbn. by rewrite app_nil_r.
  - destruct (loop_inside_cooldown _ _ (integration_gate_outcome cfg) _ _ Hcov (d :: ds) w)
      as (w2 & Hloop & (_ & _ & Hs) & Hlog); [done | apply later_unsent_refl|].
    cbv zeta. rewrite Hloop. done.
Qed.

Lemma app_execute_inside_cooldown CONFIG decisions system w :
  cooldown_covers decisions w ->
  fst (App.execute_decisions CONFIG decisions system w) = Ret tt /\
  suppressed w (snd (App.execute_decisions CONFIG decisions system w)) /\
  logged_decisions (log (snd (App.execute_decisions CONFIG decisions system w)))
  = (logged_decisions (log w) ++ map action decisions)%list.
Proof.
  intros Hcov. unfold App.execute_decisions.
  destruct decisions as [|d ds].
  - cbn. rewrite logged_decisions_app, app_nil_r. cbn. by rewrite app_nil_r.
  - destruct (loop_inside_cooldown _ _ (app_gate_outcome CONFIG) _ _ Hcov (d :: ds) w)
      as (w2 & Hloop & (_ & _ & Hs) & Hlog); [done | apply later_unsent_refl|].
    cbv zeta. rewrite (bind_returns _ _ _ _ _ Hloop). cbn. done.
Qed.

(** A run all of whose notifying decisions are inside their cooldown ends
    normally, calls no service, delivers nothing and leaves the throttle map
    as it was, and every decision is still logged, in order. *)
Theorem run_inside_cooldown_sends_nothing cfg CONFIG decisions system app_system w :
  cooldown_covers decisions w ->
  (fst (Integration._execute_decisions cfg decisions system w) = Ret tt /\
   suppressed w (snd (Integration._execute_decisions cfg decisions system w)) /\
   logged_decisions (log (snd (Integration._execute_decisions cfg decisions system w)))
   = (logged_decisions (log w) ++ map action decisions)%list) /\
  (fst (App.execute_decisions CONFIG decisions app_system w) = Ret tt /\
   suppressed w (snd (App.execute_decisions CONFIG decisions app_system w)) /\
   logged_decisions (log (snd (App.execute_decisions CONFIG decisions app_system w)))
   = (logged_decisions (log w) ++ map action decisions)%list).
Proof.
  intros Hcov. split.
  - by apply integration_execute_inside_cooldown.
  - by apply app_execute_inside_cooldown.
Qed.

Lemma world_all_sent_covers decisions : cooldown_covers decisions (world_all_sent decisions).
Proof.
  intros d Hd _. cbn.
  destruct (list_to_map (map (fun d => (action d, 0)) decisions) !! action d)
    as [last|] eqn:Hlook.
  - exists last. split; [done|]. intros n _.
    apply elem_of_list_to_map_2, list_elem_of_fmap in Hlook as (d' & [= _ ->] & _).
    by vm_compute.
  - apply not_elem_of_list_to_map in Hlook. exfalso. apply Hlook.
    apply list_elem_of_fmap. exists (action d, 0). split; [done|].
    apply list_elem_of_fmap. by exists d.
Qed.

Lemma run_inside_cooldown_sends_nothing_witness :
  cooldown_covers low_soc_decisions (world_all_sent low_soc_decisions) /\
  suppressed (world_all_sent low_soc_decisions)
    (snd (Integration._execute_decisions scenario_cfg low_soc_decisions low_soc_state
            (world_all_sent low_soc_decisions))).
Proof.
  split; [apply world_all_sent_covers|].
  apply (run_inside_cooldown_sends_nothing scenario_cfg App.SHIPPED_CONFIG
           low_soc_decisions low_soc_state app_low_soc_state
           (world_all_sent low_soc_decisions)), world_all_sent_covers.
Defined.

Lemma app_loop_then_summary CONFIG d ds system w w' :
  for_each (d :: ds) (fun decision =>
    write_log (LogDecision (action decision) (reason decision)) ;;;
    if notify decision && details_truthy decision
    then App.send_smart_notification CONFIG (action decision) (default "" (details decision))
    else ret tt) w = (Ret tt, w') ->
  last_decision (snd (App.execute_decisions CONFIG (d :: ds) system w))
  = Some {| ds_time := clock w' (ticks w');
            ds_decisions := map action (d :: ds);
            ds_pv_kw := App.pv_power_kw system;
            ds_battery_soc := App.battery_soc system;
            ds_car_soc := App.car_soc system;
            ds_price_ct := App.current_price_ct system |}.
Proof.
  intros Hloop. unfold App.execute_decisions. cbv zeta.
  by rewrite (bind_returns _ _ _ _ _ Hloop).
Qed.

(** The app's executor records a summary of a run that made decisions, also
    when sends of the run failed: the decisions' actions in order, four
    readings of the state, and the time read after the loop, which is the
    clock reading that follows those of the gate, one for each decision
    that asks for a notification; a run without decisions leaves the
    summary of an earlier run in place.  The integration's executor keeps
    no summary. *)
Theorem app_records_the_last_decision cfg CONFIG decisions system app_system w :
  notifier_raises_exceptions_only w ->
  (decisions <> [] ->
   last_decision (snd (App.execute_decisions CONFIG decisions app_system w))
   = Some {| ds_time :=
               clock w (ticks w + length (List.filter asks_for_notification decisions));
             ds_decisions := map action decisions;
             ds_pv_kw := App.pv_power_kw app_system;
             ds_battery_soc := App.battery_soc app_system;
             ds_car_soc := App.car_soc app_system;
             ds_price_ct := App.current_price_ct app_system |}) /\
  last_decision (snd (App.execute_decisions CONFIG [] app_system w)) = last_decision w /\
  last_decision (snd (Integration._execute_decisions cfg decisions system w))
  = last_decision w.
Proof.
  intros Hexc. split; [|split].
  - intros Hne. destruct decisions as [|d ds]; [done|].
    destruct (loop_reads_the_clock _ _ (app_gate_outcome CONFIG) (d :: ds) w Hexc)
      as (w' & Hloop & Hclock & Hticks).
    rewrite (app_loop_then_summary _ _ _ _ _ _ Hloop).
    by rewrite Hclock, Hticks.
  - reflexivity.
  - unfold Integration._execute_decisions. destruct decisions as [|d ds]; [reflexivity|].
    apply (loop_frame _ _ (integration_gate_outcome cfg) (d :: ds) w).
Qed.

(** Two decisions that ask for a notification, the first send failing: the
    gate reads the clock at 0 h and at 1 h, the summary's time is 2 h. *)
Lemma app_records_the_last_decision_witness :
  notifier_raises_exceptions_only world_ticking /\
  low_soc_decisions <> [] /\
  last_decision (snd (App.execute_decisions App.SHIPPED_CONFIG low_soc_decisions
                        app_low_soc_state world_ticking))
  = Some {| ds_time := 2 * one_hour;
            ds_decisions := map action low_soc_decisions;
            ds_pv_kw := App.pv_power_kw app_low_soc_state;
            ds_battery_soc := App.battery_soc app_low_soc_state;
            ds_car_soc := App.car_soc app_low_soc_state;
            ds_price_ct := App.current_price_ct app_low_soc_state |}.
Proof.
  assert (Hexc : notifier_raises_exceptions_only world_ticking).
  { intros [|n] e; cbn; [intros [= <-]; reflexivity | discriminate]. }
  assert (Hne : low_soc_decisions <> []) by (vm_compute; discriminate).
  split; [exact Hexc|]. split; [exact Hne|].
  exact (proj1 (app_records_the_last_decision scenario_cfg App.SHIPPED_CONFIG
                  low_soc_decisions low_soc_state app_low_soc_state
                  world_ticking Hexc) Hne).
Defined.

Lemma quiet_started w : quiet w (started w).
Proof. apply quiet_write_log; done. Qed.

(** A run whose normalizer returns a state ends normally under a service
    that raises [Exception]s only: the integration returns that state to the
    coordinator, and in both the decisions logged by the run are the
    evaluator's decisions on that state, in the evaluator's order, the gate
    being consulted once for each of them that asks for a notification. *)
Theorem run_executes_the_decisions_on_the_state_read
    py_float fmt py_str cfg CONFIG s app_s w :
  notifier_raises_exceptions_only w ->
  (fst (Integration._get_system_state py_float cfg (started w)) = Ret (Some s) ->
   let run := Integration._async_update_data py_float fmt py_str cfg w in
   let decisions := Integration._make_decisions fmt py_str cfg s in
   fst run = Ret s /\
   logged_decisions (log (snd run)) = (logged_decisions (log w) ++ actions decisions)%list /\
   gate_consultations (log (snd run))
   = (gate_consultations (log w) + length (List.filter asks_for_notification decisions))%nat)
  /\
  (fst (App.get_system_state py_float CONFIG (started w)) = Ret (Some app_s) ->
   let run := App.run_energy_manager py_float fmt py_str CONFIG w in
   let decisions := App.make_decisions fmt py_str CONFIG app_s in
   fst run = Ret tt /\
   logged_decisions (log (snd run)) = (logged_decisions (log w) ++ actions decisions)%list /\
   gate_consultations (log (snd run))
   = (gate_consultations (log w) + length (List.filter asks_for_notification decisions))%nat).
Proof.
  intros Hexc. split; intros Hread run decisions.
  - pose proof (proj1 (integration_reader_get_system_state py_float cfg (started w)))
      as (Hn & _ & _ & _ & Hd & Hg).
    destruct (Integration._get_system_state py_float cfg (started w)) as [r w1] eqn:Hget.
    cbn [fst snd] in Hread, Hn, Hd, Hg. subst r.
    set (w2 := snd (write_log LogSystemState w1)).
    assert (Hexc2 : notifier_raises_exceptions_only w2).
    { unfold notifier_raises_exceptions_only, w2. cbn. by rewrite Hn. }
    destruct (integration_run_processes_every_decision cfg s decisions w2 Hexc2)
      as (Hret & Hdec & Hgate).
    assert (Hrun : run = (match Integration._execute_decisions cfg decisions s w2 with
                          | (Ret _, w3) => (Ret s, w3)
                          | (Raise e, w3) => (Raise e, w3)
                          end)).
    { unfold run, Integration._async_update_data.
      rewrite (bind_returns _ _ w (started w) tt eq_refl).
      rewrite (bind_returns _ _ _ _ _ Hget). reflexivity. }
    rewrite Hrun.
    destruct (Integration._execute_decisions cfg decisions s w2) as [r3 w3].
    cbn in Hret, Hdec, Hgate. subst r3. cbn [fst snd].
    split; [done|].
    rewrite Hdec, Hgate. unfold w2. cbn [write_log snd log].
    rewrite logged_decisions_app. unfold gate_consultations.
    rewrite List.filter_app, length_app. cbn.
    fold (gate_consultations (log w1)). rewrite app_nil_r, Hd, Hg.
    destruct (quiet_started w) as (_ & _ & _ & _ & Hd0 & Hg0).
    rewrite Hd0, Hg0. split; [done | unfold gate_consultations; lia].
  - pose proof (proj1 (app_reader_get_system_state py_float CONFIG (started w)))
      as (Hn & _ & _ & _ & Hd & Hg).
    destruct (App.get_system_state py_float CONFIG (started w)) as [r w1] eqn:Hget.
    cbn [fst snd] in Hread, Hn, Hd, Hg. subst r.
    set (w2 := snd (write_log LogSystemState w1)).
    assert (Hexc2 : notifier_raises_exceptions_only w2).
    { unfold notifier_raises_exceptions_only, w2. cbn. by rewrite Hn. }
    destruct (app_run_processes_every_decision CONFIG app_s decisions w2 Hexc2)
      as (Hret & Hdec & Hgate).
    assert (Hrun : run = App.execute_decisions CONFIG decisions app_s w2).
    { unfold run, App.run_energy_manager.
      rewrite (bind_returns _ _ w (started w) tt eq_refl).
      rewrite (bind_returns _ _ _ _ _ Hget). reflexivity. }
    rewrite Hrun. split; [done|].
    rewrite Hdec, Hgate. unfold w2. cbn [write_log snd log].
    rewrite logged_decisions_app. unfold gate_consultations.
    rewrite List.filter_app, length_app. cbn.
    fold (gate_consultations (log w1)). rewrite app_nil_r, Hd, Hg.
    destruct (quiet_started w) as (_ & _ & _ & _ & Hd0 & Hg0).
    rewrite Hd0, Hg0. split; [done | unfold gate_consultations; lia].
Qed.

(** The run from the initial world with the forecast sensors mapped. *)
Lemma run_executes_the_decisions_on_the_state_read_witness :
  notifier_raises_exceptions_only initial_world /\
  fst (Integration._get_system_state no_float
         (Integration.async_setup_cfg forecast_user_cfg) (started initial_world))
  = Ret (Some idle_state) /\
  fst (Integration._async_update_data no_float no_fmt no_str
         (Integration.async_setup_cfg forecast_user_cfg) initial_world)
  = Ret idle_state.
Proof.
  assert (Hexc : notifier_raises_exceptions_only initial_world).
  { intros n e. cbn. discriminate. }
  assert (Hread : fst (Integration._get_system_state no_float
                         (Integration.async_setup_cfg forecast_user_cfg)
                         (started initial_world))
                  = Ret (Some idle_state)) by (vm_compute; reflexivity).
  split; [exact Hexc|]. split; [exact Hread|].
  apply (proj1 (run_executes_the_decisions_on_the_state_read no_float no_fmt no_str
                  (Integration.async_setup_cfg forecast_user_cfg) App.SHIPPED_CONFIG
                  idle_state app_low_soc_state initial_world Hexc) Hread).
Defined.


(* ===================================================================== *)
(** * The app's price-change handler *)
(* ===================================================================== *)

Lemma grows_refl w : grows w w.
Proof. unfold grows. repeat split; done. Qed.

Lemma grows_trans w1 w2 w3 : grows w1 w2 -> grows w2 w3 -> grows w1 w3.
Proof.
  unfold grows.
  intros (-> & -> & ? & -> & ? & ? & ? & ?) (-> & -> & ? & -> & ? & ? & ? & ?).
  repeat split; try lia; by etrans.
Qed.

Lemma grows_write_log e : steps grows (write_log e).
Proof. intros w. unfold grows. cbn. repeat split; try done. by apply prefix_app_r. Qed.

Lemma grows_datetime_now : steps grows datetime_now.
Proof. intros w. unfold grows. cbn. repeat split; try done. lia. Qed.

Lemma grows_set_last_decision d : steps grows (set_last_decision d).
Proof. intros w. unfold grows. cbn. repeat split; done. Qed.

Lemma gate_outcome_grows call action_key w :
  grows w (snd (gate_outcome call action_key w)).
Proof.
  unfold gate_outcome, grows.
  destruct (in_cooldown action_key w);
    [cbn; repeat split; try done; try lia; by apply prefix_app_r|].
  destruct (notifier w (attempts w)) as [e|]; [destruct (is_Exception e)|];
    cbn; repeat split; try done; try lia; by apply prefix_app_r.
Qed.

Lemma grows_ret {A} (a : A) : steps grows (ret a).
Proof. apply steps_ret, grows_refl. Qed.

Lemma grows_raise {A} (e : exn) : steps grows (@raise A e).
Proof. apply steps_raise, grows_refl. Qed.

Lemma grows_bind {A B} (m : M A) (k : A -> M B) :
  steps grows m -> (forall a, steps grows (k a)) -> steps grows (bind m k).
Proof. apply steps_bind, grows_trans. Qed.

Lemma grows_try_except {A} (catches : exn -> bool) (body : M A) (handler : exn -> M A) :
  steps grows body -> (forall e, steps grows (handler e)) ->
  steps grows (try_except catches body handler).
Proof. apply steps_try_except, grows_trans. Qed.

Lemma grows_get_state entity_id : steps grows (get_state entity_id).
Proof. apply steps_get_state, grows_refl. Qed.

Lemma grows_dict_item {V} (d : gmap string V) key : steps grows (dict_item d key).
Proof. apply steps_dict_item, grows_refl. Qed.

Create HintDb steps_db.

#[local] Hint Resolve grows_write_log grows_datetime_now
  grows_set_last_decision
  grows_ret grows_raise grows_bind grows_try_except grows_get_state grows_dict_item
  : steps_db.
#[local] Hint Extern 5 (steps _ (if ?b then _ else _)) => destruct b : steps_db.
#[local] Hint Extern 5 (steps _ (match ?x with _ => _ end)) => destruct x : steps_db.

Lemma app_safe_float_grows py_float entity_id default :
  steps grows (App.safe_float py_float entity_id default).
Proof. unfold App.safe_float, App.float_of_val. eauto 20 with steps_db. Qed.

Lemma app_safe_bool_grows entity_id : steps grows (App.safe_bool entity_id).
Proof. unfold App.safe_bool. eauto 20 with steps_db. Qed.

#[local] Hint Resolve app_safe_float_grows app_safe_bool_grows : steps_db.

Lemma app_read_system_state_grows py_float CONFIG :
  steps grows (App.read_system_state py_float CONFIG).
Proof.
  unfold App.read_system_state, App.now_hour. cbv zeta.
  eauto 200 with steps_db.
Qed.

Lemma app_get_system_state_grows py_float CONFIG :
  steps grows (App.get_system_state py_float CONFIG).
Proof.
  unfold App.get_system_state.
  apply grows_try_except.
  - apply grows_bind; [apply app_read_system_state_grows | intros; apply grows_ret].
  - intros e. apply grows_bind; [apply grows_write_log | intros; apply grows_ret].
Qed.

Section GrowingLoop.

Variable gate : string -> string -> M unit.
Variable mk_call : string -> service_call.
Hypothesis gate_is : forall action_key message w,
  gate action_key message w = gate_outcome (mk_call message) action_key w.

Lemma loop_grows (decisions : list decision) :
  steps grows
    (for_each decisions (fun decision =>
       write_log (LogDecision (action decision) (reason decision)) ;;;
       if notify decision && details_truthy decision
       then gate (action decision) (default "" (details decision))
       else ret tt)).
Proof.
  apply steps_for_each; [apply grows_refl | apply grows_trans|].
  intros d _. apply steps_bind; [apply grows_trans | apply grows_write_log|].
  intros _. destruct (notify d && details_truthy d).
  - intros w. rewrite gate_is. apply gate_outcome_grows.
  - apply steps_ret, grows_refl.
Qed.

End GrowingLoop.

Lemma app_execute_grows CONFIG decisions system :
  steps grows (App.execute_decisions CONFIG decisions system).
Proof.
  unfold App.execute_decisions. destruct decisions as [|d ds];
    [apply grows_write_log|].
  apply steps_bind; [apply grows_trans | apply (loop_grows _ _ (app_gate_outcome CONFIG))|].
  intros _. eauto with steps_db.
Qed.

Lemma try_except_pass_world (catches : exn -> bool) (body : M unit) (w : world) :
  snd (try_except catches body (fun _ => ret tt) w) = snd (body w).
Proof.
  unfold try_except. destruct (body w) as [[a|e] w']; [done|].
  by destruct (catches e).
Qed.

Lemma app_run_after_start py_float fmt py_str CONFIG w :
  grows (started w) (snd (App.run_energy_manager py_float fmt py_str CONFIG w)).
Proof.
  unfold App.run_energy_manager.
  rewrite (bind_returns _ _ w (started w) tt eq_refl).
  revert w. generalize started. intros f w. generalize (f w). clear f w.
  change (steps grows
    (system <- App.get_system_state py_float CONFIG ;;
     match system with
     | Some system =>
         App.log_system_state system ;;;
         App.execute_decisions CONFIG (App.make_decisions fmt py_str CONFIG system) system
     | None => write_log LogReadFailure
     end)).
  apply grows_bind; [apply app_get_system_state_grows|].
  intros [s|]; [|apply grows_write_log].
  apply grows_bind; [apply grows_write_log|]. intros _. apply app_execute_grows.
Qed.

Lemma app_price_change_untriggered py_float fmt py_str CONFIG old new w :
  (forall x y, ~ app_price_trigger py_float old new x y) ->
  App.on_price_change py_float fmt py_str CONFIG old new w = (Ret tt, w).
Proof.
  intros Hno. unfold App.on_price_change.
  case_bool_decide as Hsame; [done|].
  unfold try_except, bind, App.float_of_val.
  destruct new as [new_val|]; [|done].
  destruct (py_float new_val) as [x|] eqn:Hnew; [|done]. cbn -[str_in].
  destruct old as [old_val|]; [|done].
  destruct (str_in old_val ["unavailable"]) eqn:Hun; [done|]. cbn -[str_in].
  destruct (py_float old_val) as [y|] eqn:Hold; [|done]. cbn -[str_in].
  destruct (float_truthy y && (2.0 <? abs (x - y))%float) eqn:Hsig; [|done].
  exfalso. apply (Hno x y). apply andb_true_iff in Hsig as [Ht Hd].
  exists old_val, new_val. repeat split; try done.
  - congruence.
  - intros ->. by vm_compute in Hun.
Qed.

Lemma app_price_change_triggered py_float fmt py_str CONFIG old new x y w :
  app_price_trigger py_float old new x y ->
  snd (App.on_price_change py_float fmt py_str CONFIG old new w)
  = snd (App.run_energy_manager py_float fmt py_str CONFIG
           (snd (write_log (LogPriceChange y x) w))).
Proof.
  intros (old_val & new_val & -> & -> & Hne & Hun & Hnew & Hold & Ht & Hd).
  unfold App.on_price_change.
  case_bool_decide as Hsame; [congruence|].
  rewrite try_except_pass_world.
  unfold bind at 1, App.float_of_val at 1. rewrite Hnew. cbn [ret].
  assert (Hin : str_in old_val ["unavailable"] = false).
  { apply not_true_is_false. intros Hin. apply str_in_elem_of in Hin.
    apply list_elem_of_singleton in Hin. done. }
  rewrite Hin. unfold bind at 1. unfold bind at 1. unfold App.float_of_val.
  rewrite Hold. cbn [ret]. rewrite Ht, Hd. cbn [andb].
  reflexivity.
Qed.

Lemma app_price_trigger_or_not py_float old new :
  (exists x y, app_price_trigger py_float old new x y)
  \/ (forall x y, ~ app_price_trigger py_float old new x y).
Proof.
  destruct old as [old_val|];
    [|right; by intros x y (? & ? & [=] & _)].
  destruct new as [new_val|];
    [|right; by intros x y (? & ? & _ & [=] & _)].
  destruct (decide (old_val = new_val)) as [->|Hne];
    [right; intros x y (? & ? & [= <-] & [= <-] & Hne & _); done|].
  destruct (decide (old_val = "unavailable")) as [->|Hun];
    [right; intros x y (? & ? & [= <-] & _ & _ & Hun & _); done|].
  destruct (py_float new_val) as [x|] eqn:Hnew;
    [|right; intros x y (? & ? & _ & [= <-] & _ & _ & Hx & _); congruence].
  destruct (py_float old_val) as [y|] eqn:Hold;
    [|right; intros x' y (? & ? & [= <-] & _ & _ & _ & _ & Hy & _); congruence].
  destruct (float_truthy y) eqn:Ht;
    [|right; intros x' y' (? & ? & [= <-] & [= <-] & _ & _ & Hx & Hy & Ht' & _);
      congruence].
  destruct (2.0 <? abs (x - y))%float eqn:Hd;
    [|right; intros x' y' (? & ? & [= <-] & [= <-] & _ & _ & Hx & Hy & _ & Hd');
      congruence].
  left. exists x, y, old_val, new_val. done.
Qed.

(** The app's handler logs the price change and starts a run exactly when
    both state strings are there and differ, the old one is not
    "unavailable", both are numbers, the old price is not zero and the
    prices differ by more than 2.0; the entry it logs carries the two
    prices and is followed by the first line of the run.  In every other
    case, among them a missing or non-numeric state (the [TypeError] or
    [ValueError] of [float] is swallowed), it leaves the world as it was. *)
Theorem app_price_change_runs_iff py_float fmt py_str CONFIG old new w :
  let w' := snd (App.on_price_change py_float fmt py_str CONFIG old new w) in
  (forall x y, log w' !! length (log w) = Some (LogPriceChange y x)
               <-> app_price_trigger py_float old new x y) /\
  (forall x y, app_price_trigger py_float old new x y ->
               log w' !! S (length (log w)) = Some LogRunStart) /\
  ((forall x y, ~ app_price_trigger py_float old new x y) ->
   App.on_price_change py_float fmt py_str CONFIG old new w = (Ret tt, w)).
Proof.
  intros w'.
  assert (Hrun : forall x y, app_price_trigger py_float old new x y ->
            log w' !! length (log w) = Some (LogPriceChange y x) /\
            log w' !! S (length (log w)) = Some LogRunStart).
  { intros x y Htrig. unfold w'.
    rewrite (app_price_change_triggered _ fmt py_str CONFIG _ _ _ _ w Htrig).
    set (w1 := snd (write_log (LogPriceChange y x) w)).
    destruct (app_run_after_start py_float fmt py_str CONFIG w1)
      as (_ & _ & _ & _ & _ & _ & Hlog & _).
    split; (eapply prefix_lookup_Some; [|exact Hlog]); unfold w1; cbn.
    - rewrite lookup_app_l; [|rewrite length_app; cbn; lia].
      by rewrite list_lookup_middle.
    - replace (S (length (log w))) with (length (log w ++ [LogPriceChange y x])%list)
        by (rewrite length_app; cbn; lia).
      by rewrite list_lookup_middle. }
  split; [|split].
  - intros x y. split; [|by apply Hrun].
    intros Hentry.
    destruct (app_price_trigger_or_not py_float old new) as [(x' & y' & Htrig)|Hno].
    + destruct (Hrun x' y' Htrig) as [Hentry' _].
      rewrite Hentry in Hentry'. by injection Hentry' as -> ->.
    + unfold w' in Hentry.
      rewrite (app_price_change_untriggered _ fmt py_str CONFIG _ _ w Hno) in Hentry.
      cbn in Hentry. by rewrite lookup_ge_None_2 in Hentry.
  - intros x y Htrig. apply (Hrun x y Htrig).
  - apply app_price_change_untriggered.
Qed.


(* ===================================================================== *)
(** * The service a notification goes to *)
(* ===================================================================== *)

Lemma break_at_dot_some s before after :
  break_at_dot s = Some (before, after) ->
  s = before ++ "." ++ after /\ dotless before.
Proof.
  revert before. induction s as [|c s IH]; intros before; cbn; [done|].
  destruct (Ascii.eqb_spec c "."%char) as [->|Hc].
  - intros [= <- <-]. split; [done|]. unfold dotless. cbn. apply not_elem_of_nil.
  - destruct (break_at_dot s) as [[b a]|]; [|done].
    intros [= <- <-]. destruct (IH b eq_refl) as [-> Hb].
    split; [done|]. unfold dotless in *. cbn.
    intros [Heq|Hin]%elem_of_cons; [congruence | done].
Qed.

Lemma break_at_dot_none s : break_at_dot s = None -> dotless s.
Proof.
  unfold dotless. induction s as [|c s IH]; cbn; [intros _; apply not_elem_of_nil|].
  destruct (Ascii.eqb_spec c "."%char) as [->|Hc]; [done|].
  destruct (break_at_dot s) as [[b a]|]; [done|].
  intros _ [Heq|Hin]%elem_of_cons; [congruence | by apply IH].
Qed.

(** With the same [notify_service] setting the two engines address the same
    service when the setting has a "." in it: the integration calls the
    domain before the first "." and the service after it, the app
    "domain/service".  With a setting without "." they part: the
    integration calls the setting as domain and as service, the app passes
    it on unchanged. *)
Theorem both_engines_address_the_same_service cfg CONFIG message :
  default Const.DEFAULT_NOTIFY_SERVICE (Integration.notify_service cfg)
  = App.notify_service CONFIG ->
  exists domain service,
    sc_target (integration_call cfg message) = [domain; service] /\ dotless domain /\
    ((App.notify_service CONFIG = domain ++ "." ++ service /\
      sc_target (app_call CONFIG message) = [domain ++ "/" ++ service])
     \/ (dotless (App.notify_service CONFIG) /\
         domain = App.notify_service CONFIG /\ service = App.notify_service CONFIG /\
         sc_target (app_call CONFIG message) = [App.notify_service CONFIG])).
Proof.
  intros Hsame. unfold integration_call, app_call, split_first_dot, replace_first_dot.
  rewrite Hsame. cbn [sc_target].
  destruct (break_at_dot (App.notify_service CONFIG)) as [[before after]|] eqn:Hbreak.
  - apply break_at_dot_some in Hbreak as [Heq Hdot].
    exists before, after. split; [done|]. split; [done|]. left. done.
  - apply break_at_dot_none in Hbreak.
    exists (App.notify_service CONFIG), (App.notify_service CONFIG).
    split; [done|]. split; [done|]. right. done.
Qed.

(** The shipped settings: the same service name in both. *)
Lemma both_engines_address_the_same_service_witness :
  default Const.DEFAULT_NOTIFY_SERVICE (Integration.notify_service scenario_cfg)
  = App.notify_service App.SHIPPED_CONFIG /\
  exists domain service,
    sc_target (integration_call scenario_cfg "m") = [domain; service] /\ dotless domain /\
    ((App.notify_service App.SHIPPED_CONFIG = domain ++ "." ++ service /\
      sc_target (app_call App.SHIPPED_CONFIG "m") = [domain ++ "/" ++ service])
     \/ (dotless (App.notify_service App.SHIPPED_CONFIG) /\
         domain = App.notify_service App.SHIPPED_CONFIG /\
         service = App.notify_service App.SHIPPED_CONFIG /\
         sc_target (app_call App.SHIPPED_CONFIG "m")
         = [App.notify_service App.SHIPPED_CONFIG])).
Proof.
  split; [reflexivity|].
  apply (both_engines_address_the_same_service scenario_cfg App.SHIPPED_CONFIG "m").
  reflexivity.
Defined.
